(** * Milkspider v3.1: pose protocol, shared ring, motion runtime and safety core

    A shallow embedding of the C and C++ sources of the robot's control
    plane, and the properties of its specification established (or refuted)
    on that embedding.

    Conventions.
    - A [w]-bit unsigned integer is a [Z] in [0, 2^w); every place where the
      C code truncates (assignment to a narrower type, unsigned arithmetic)
      is written out with [u8], [u16], [u32]; [i32] is the two's complement
      reading of a 32-bit pattern.
    - C arrays of the 13 servo channels are lists read with [nth _ _ 0];
      whole-array copies ([memcpy] of [sizeof] the array) are [copy13].
    - Module-level C statics are record fields; a C function that touches
      them takes the record and returns the updated one, together with its
      return value when it has one.
    - [xTaskGetTickCount()] is the argument [now] of the operation that
      reads it; the tick is 1 ms (freertos_config.h: 1000 Hz).
    - Writes on the two-wire bus, calls of [watchdog_feed] and stores to the
      watchdog's atomic state are appended to an event [trace], oldest
      first, so that "what was written" and "what was called" are
      observable. *)

From Stdlib Require Import ZArith List Bool Lia.
Import ListNotations.
Open Scope Z_scope.

(* ================================================================== *)
(** * Fixed-width integers *)

Module Ints.

Definition u8  (x : Z) : Z := x mod 256.
Definition u16 (x : Z) : Z := x mod 65536.
Definition u32 (x : Z) : Z := x mod 4294967296.

(** Two's complement reading of the low 32 bits. *)
Definition i32 (x : Z) : Z := (x + 2147483648) mod 4294967296 - 2147483648.

(** C truth value of an integer expression. *)
Definition truthy (x : Z) : bool := negb (x =? 0).

(** Channel indices [0 .. 12] of the loops [for (i = 0; i < SERVO_COUNT_TOTAL; i++)]. *)
Definition channels13 : list nat := seq 0 13.

(** [memcpy] of a 13-channel array. *)
Definition copy13 (src : list Z) : list Z :=
  map (fun i => nth i src 0) channels13.

End Ints.
Import Ints.

(* ================================================================== *)
(** * common/limits.h and muscle_rtos/drivers/limits.h *)

Module Limits.

Definition SERVO_PWM_MIN_US : Z := 500.
Definition SERVO_PWM_MAX_US : Z := 2500.
Definition SERVO_PWM_NEUTRAL_US : Z := 1500.

Definition SERVO_COUNT_LEGS : Z := 8.
Definition SERVO_COUNT_TOTAL : Z := 13.
Definition SERVO_CHANNEL_SCAN : Z := 12.

Definition HEARTBEAT_TIMEOUT_MS : Z := 250.
Definition MOTION_UPDATE_HZ : Z := 50.

(** [static inline uint16_t clamp_servo_us(uint16_t value)] *)
Definition clamp_servo_us (value : Z) : Z :=
  let value := u16 value in
  if value <? SERVO_PWM_MIN_US then SERVO_PWM_MIN_US
  else if value >? SERVO_PWM_MAX_US then SERVO_PWM_MAX_US
  else value.

End Limits.
Import Limits.

(* ================================================================== *)
(** * FreeRTOS time base (freertos_config.h) *)

Module Rtos.

(** freertos_config.h: "configTICK_RATE_HZ = 1000 Hz (1 ms tick)". *)
Definition configTICK_RATE_HZ : Z := 1000.

(** FreeRTOS' [pdMS_TO_TICKS]. *)
Definition pdMS_TO_TICKS (ms : Z) : Z := u32 (ms * configTICK_RATE_HZ / 1000).

(** Difference of two [TickType_t] values, an unsigned 32-bit subtraction. *)
Definition tick_sub (a b : Z) : Z := u32 (a - b).

End Rtos.
Import Rtos.

(* ================================================================== *)
(** * common/crc16_ccitt_false.c *)

Module Crc16.

Definition CRC16_POLY : Z := 0x1021.
Definition CRC16_INIT : Z := 0xFFFF.

(** Body of the inner loop [for (j = 0; j < 8; j++)]. *)
Definition crc_shift (crc : Z) : Z :=
  if truthy (Z.land crc 0x8000)
  then u16 (Z.lxor (Z.shiftl crc 1) CRC16_POLY)
  else u16 (Z.shiftl crc 1).

(** Body of the outer loop for one input byte. *)
Definition crc_byte (crc byte : Z) : Z :=
  let crc := u16 (Z.lxor crc (Z.shiftl (u16 byte) 8)) in
  Nat.iter 8 crc_shift crc.

(** [uint16_t crc16_ccitt_false(const uint8_t *data, size_t len)], with
    [data] the list of the [len] bytes. *)
Definition crc16_ccitt_false (data : list Z) : Z :=
  fold_left crc_byte data CRC16_INIT.

End Crc16.
Import Crc16.

(* ================================================================== *)
(** * common/protocol_posepacket31.h *)

Module Packet.

(** Modelled from the spec: [versioning.h] is not among the sources; the
    spec (section 3) and the layout comment of protocol_posepacket31.h give
    magic [0xB31A] and version 3.1. *)
Definition SPIDER_MAGIC : Z := 0xB31A.
Definition SPIDER_VERSION_MAJOR : Z := 3.
Definition SPIDER_VERSION_MINOR : Z := 1.

Record PosePacket31 := mkPacket {
  magic : Z;            (* uint16_t *)
  ver_major : Z;        (* uint8_t  *)
  ver_minor : Z;        (* uint8_t  *)
  seq : Z;              (* uint32_t *)
  t_ms : Z;             (* uint32_t *)
  flags : Z;            (* uint16_t *)
  servo_us : list Z;    (* uint16_t [13] *)
  crc16 : Z             (* uint16_t *)
}.

Definition FLAG_ESTOP : Z := 1.
Definition FLAG_HOLD : Z := 2.
Definition FLAG_CLAMP_ENABLE : Z := 4.
Definition FLAG_INTERP_FLOAT : Z := 0.
Definition FLAG_INTERP_Q16 : Z := 8.
Definition FLAG_SCAN_ENABLE : Z := 32.

(** [pkt->servo_us[i]] *)
Definition servo_at (pkt : PosePacket31) (i : nat) : Z := nth i (servo_us pkt) 0.

Definition le16 (x : Z) : list Z := [u8 x; u8 (Z.shiftr x 8)].
Definition le32 (x : Z) : list Z :=
  [u8 x; u8 (Z.shiftr x 8); u8 (Z.shiftr x 16); u8 (Z.shiftr x 24)].

(** The 42 bytes of the packed little-endian struct, in memory order. *)
Definition packet_bytes (pkt : PosePacket31) : list Z :=
  le16 (magic pkt) ++ [u8 (ver_major pkt); u8 (ver_minor pkt)]
  ++ le32 (seq pkt) ++ le32 (t_ms pkt) ++ le16 (flags pkt)
  ++ flat_map (fun i => le16 (servo_at pkt i)) channels13
  ++ le16 (crc16 pkt).

(** [crc16_ccitt_false((const uint8_t * )pkt, sizeof(PosePacket31) - 2)] *)
Definition packet_crc (pkt : PosePacket31) : Z :=
  crc16_ccitt_false (firstn 40 (packet_bytes pkt)).

(** [static inline void posepacket31_init(PosePacket31 *pkt, uint32_t seq)] *)
Definition posepacket31_init (seq : Z) : PosePacket31 :=
  mkPacket SPIDER_MAGIC SPIDER_VERSION_MAJOR SPIDER_VERSION_MINOR (u32 seq) 0
           FLAG_CLAMP_ENABLE (map (fun _ => SERVO_PWM_NEUTRAL_US) channels13) 0.

(** The all-zero slot content left by [memset] in [SharedMemory::map]. *)
Definition zero_packet : PosePacket31 :=
  mkPacket 0 0 0 0 0 0 (map (fun _ => 0) channels13) 0.

End Packet.
Import Packet.

(* ================================================================== *)
(** * State of the real-time side shared by its modules *)

Module Platform.

(** muscle_rtos/safety/watchdog.h *)
Inductive WatchdogState :=
| WATCHDOG_STATE_NORMAL
| WATCHDOG_STATE_TIMEOUT
| WATCHDOG_STATE_HOLD
| WATCHDOG_STATE_ESTOP.

Definition WatchdogState_eqb (a b : WatchdogState) : bool :=
  match a, b with
  | WATCHDOG_STATE_NORMAL, WATCHDOG_STATE_NORMAL
  | WATCHDOG_STATE_TIMEOUT, WATCHDOG_STATE_TIMEOUT
  | WATCHDOG_STATE_HOLD, WATCHDOG_STATE_HOLD
  | WATCHDOG_STATE_ESTOP, WATCHDOG_STATE_ESTOP => true
  | _, _ => false
  end.

(** What the real-time side does that is visible from outside a function. *)
Inductive Event :=
| EvI2cWrite (dev reg : Z) (data : list Z)   (* i2c_hal_write_buf *)
| EvWatchdogFeed (tick : Z)                  (* a call of watchdog_feed *)
| EvWatchdogStore (s : WatchdogState).       (* atomic_store(&s_state, s) *)

(** The statics of fault_flags.c, watchdog.c, failsafe.c and pca9685.c. *)
Record Rt := mkRt {
  s_fault_flags : Z;               (* fault_flags.c, uint32_t *)
  wd_state : WatchdogState;        (* watchdog.c: s_state *)
  wd_last_feed_tick : Z;           (* watchdog.c: s_last_feed_tick *)
  fs_estop_active : Z;             (* failsafe.c: s_estop_active *)
  s_i2c_addr : Z;                  (* pca9685.c *)
  trace : list Event
}.

Definition emit (e : Event) (r : Rt) : Rt :=
  mkRt (s_fault_flags r) (wd_state r) (wd_last_feed_tick r)
       (fs_estop_active r) (s_i2c_addr r) (trace r ++ [e]).

Definition with_fault_flags (f : Z) (r : Rt) : Rt :=
  mkRt f (wd_state r) (wd_last_feed_tick r)
       (fs_estop_active r) (s_i2c_addr r) (trace r).

Definition with_wd_state (s : WatchdogState) (r : Rt) : Rt :=
  mkRt (s_fault_flags r) s (wd_last_feed_tick r)
       (fs_estop_active r) (s_i2c_addr r) (trace r).

Definition with_last_feed (t : Z) (r : Rt) : Rt :=
  mkRt (s_fault_flags r) (wd_state r) t
       (fs_estop_active r) (s_i2c_addr r) (trace r).

Definition with_fs_estop (b : Z) (r : Rt) : Rt :=
  mkRt (s_fault_flags r) (wd_state r) (wd_last_feed_tick r)
       b (s_i2c_addr r) (trace r).

(** A C function pointer of type [void ( * )(void)]; [None] is [NULL]. *)
Definition Callback := option (Rt -> Rt).

Definition invoke (cb : Callback) (r : Rt) : Rt :=
  match cb with
  | Some f => f r
  | None => r
  end.

(** The statics as the program image initialises them: no fault, watchdog
    NORMAL with feed tick 0, PCA9685 at its default address 0x40, and
    nothing on record yet. *)
Definition rt_boot : Rt :=
  mkRt 0 WATCHDOG_STATE_NORMAL 0 0 0x40 [].

End Platform.
Import Platform.

(* ================================================================== *)
(** * muscle_rtos/safety/fault_flags.{h,c} *)

Module FaultFlags.

Definition FAULT_NONE : Z := 0.
Definition FAULT_PCA9685_INIT : Z := 1.
Definition FAULT_QUEUE_CREATE : Z := 2.
Definition FAULT_RPMSG_SIZE : Z := 4.
Definition FAULT_PACKET_MAGIC : Z := 8.
Definition FAULT_PACKET_VERSION : Z := 16.
Definition FAULT_PACKET_CRC : Z := 32.
Definition FAULT_HEARTBEAT_TIMEOUT : Z := 64.
Definition FAULT_SERVO_CLAMP : Z := 128.
Definition FAULT_I2C_ERROR : Z := 256.
Definition FAULT_ESTOP_ACTIVE : Z := 512.

Definition fault_flags_init (r : Rt) : Rt := with_fault_flags 0 r.

(** [s_fault_flags |= (uint32_t)flag] *)
Definition fault_flags_set (flag : Z) (r : Rt) : Rt :=
  with_fault_flags (Z.lor (s_fault_flags r) (u32 flag)) r.

(** [s_fault_flags &= ~(uint32_t)flag] *)
Definition fault_flags_clear (flag : Z) (r : Rt) : Rt :=
  with_fault_flags (Z.land (s_fault_flags r) (Z.lxor 0xFFFFFFFF (u32 flag))) r.

Definition fault_flags_is_set (flag : Z) (r : Rt) : bool :=
  truthy (Z.land (s_fault_flags r) (u32 flag)).

Definition fault_flags_get_all (r : Rt) : Z := s_fault_flags r.

End FaultFlags.
Import FaultFlags.

(* ================================================================== *)
(** * muscle_rtos/drivers/pca9685.{h,c} *)

Module Pca9685.

Definition PCA9685_REG_LED0_ON_L : Z := 0x06.
Definition PCA9685_CHANNEL_COUNT : Z := 16.

(** [i2c_hal_write_buf]: the bytes go on the bus; the SDK call behind it is
    not part of the sources and its status is taken to be [0]. *)
Definition i2c_hal_write_buf (dev reg : Z) (data : list Z) (r : Rt) : Z * Rt :=
  (0, emit (EvI2cWrite dev reg data) r).

(** [int pca9685_set_pwm_raw(uint8_t channel, uint16_t on, uint16_t off)] *)
Definition pca9685_set_pwm_raw (channel on off : Z) (r : Rt) : Z * Rt :=
  let channel := u8 channel in
  let on := u16 on in
  let off := u16 off in
  if channel >=? PCA9685_CHANNEL_COUNT then (-1, r)
  else
    let reg := u8 (PCA9685_REG_LED0_ON_L + channel * 4) in
    let data := [u8 (Z.land on 0xFF); u8 (Z.shiftr on 8);
                 u8 (Z.land off 0xFF); u8 (Z.shiftr off 8)] in
    i2c_hal_write_buf (s_i2c_addr r) reg data r.

(** The two saturating assignments at the head of [pca9685_set_pwm_us]. *)
Definition saturate_us (pulse_us : Z) : Z :=
  let pulse_us := if pulse_us <? SERVO_PWM_MIN_US then SERVO_PWM_MIN_US else pulse_us in
  let pulse_us := if pulse_us >? SERVO_PWM_MAX_US then SERVO_PWM_MAX_US else pulse_us in
  pulse_us.

(** [(uint16_t)(((uint32_t)pulse_us * 4096) / 20000)] *)
Definition us_to_ticks (pulse_us : Z) : Z :=
  u16 (u32 (u32 pulse_us * 4096) / 20000).

(** [int pca9685_set_pwm_us(uint8_t channel, uint16_t pulse_us)] *)
Definition pca9685_set_pwm_us (channel pulse_us : Z) (r : Rt) : Z * Rt :=
  let channel := u8 channel in
  let pulse_us := u16 pulse_us in
  if channel >=? PCA9685_CHANNEL_COUNT then (-1, r)
  else
    let pulse_us := saturate_us pulse_us in
    let off_tick := us_to_ticks pulse_us in
    pca9685_set_pwm_raw channel 0 off_tick r.

(** [void pca9685_set_all_us(uint16_t pulse_us)] *)
Definition pca9685_set_all_us (pulse_us : Z) (r : Rt) : Rt :=
  fold_left (fun r i => snd (pca9685_set_pwm_us (Z.of_nat i) pulse_us r))
            (List.seq 0 16) r.

End Pca9685.
Import Pca9685.

(* ================================================================== *)
(** * muscle_rtos/safety/failsafe.{h,c} *)

Module Failsafe.

Definition failsafe_set_safe_pose (r : Rt) : Rt :=
  pca9685_set_all_us SERVO_PWM_NEUTRAL_US r.

Definition failsafe_enter_estop (r : Rt) : Rt :=
  let r := with_fs_estop 1 r in
  let r := fault_flags_set FAULT_ESTOP_ACTIVE r in
  failsafe_set_safe_pose r.

Definition failsafe_clear_estop (r : Rt) : Z * Rt :=
  if truthy (fs_estop_active r)
  then (0, fault_flags_clear FAULT_ESTOP_ACTIVE (with_fs_estop 0 r))
  else (0, r).

Definition failsafe_is_estop_active (r : Rt) : Z := fs_estop_active r.

(** "HOLD maintains current position": the body is empty. *)
Definition failsafe_enter_hold (r : Rt) : Rt := r.

End Failsafe.
Import Failsafe.

(* ================================================================== *)
(** * muscle_rtos/safety/watchdog.{h,c} *)

Module Watchdog.

Definition WATCHDOG_CHECK_PERIOD_MS : Z := 25.

(** [atomic_store(&s_state, s)] *)
Definition store_state (s : WatchdogState) (r : Rt) : Rt :=
  emit (EvWatchdogStore s) (with_wd_state s r).

(** [void watchdog_init(timeout_cb, estop_cb)]; the two callbacks are
    fixed from here on and are passed to the functions that fire them. *)
Definition watchdog_init (now : Z) (r : Rt) : Rt :=
  store_state WATCHDOG_STATE_NORMAL (with_last_feed (u32 now) r).

(** [void watchdog_feed(void)] *)
Definition watchdog_feed (now : Z) (r : Rt) : Rt :=
  let r := emit (EvWatchdogFeed (u32 now)) (with_last_feed (u32 now) r) in
  let current := wd_state r in
  if WatchdogState_eqb current WATCHDOG_STATE_TIMEOUT
     || WatchdogState_eqb current WATCHDOG_STATE_HOLD
  then fault_flags_clear FAULT_HEARTBEAT_TIMEOUT
         (store_state WATCHDOG_STATE_NORMAL r)
  else r.

(** [void watchdog_signal_estop(void)] *)
Definition watchdog_signal_estop (estop_cb : Callback) (r : Rt) : Rt :=
  let r := store_state WATCHDOG_STATE_ESTOP r in
  let r := fault_flags_set FAULT_ESTOP_ACTIVE r in
  invoke estop_cb r.

(** [int watchdog_clear_estop(void)] *)
Definition watchdog_clear_estop (now : Z) (r : Rt) : Z * Rt :=
  let current := wd_state r in
  if negb (WatchdogState_eqb current WATCHDOG_STATE_ESTOP) then (-1, r)
  else
    let last := wd_last_feed_tick r in
    if tick_sub (u32 now) last <? pdMS_TO_TICKS HEARTBEAT_TIMEOUT_MS
    then (0, fault_flags_clear FAULT_ESTOP_ACTIVE
               (store_state WATCHDOG_STATE_NORMAL r))
    else (-1, store_state WATCHDOG_STATE_HOLD r).

Definition watchdog_get_state (r : Rt) : WatchdogState := wd_state r.

Definition watchdog_is_motion_allowed (r : Rt) : bool :=
  WatchdogState_eqb (wd_state r) WATCHDOG_STATE_NORMAL.

(** One turn of the [while (1)] loop of [watchdog_task_entry], woken at
    tick [now]; the turn ends in [vTaskDelayUntil]. *)
Definition watchdog_check (timeout_cb : Callback) (now : Z) (r : Rt) : Rt :=
  let last_feed := wd_last_feed_tick r in
  let current := wd_state r in
  if WatchdogState_eqb current WATCHDOG_STATE_ESTOP then r
  else
    let elapsed := tick_sub (u32 now) last_feed in
    if elapsed >? pdMS_TO_TICKS HEARTBEAT_TIMEOUT_MS then
      let r :=
        if WatchdogState_eqb current WATCHDOG_STATE_NORMAL
        then invoke timeout_cb
               (fault_flags_set FAULT_HEARTBEAT_TIMEOUT
                  (store_state WATCHDOG_STATE_TIMEOUT r))
        else r in
      if WatchdogState_eqb (wd_state r) WATCHDOG_STATE_TIMEOUT
      then failsafe_enter_hold (store_state WATCHDOG_STATE_HOLD r)
      else r
    else r.

(** The watchdog task over [n] consecutive periods: wake-ups at ticks
    [first], [first + 25], ... ([vTaskDelayUntil] with a fixed period), with
    nothing else touching the watchdog in between. *)
Fixpoint watchdog_run (timeout_cb : Callback) (n : nat) (first : Z) (r : Rt) : Rt :=
  match n with
  | O => r
  | S n' =>
      watchdog_run timeout_cb n'
        (first + pdMS_TO_TICKS WATCHDOG_CHECK_PERIOD_MS)
        (watchdog_check timeout_cb first r)
  end.

End Watchdog.
Import Watchdog.

(* ================================================================== *)
(** * muscle_rtos/motion_runtime/interpolator.{h,c} *)

Module Interpolator.

Inductive InterpMode := INTERP_MODE_FLOAT | INTERP_MODE_Q16.

(** The statics of interpolator.c. *)
Record Interp := mkInterp {
  s_start_us : list Z;
  s_target_us : list Z;
  s_duration_ms : Z;     (* uint32_t *)
  s_elapsed_ms : Z;      (* uint32_t *)
  s_mode : InterpMode;
  s_active : bool
}.

(** Zero-initialised statics. *)
Definition interp_boot : Interp :=
  mkInterp (map (fun _ => 0) channels13) (map (fun _ => 0) channels13)
           0 0 INTERP_MODE_FLOAT false.

Definition TICK_PERIOD_MS : Z := 1000 / MOTION_UPDATE_HZ.

(** [void interpolator_start(current_us, target_us, duration_ms, mode)] *)
Definition interpolator_start (current_us target_us : list Z)
                              (duration_ms : Z) (mode : InterpMode) : Interp :=
  let duration_ms := u32 duration_ms in
  mkInterp (copy13 current_us) (copy13 target_us)
           (if duration_ms >? 0 then duration_ms else 1)
           0 mode true.

(** The Q16.16 branch for one channel:
    [t_q16 = (s_elapsed_ms << 16) / s_duration_ms] in unsigned 32-bit
    arithmetic, then [start + ((delta * (int32_t)t_q16) >> 16)] in signed
    32-bit arithmetic (wrapping, arithmetic right shift), truncated to
    [uint16_t]. *)
Definition q16_lerp (start target elapsed duration : Z) : Z :=
  let t_q16 := u32 (Z.shiftl elapsed 16) / duration in
  let delta := i32 (target - start) in
  let interp := i32 (start + Z.shiftr (i32 (delta * i32 t_q16)) 16) in
  u16 interp.

(** An idealised reading of the float branch, exact in the rationals:
    [start + (target - start) * elapsed / duration], truncated. *)
Definition float_lerp_ideal (start target elapsed duration : Z) : Z :=
  start + (target - start) * elapsed / duration.

Section FloatArithmetic.

(** The float branch for one channel,
    [(uint16_t)(start + (target - start) * t)] with
    [t = (float)s_elapsed_ms / (float)s_duration_ms] in binary32: the
    rounding of the target's float unit is left open, the function takes
    [start], [target], [elapsed] and [duration]. *)
Variable float_lerp : Z -> Z -> Z -> Z -> Z.

(** [bool interpolator_tick(uint16_t *output_us)]: the return value, the
    statics and the array behind [output_us] after the call. *)
Definition interpolator_tick (ip : Interp) (output_us : list Z)
  : bool * Interp * list Z :=
  if negb (s_active ip) then (true, ip, output_us)
  else
    let elapsed := u32 (s_elapsed_ms ip + TICK_PERIOD_MS) in
    let ip := mkInterp (s_start_us ip) (s_target_us ip) (s_duration_ms ip)
                       elapsed (s_mode ip) (s_active ip) in
    if elapsed >=? s_duration_ms ip then
      (true,
       mkInterp (s_start_us ip) (s_target_us ip) (s_duration_ms ip)
                elapsed (s_mode ip) false,
       copy13 (s_target_us ip) ++ skipn 13 output_us)
    else
      let lerp :=
        match s_mode ip with
        | INTERP_MODE_FLOAT => fun a b => u16 (float_lerp a b elapsed (s_duration_ms ip))
        | INTERP_MODE_Q16 => fun a b => q16_lerp a b elapsed (s_duration_ms ip)
        end in
      (false, ip,
       map (fun i => lerp (nth i (s_start_us ip) 0) (nth i (s_target_us ip) 0))
           channels13
       ++ skipn 13 output_us).

(** [n] calls of [interpolator_tick] in a row on the same array: the
    statics and the array after the last one. *)
Fixpoint interpolator_ticks (n : nat) (ip : Interp) (output_us : list Z)
  : Interp * list Z :=
  match n with
  | O => (ip, output_us)
  | S n' =>
      let '(_, ip', out') := interpolator_tick ip output_us in
      interpolator_ticks n' ip' out'
  end.

End FloatArithmetic.

(** [void interpolator_abort(void)] *)
Definition interpolator_abort (ip : Interp) : Interp :=
  mkInterp (s_start_us ip) (s_target_us ip) (s_duration_ms ip)
           (s_elapsed_ms ip) (s_mode ip) false.

End Interpolator.

(* ================================================================== *)
(** * muscle_rtos/motion_task.c *)

Module MotionTask.

Import Interpolator.

Inductive MotionState :=
| MOTION_STATE_IDLE
| MOTION_STATE_MOVING
| MOTION_STATE_HOLD
| MOTION_STATE_ESTOP.

Definition MotionState_eqb (a b : MotionState) : bool :=
  match a, b with
  | MOTION_STATE_IDLE, MOTION_STATE_IDLE
  | MOTION_STATE_MOVING, MOTION_STATE_MOVING
  | MOTION_STATE_HOLD, MOTION_STATE_HOLD
  | MOTION_STATE_ESTOP, MOTION_STATE_ESTOP => true
  | _, _ => false
  end.

(** The statics of motion_task.c together with the modules it drives. *)
Record Motion := mkMotion {
  rt : Rt;
  interp : Interp;
  s_current_us : list Z;
  s_target_us : list Z;
  s_last_packet_tick : Z;
  s_state : MotionState
}.

Definition with_rt (r : Rt) (m : Motion) : Motion :=
  mkMotion r (interp m) (s_current_us m) (s_target_us m)
           (s_last_packet_tick m) (s_state m).

Definition with_state (s : MotionState) (m : Motion) : Motion :=
  mkMotion (rt m) (interp m) (s_current_us m) (s_target_us m)
           (s_last_packet_tick m) s.

Definition MOTION_UPDATE_PERIOD_MS : Z := 1000 / MOTION_UPDATE_HZ.

(** archive/app_main.c, the program that starts [motion_task_entry]:
    [on_watchdog_estop] calls [failsafe_enter_estop]. *)
Definition on_watchdog_estop : Callback := Some failsafe_enter_estop.

(** archive/app_main.c: [on_watchdog_timeout] has an empty body. *)
Definition on_watchdog_timeout : Callback := Some (fun r => r).

(** archive/app_main.c, [app_main]: fault flags reset, the 13 channels
    set to neutral, watchdog initialised. The register set-up done by
    [pca9685_init] is left out. *)
Definition app_main (now : Z) : Rt :=
  let r := fault_flags_init rt_boot in
  let r := fold_left
             (fun r i => snd (pca9685_set_pwm_us (Z.of_nat i) SERVO_PWM_NEUTRAL_US r))
             channels13 r in
  watchdog_init now r.

(** [motion_task_entry] up to the [while (1)]. *)
Definition motion_task_start (now : Z) (r : Rt) : Motion :=
  mkMotion r interp_boot
           (map (fun _ => SERVO_PWM_NEUTRAL_US) channels13)
           (map (fun _ => SERVO_PWM_NEUTRAL_US) channels13)
           (u32 now) MOTION_STATE_IDLE.

(** "Output to servos": [pca9685_set_pwm_us(i, s_current_us[i])] for the
    13 channels. *)
Definition motion_output (m : Motion) : Motion :=
  with_rt
    (fold_left
       (fun r i => snd (pca9685_set_pwm_us (Z.of_nat i) (nth i (s_current_us m) 0) r))
       channels13 (rt m))
    m.

(** "Sync local state with watchdog". *)
Definition motion_sync (m : Motion) : Motion :=
  let wdog_state := watchdog_get_state (rt m) in
  if WatchdogState_eqb wdog_state WATCHDOG_STATE_ESTOP
     && negb (MotionState_eqb (s_state m) MOTION_STATE_ESTOP)
  then with_state MOTION_STATE_ESTOP m
  else if (WatchdogState_eqb wdog_state WATCHDOG_STATE_TIMEOUT
           || WatchdogState_eqb wdog_state WATCHDOG_STATE_HOLD)
          && negb (MotionState_eqb (s_state m) MOTION_STATE_ESTOP)
  then with_state MOTION_STATE_HOLD m
  else m.

Section FloatArithmetic.

Variable float_lerp : Z -> Z -> Z -> Z -> Z.

(** The [switch (s_state)]. *)
Definition motion_switch (m : Motion) : Motion :=
  match s_state m with
  | MOTION_STATE_MOVING =>
      let '(complete, ip, out) :=
        interpolator_tick float_lerp (interp m) (s_current_us m) in
      mkMotion (rt m) ip out (s_target_us m) (s_last_packet_tick m)
               (if complete then MOTION_STATE_IDLE else MOTION_STATE_MOVING)
  | MOTION_STATE_HOLD | MOTION_STATE_IDLE | MOTION_STATE_ESTOP => m
  end.

(** The part of the loop body below the packet handling: watchdog sync,
    state machine, output; it ends in [vTaskDelayUntil], one motion tick. *)
Definition motion_tick (m : Motion) : Motion :=
  motion_output (motion_switch (motion_sync m)).

(** One turn of the [while (1)] loop of [motion_task_entry]; [rx] is what
    [xQueueReceive] delivered, if anything. A turn left through [continue]
    neither writes the channels nor waits for the tick. *)
Definition motion_loop (estop_cb : Callback) (now : Z)
                       (rx : option PosePacket31) (m : Motion) : Motion :=
  match rx with
  | Some pkt =>
      let m := mkMotion (watchdog_feed now (rt m)) (interp m) (s_current_us m)
                        (s_target_us m) (u32 now) (s_state m) in
      if truthy (Z.land (flags pkt) FLAG_ESTOP) then
        with_rt (watchdog_signal_estop estop_cb (rt m))
                (with_state MOTION_STATE_ESTOP m)
      else if truthy (Z.land (flags pkt) FLAG_HOLD) then
        with_state MOTION_STATE_HOLD m
      else
        let target := map (fun i => clamp_servo_us (servo_at pkt i)) channels13 in
        let ip := interpolator_start (s_current_us m) target (t_ms pkt)
                    (if truthy (Z.land (flags pkt) FLAG_INTERP_Q16)
                     then INTERP_MODE_Q16 else INTERP_MODE_FLOAT) in
        motion_tick
          (mkMotion (rt m) ip (s_current_us m) target (s_last_packet_tick m)
                    MOTION_STATE_MOVING)
  | None => motion_tick m
  end.

(** Consecutive turns of the loop, one per element of [inputs]: the tick
    count read in that turn and the packet received in it. *)
Definition motion_run (estop_cb : Callback)
                      (inputs : list (Z * option PosePacket31)) (m : Motion) : Motion :=
  fold_left (fun m i => motion_loop estop_cb (fst i) (snd i) m) inputs m.

End FloatArithmetic.

End MotionTask.

(* ================================================================== *)
(** * common/shared_motion_buffer.h *)

Module SharedRing.

Definition PACKET_RING_SIZE : Z := 8.
Definition PACKET_SLOT_SIZE : Z := 64.

Definition SHARED_FLAG_BRAIN_READY : Z := 1.
Definition SHARED_FLAG_MUSCLE_READY : Z := 2.
Definition SHARED_FLAG_ESTOP : Z := 4.
Definition SHARED_FLAG_OVERFLOW : Z := 8.

Definition CMD_MOTION_PACKET : Z := 0x20.
Definition CMD_MOTION_ACK : Z := 0x21.
Definition CMD_MOTION_NACK : Z := 0x22.
Definition CMD_MOTION_HEARTBEAT : Z := 0x23.

(** The shared region. A slot is read and written as a [PosePacket31]
    ([memcpy] of the struct in, a cast of the slot pointer out); the padding
    of a slot is never looked at. *)
Record SharedMotionBuffer := mkBuf {
  write_idx : Z;                 (* uint32_t *)
  read_idx : Z;                  (* uint32_t *)
  flags : Z;                     (* uint32_t *)
  reserved : Z;                  (* uint32_t *)
  packets : list PosePacket31    (* [PACKET_RING_SIZE] slots *)
}.

Definition with_write_idx (w : Z) (b : SharedMotionBuffer) : SharedMotionBuffer :=
  mkBuf w (read_idx b) (flags b) (reserved b) (packets b).

Definition with_read_idx (r : Z) (b : SharedMotionBuffer) : SharedMotionBuffer :=
  mkBuf (write_idx b) r (flags b) (reserved b) (packets b).

Definition with_flags (f : Z) (b : SharedMotionBuffer) : SharedMotionBuffer :=
  mkBuf (write_idx b) (read_idx b) f (reserved b) (packets b).

Definition with_packets (l : list PosePacket31) (b : SharedMotionBuffer)
  : SharedMotionBuffer :=
  mkBuf (write_idx b) (read_idx b) (flags b) (reserved b) l.

(** [l[i] = x] on an array held as a list. *)
Fixpoint list_set {A : Type} (i : nat) (x : A) (l : list A) : list A :=
  match l, i with
  | [], _ => []
  | _ :: t, O => x :: t
  | h :: t, S i' => h :: list_set i' x t
  end.

Definition slot_get (b : SharedMotionBuffer) (slot : Z) : PosePacket31 :=
  nth (Z.to_nat slot) (packets b) zero_packet.

Definition slot_put (slot : Z) (pkt : PosePacket31) (b : SharedMotionBuffer)
  : SharedMotionBuffer :=
  with_packets (list_set (Z.to_nat slot) pkt (packets b)) b.

Definition shared_buffer_available (buf : SharedMotionBuffer) : Z :=
  u32 (write_idx buf - read_idx buf).

Definition shared_buffer_is_full (buf : SharedMotionBuffer) : bool :=
  u32 (write_idx buf - read_idx buf) >=? PACKET_RING_SIZE.

Definition shared_buffer_is_empty (buf : SharedMotionBuffer) : bool :=
  write_idx buf =? read_idx buf.

Definition shared_buffer_slot_index (idx : Z) : Z := idx mod PACKET_RING_SIZE.

End SharedRing.

(* ================================================================== *)
(** * brain_linux/src/shared_memory.{h,cpp} *)

Module SharedMemory.

Import SharedRing.

(** [class SharedMemory]; [m_buffer] is [None] while unmapped. *)
Record SharedMemory := mkShm {
  m_buffer : option SharedMotionBuffer;
  m_mem_fd : Z
}.

(** The region as [SharedMemory::map] leaves it once [open] and [mmap]
    have succeeded: indices, flags and slots zeroed. *)
Definition zeroed_region : SharedMotionBuffer :=
  mkBuf 0 0 0 0 (map (fun _ => zero_packet) (List.seq 0 8)).

Definition mapped : SharedMemory := mkShm (Some zeroed_region) 3.

(** [bool SharedMemory::writePacket(const PosePacket31* pkt, uint32_t& out_write_idx)]:
    the result, the final value of the reference [out_write_idx], and the
    object. [pkt = None] is the null pointer. *)
Definition writePacket (pkt : option PosePacket31) (out_write_idx : Z)
                       (shm : SharedMemory) : bool * Z * SharedMemory :=
  match m_buffer shm, pkt with
  | None, _ | _, None => (false, out_write_idx, shm)
  | Some buf, Some pkt =>
      let write_idx := write_idx buf in
      let read_idx := read_idx buf in
      if u32 (write_idx - read_idx) >=? PACKET_RING_SIZE then
        (false, out_write_idx, shm)
      else
        let slot := write_idx mod PACKET_RING_SIZE in
        let buf := slot_put slot pkt buf in
        let buf := with_write_idx (u32 (write_idx + 1)) buf in
        (true, u32 (write_idx + 1), mkShm (Some buf) (m_mem_fd shm))
  end.

Definition isFull (shm : SharedMemory) : bool :=
  match m_buffer shm with
  | None => true
  | Some buf => u32 (write_idx buf - read_idx buf) >=? PACKET_RING_SIZE
  end.

Definition available (shm : SharedMemory) : Z :=
  match m_buffer shm with
  | None => 0
  | Some buf =>
      let used := u32 (write_idx buf - read_idx buf) in
      if used <? PACKET_RING_SIZE then PACKET_RING_SIZE - used else 0
  end.

(** One call of [writePacket] per packet of [pkts], in a row, nothing
    drained in between: the results, oldest first, and the object after
    the last call. *)
Fixpoint writePackets (pkts : list PosePacket31) (shm : SharedMemory)
  : list bool * SharedMemory :=
  match pkts with
  | [] => ([], shm)
  | pkt :: rest =>
      let '(ok, _, shm) := writePacket (Some pkt) 0 shm in
      let '(oks, shm) := writePackets rest shm in
      (ok :: oks, shm)
  end.

End SharedMemory.

(* ================================================================== *)
(** * brain_linux/archive/brain_daemon_skeleton/ipc_muscle_rpmsg.cpp *)

Module IpcMuscleRpmsg.

Import SharedRing.

Record IpcMuscleRpmsg := mkIpc {
  m_cmdqu_fd : Z;
  m_shared_buf : option SharedMotionBuffer;
  m_tx_count : Z;
  m_drop_count : Z
}.

(** [bool IpcMuscleRpmsg::sendViaCmdqu(const void *data, size_t len)] for a
    payload that is one [PosePacket31] ([len = 42], below the slot size);
    [ioctl_ret] is what the mailbox [ioctl] returns. *)
Definition sendViaCmdqu (ioctl_ret : Z) (data : PosePacket31)
                        (ipc : IpcMuscleRpmsg) : bool * IpcMuscleRpmsg :=
  if m_cmdqu_fd ipc <? 0 then (false, ipc) else
  match m_shared_buf ipc with
  | None => (false, ipc)
  | Some buf =>
      let write_idx := write_idx buf in
      if shared_buffer_is_full buf then
        (false,
         mkIpc (m_cmdqu_fd ipc)
               (Some (with_flags (Z.lor (flags buf) SHARED_FLAG_OVERFLOW) buf))
               (m_tx_count ipc) (u32 (m_drop_count ipc + 1)))
      else
        let slot := shared_buffer_slot_index write_idx in
        let buf := slot_put slot data buf in
        let buf := with_write_idx (u32 (write_idx + 1)) buf in
        if ioctl_ret <? 0 then
          (false, mkIpc (m_cmdqu_fd ipc) (Some buf) (m_tx_count ipc) (m_drop_count ipc))
        else
          (true, mkIpc (m_cmdqu_fd ipc) (Some buf)
                       (u32 (m_tx_count ipc + 1)) (m_drop_count ipc))
  end.

End IpcMuscleRpmsg.

(* ================================================================== *)
(** * brain_linux/src/mailbox.{h,cpp} *)

Module Mailbox.

Definition CMD_MOTION_PACKET : Z := 0x20.
Definition CMD_MOTION_ACK : Z := 0x21.
Definition CMD_HEARTBEAT : Z := 0x22.
Definition CMD_ESTOP : Z := 0x23.

(** [struct cmdqu_t]; [cmd_id] is a 7-bit field, [block] a 1-bit field. *)
Record cmdqu_t := mkCmd {
  ip_id : Z;
  cmd_id : Z;
  block : Z;
  mstime : Z;
  param_ptr : Z
}.

Record Mailbox := mkMailbox {
  m_fd : Z;
  m_tx_count : Z
}.

(** [bool Mailbox::sendCommand(uint8_t cmd_id, uint32_t param, bool blocking)]:
    the result, the command handed to the driver (if [ioctl] was reached),
    and the object; [ioctl_ret] is what [ioctl] returns. *)
Definition sendCommand (ioctl_ret : Z) (cmd_id param : Z) (blocking : bool)
                       (mb : Mailbox) : bool * option cmdqu_t * Mailbox :=
  if m_fd mb <? 0 then (false, None, mb)
  else
    let cmd := mkCmd 0 (Z.land (u8 cmd_id) 0x7F) (if blocking then 1 else 0)
                     0 (u32 param) in
    if ioctl_ret <? 0 then (false, Some cmd, mb)
    else (true, Some cmd, mkMailbox (m_fd mb) (u32 (m_tx_count mb + 1))).

Definition notifyPacketReady (ioctl_ret : Z) (write_idx : Z) (mb : Mailbox) :=
  sendCommand ioctl_ret CMD_MOTION_PACKET write_idx false mb.

Definition sendEstop (ioctl_ret : Z) (mb : Mailbox) :=
  sendCommand ioctl_ret CMD_ESTOP 0 false mb.

Definition sendHeartbeat (ioctl_ret : Z) (mb : Mailbox) :=
  sendCommand ioctl_ret CMD_HEARTBEAT 0 false mb.

End Mailbox.

(* ================================================================== *)
(** * muscle_rtos/app_main_v1.c *)

Module AppMainV1.

Import SharedRing.

Definition CMD_HEARTBEAT : Z := 0x10.
Definition CMD_MOTION_PACKET : Z := 0x20.
Definition CMD_ESTOP : Z := 0x30.

(** The statics of app_main_v1.c and the modules below it. [applied] is a
    ghost log: the packets handed to [apply_servo_values], oldest first. *)
Record V1 := mkV1 {
  rt : Rt;
  g_shared_buf : option SharedMotionBuffer;
  g_last_seq : Z;        (* uint32_t *)
  g_rx_count : Z;        (* uint32_t *)
  g_drop_count : Z;      (* uint32_t *)
  g_estop_active : Z;    (* int *)
  applied : list PosePacket31
}.

Definition with_rt (r : Rt) (v : V1) : V1 :=
  mkV1 r (g_shared_buf v) (g_last_seq v) (g_rx_count v) (g_drop_count v)
       (g_estop_active v) (applied v).

Definition with_buf (b : option SharedMotionBuffer) (v : V1) : V1 :=
  mkV1 (rt v) b (g_last_seq v) (g_rx_count v) (g_drop_count v)
       (g_estop_active v) (applied v).

(** [fault_flags_set(flag); g_drop_count++;] *)
Definition drop_with_fault (flag : Z) (v : V1) : V1 :=
  mkV1 (fault_flags_set flag (rt v)) (g_shared_buf v) (g_last_seq v)
       (g_rx_count v) (u32 (g_drop_count v + 1)) (g_estop_active v) (applied v).

(** [g_drop_count++;] *)
Definition drop (v : V1) : V1 :=
  mkV1 (rt v) (g_shared_buf v) (g_last_seq v)
       (g_rx_count v) (u32 (g_drop_count v + 1)) (g_estop_active v) (applied v).

(** [static int validate_packet(const PosePacket31 *pkt)] *)
Definition validate_packet (pkt : PosePacket31) (v : V1) : Z * V1 :=
  if negb (magic pkt =? SPIDER_MAGIC) then
    (-1, drop_with_fault FAULT_PACKET_MAGIC v)
  else if negb (ver_major pkt =? SPIDER_VERSION_MAJOR)
          || negb (ver_minor pkt =? SPIDER_VERSION_MINOR) then
    (-2, drop_with_fault FAULT_PACKET_VERSION v)
  else
    let computed_crc := packet_crc pkt in
    if negb (computed_crc =? crc16 pkt) then
      (-3, drop_with_fault FAULT_PACKET_CRC v)
    else if (seq pkt <=? g_last_seq v) && negb (g_last_seq v =? 0) then
      (-4, drop v)
    else (0, v).

(** [static void apply_servo_values(const PosePacket31 *pkt)] *)
Definition apply_servo_values (pkt : PosePacket31) (v : V1) : V1 :=
  mkV1 (fold_left
          (fun r ch => snd (pca9685_set_pwm_us (Z.of_nat ch) (servo_at pkt ch) r))
          channels13 (rt v))
       (g_shared_buf v) (g_last_seq v) (g_rx_count v) (g_drop_count v)
       (g_estop_active v) (applied v ++ [pkt]).

Definition set_all_servos_neutral (r : Rt) : Rt :=
  pca9685_set_all_us SERVO_PWM_NEUTRAL_US r.

(** [on_watchdog_timeout] and [on_watchdog_estop] of app_main_v1.c. *)
Definition on_watchdog_timeout : Callback := Some set_all_servos_neutral.
Definition on_watchdog_estop : Callback := Some failsafe_enter_estop.

(** [static void handle_estop(void)] *)
Definition handle_estop (v : V1) : V1 :=
  let r := set_all_servos_neutral (fault_flags_set FAULT_ESTOP_ACTIVE (rt v)) in
  let buf :=
    match g_shared_buf v with
    | Some b => Some (with_flags (Z.lor (flags b) SHARED_FLAG_ESTOP) b)
    | None => None
    end in
  mkV1 r buf (g_last_seq v) (g_rx_count v) (g_drop_count v) 1 (applied v).

(** [static void handle_heartbeat(void)] *)
Definition handle_heartbeat (now : Z) (v : V1) : V1 :=
  with_rt (watchdog_feed now (rt v)) v.

(** The [else] branch of the ESTOP test: apply, remember the sequence
    number, count. *)
Definition accept_packet (pkt : PosePacket31) (v : V1) : V1 :=
  let v := apply_servo_values pkt v in
  mkV1 (rt v) (g_shared_buf v) (seq pkt) (u32 (g_rx_count v + 1))
       (g_drop_count v) (g_estop_active v) (applied v).

(** [g_shared_buf->read_idx = read_idx;] *)
Definition publish_read_idx (read_idx : Z) (v : V1) : V1 :=
  match g_shared_buf v with
  | Some b => with_buf (Some (with_read_idx read_idx b)) v
  | None => v
  end.

(** The body of the loop of [process_shared_buffer_packets] for the packet
    found in the slot: validate, feed the watchdog, then ESTOP or apply.
    [processed] is the loop's counter. *)
Definition process_packet (now : Z) (pkt : PosePacket31) (processed : Z) (v : V1)
  : Z * V1 :=
  let '(status, v) := validate_packet pkt v in
  if status =? 0 then
    let v := with_rt (watchdog_feed now (rt v)) v in
    if truthy (Z.land (Packet.flags pkt) FLAG_ESTOP)
    then (processed, handle_estop v)
    else (processed + 1, accept_packet pkt v)
  else (processed, v).

(** The [while (read_idx != write_idx)] loop of
    [process_shared_buffer_packets]; [slots] is the region as it is read
    while the loop runs. [None] when [fuel] turns do not reach the exit. *)
Fixpoint drain_loop (fuel : nat) (now : Z) (slots : SharedMotionBuffer)
                    (read_idx write_idx : Z) (processed : Z) (v : V1)
  : option (Z * V1) :=
  if read_idx =? write_idx then Some (processed, v)
  else
    match fuel with
    | O => None
    | S fuel' =>
        if truthy (g_estop_active v) then
          let read_idx := u32 (read_idx + 1) in
          drain_loop fuel' now slots read_idx write_idx processed
                     (publish_read_idx read_idx v)
        else
          let slot := shared_buffer_slot_index read_idx in
          let pkt := slot_get slots slot in
          let '(processed, v) := process_packet now pkt processed v in
          let read_idx := u32 (read_idx + 1) in
          drain_loop fuel' now slots read_idx write_idx processed
                     (publish_read_idx read_idx v)
    end.

(** [static int process_shared_buffer_packets(void)]; the loop makes
    [(write_idx - read_idx) mod 2^32] turns. *)
Definition process_shared_buffer_packets (now : Z) (v : V1) : option (Z * V1) :=
  match g_shared_buf v with
  | None => Some (0, v)
  | Some b =>
      let read_idx := read_idx b in
      let write_idx := write_idx b in
      drain_loop (Z.to_nat (u32 (write_idx - read_idx))) now b
                 read_idx write_idx 0 v
  end.

(** [void mailbox_cmd_handler(uint8_t cmd_id, uint32_t param)] *)
Definition mailbox_cmd_handler (now : Z) (cmd_id param : Z) (v : V1) : option V1 :=
  let cmd_id := u8 cmd_id in
  if cmd_id =? CMD_HEARTBEAT then Some (handle_heartbeat now v)
  else if cmd_id =? CMD_MOTION_PACKET then
    if negb (truthy (g_estop_active v)) then
      match process_shared_buffer_packets now v with
      | Some (_, v) => Some v
      | None => None
      end
    else Some v
  else if cmd_id =? CMD_ESTOP then Some (handle_estop v)
  else Some v.

(** The packet handling of the [motion_task_entry] of app_main_v1.c for a
    packet taken from the queue. *)
Definition queue_packet (pkt : PosePacket31) (v : V1) : V1 :=
  if truthy (g_estop_active v) then v
  else
    let '(status, v) := validate_packet pkt v in
    if status =? 0 then
      if truthy (Z.land (Packet.flags pkt) FLAG_ESTOP)
      then handle_estop v
      else
        let v := apply_servo_values pkt v in
        mkV1 (rt v) (g_shared_buf v) (seq pkt) (u32 (g_rx_count v + 1))
             (g_drop_count v) (g_estop_active v) (applied v)
    else v.

(** [main_cvirtos] once everything is created: all outputs neutral,
    region attached with [read_idx = 0] and MUSCLE_READY set, watchdog
    initialised. The register set-up done by [pca9685_init] is left out. *)
Definition main_cvirtos (now : Z) (region : SharedMotionBuffer) : V1 :=
  let r := set_all_servos_neutral (fault_flags_init rt_boot) in
  let b := with_flags (Z.lor (flags region) SHARED_FLAG_MUSCLE_READY)
                      (with_read_idx 0 region) in
  mkV1 (watchdog_init now r) (Some b) 0 0 0 0 [].

End AppMainV1.

(* ================================================================== *)
(** * brain_linux/src/main.cpp: packet composition *)

Module BrainDaemon.

(** [PosePacket31 BrainDaemon::buildPosePacket(t_ms, flags, servos)]: the
    packet and the new value of [m_seq]. *)
Definition buildPosePacket (m_seq : Z) (t_ms flags : Z) (servos : list Z)
  : PosePacket31 * Z :=
  let m_seq := u32 (m_seq + 1) in
  let pkt := mkPacket SPIDER_MAGIC SPIDER_VERSION_MAJOR SPIDER_VERSION_MINOR
                      m_seq (u32 t_ms) (u16 flags)
                      (map (fun i => clamp_servo_us (nth i servos 0)) channels13)
                      0 in
  (mkPacket (magic pkt) (ver_major pkt) (ver_minor pkt) (seq pkt)
            (Packet.t_ms pkt) (Packet.flags pkt) (servo_us pkt) (packet_crc pkt),
   m_seq).

(** A packet with every field chosen, its CRC computed as
    [buildPosePacket] does; what a producer other than [BrainDaemon] may
    put into the ring. *)
Definition sealed_packet (seq t_ms flags : Z) (servos : list Z) : PosePacket31 :=
  let pkt := mkPacket SPIDER_MAGIC SPIDER_VERSION_MAJOR SPIDER_VERSION_MINOR
                      (u32 seq) (u32 t_ms) (u16 flags) (copy13 servos) 0 in
  mkPacket (magic pkt) (ver_major pkt) (ver_minor pkt) (Packet.seq pkt)
           (Packet.t_ms pkt) (Packet.flags pkt) (servo_us pkt) (packet_crc pkt).

End BrainDaemon.

(* ================================================================== *)
(** * Vocabulary of the properties *)

Module Spec.

(** A bus write is a PWM update of one channel whose pulse width lies in
    the safe range: registers [LEDn_ON_L ..] of channel [ch], ON count 0,
    OFF count the tick equivalent of some [us] in [500, 2500]. Events
    other than bus writes are not constrained. *)
Definition pwm_write_in_range (e : Event) : Prop :=
  match e with
  | EvI2cWrite _ reg data =>
      exists ch us,
        0 <= ch < PCA9685_CHANNEL_COUNT /\
        SERVO_PWM_MIN_US <= us <= SERVO_PWM_MAX_US /\
        reg = u8 (PCA9685_REG_LED0_ON_L + ch * 4) /\
        data = [0; 0; u8 (Z.land (us_to_ticks us) 0xFF);
                u8 (Z.shiftr (us_to_ticks us) 8)]
  | _ => True
  end.

(** [r'] continues [r] with events that all satisfy [P]. *)
Definition extends_with (P : Event -> Prop) (r r' : Rt) : Prop :=
  exists l, trace r' = trace r ++ l /\ Forall P l.

(** The bus write that sets channel [ch] to [us] microseconds. *)
Definition pwm_frame (dev ch us : Z) : Event :=
  EvI2cWrite dev (u8 (PCA9685_REG_LED0_ON_L + ch * 4))
             [0; 0; u8 (Z.land (us_to_ticks us) 0xFF);
              u8 (Z.shiftr (us_to_ticks us) 8)].

(** Calls of [watchdog_feed] recorded in a trace. *)
Definition is_feed (e : Event) : bool :=
  match e with
  | EvWatchdogFeed _ => true
  | _ => false
  end.

Definition feed_count (l : list Event) : nat := length (filter is_feed l).

(** The sequence numbers of the packets of [l], applied in this order
    after a packet of sequence number [last], follow the consumer's rule:
    each is above its predecessor unless that predecessor is 0. *)
Fixpoint seq_chain (last : Z) (l : list PosePacket31) : Prop :=
  match l with
  | [] => True
  | p :: t => (last <> 0 -> seq p > last) /\ seq_chain (seq p) t
  end.

(** Sequence number of the last packet of [l], [d] when there is none. *)
Definition last_seq (d : Z) (l : list PosePacket31) : Z :=
  fold_left (fun _ p => seq p) l d.

(** Invariant of the consumer of app_main_v1.c: [g_last_seq] is the
    sequence number of the last packet applied (0 before the first), and
    the applied packets follow the rule. *)
Definition consumer_inv (v : AppMainV1.V1) : Prop :=
  seq_chain 0 (AppMainV1.applied v)
  /\ AppMainV1.g_last_seq v = last_seq 0 (AppMainV1.applied v).

(** The ring indices seen by the consumer are 32-bit values. *)
Definition indices_u32 (v : AppMainV1.V1) : Prop :=
  match AppMainV1.g_shared_buf v with
  | Some b =>
      0 <= SharedRing.read_idx b < 4294967296
      /\ 0 <= SharedRing.write_idx b < 4294967296
  | None => True
  end.

(** A watchdog callback that leaves the watchdog's own statics alone and
    only adds to the trace. *)
Definition callback_keeps_watchdog (cb : Callback) : Prop :=
  forall r,
    wd_state (invoke cb r) = wd_state r
    /\ wd_last_feed_tick (invoke cb r) = wd_last_feed_tick r
    /\ exists l, trace (invoke cb r) = trace r ++ l.

(** From [r] to [r'] the watchdog state was set to TIMEOUT and, last of
    all, to HOLD, where it now stands. *)
Definition timeout_transition (r r' : Rt) : Prop :=
  wd_state r' = WATCHDOG_STATE_HOLD
  /\ exists l,
       trace r' = trace r ++ EvWatchdogStore WATCHDOG_STATE_TIMEOUT :: l
                          ++ [EvWatchdogStore WATCHDOG_STATE_HOLD].

(** A command handed to the driver by the producer reaches
    [mailbox_cmd_handler] with its [cmd_id] and [param_ptr]. *)
Definition deliver (now : Z) (cmd : Mailbox.cmdqu_t) (v : AppMainV1.V1)
  : option AppMainV1.V1 :=
  AppMainV1.mailbox_cmd_handler now (Mailbox.cmd_id cmd) (Mailbox.param_ptr cmd) v.

End Spec.
Import Spec.

(* ================================================================== *)
(** * Concrete packets and states used as test points *)

Module Scenarios.

Import BrainDaemon.

Definition all_channels (us : Z) : list Z := map (fun _ => us) channels13.

(** Sequence number 1: move every channel to 1800 us within 20 ms. *)
Definition move_1800 : PosePacket31 :=
  fst (buildPosePacket 0 20 FLAG_CLAMP_ENABLE (all_channels 1800)).

(** Sequence number 2: emergency stop. *)
Definition estop_packet : PosePacket31 :=
  fst (buildPosePacket 1 0 (Z.lor FLAG_CLAMP_ENABLE FLAG_ESTOP) (all_channels 1500)).

(** Sequence number 3: move every channel to 1200 us within 20 ms. *)
Definition move_1200 : PosePacket31 :=
  fst (buildPosePacket 2 20 FLAG_CLAMP_ENABLE (all_channels 1200)).

(** The motion task of motion_task.c right after start-up at tick 0. *)
Definition motion_boot : MotionTask.Motion :=
  MotionTask.motion_task_start 0 (MotionTask.app_main 0).

(** The consumer of app_main_v1.c right after [main_cvirtos] at tick 0,
    attached to a freshly mapped region. *)
Definition v1_boot : AppMainV1.V1 :=
  AppMainV1.main_cvirtos 0 SharedMemory.zeroed_region.

(** A region into which a producer has put three sealed packets with
    sequence numbers 5, 3 and 7, and the consumer attached to it. *)
Definition region_5_3_7 : SharedRing.SharedMotionBuffer :=
  match SharedMemory.m_buffer
          (snd (SharedMemory.writePackets
                  [sealed_packet 5 0 FLAG_CLAMP_ENABLE (all_channels 1600);
                   sealed_packet 3 0 FLAG_CLAMP_ENABLE (all_channels 1700);
                   sealed_packet 7 0 FLAG_CLAMP_ENABLE (all_channels 1800)]
                  SharedMemory.mapped)) with
  | Some b => b
  | None => SharedMemory.zeroed_region
  end.

Definition v1_5_3_7 : AppMainV1.V1 := AppMainV1.main_cvirtos 0 region_5_3_7.

(** Two sealed packets that both carry sequence number 0. *)
Definition zero_seq_a : PosePacket31 :=
  sealed_packet 0 0 FLAG_CLAMP_ENABLE (all_channels 1600).
Definition zero_seq_b : PosePacket31 :=
  sealed_packet 0 0 FLAG_CLAMP_ENABLE (all_channels 1700).

Definition region_0_0 : SharedRing.SharedMotionBuffer :=
  match SharedMemory.m_buffer
          (snd (SharedMemory.writePackets [zero_seq_a; zero_seq_b]
                  SharedMemory.mapped)) with
  | Some b => b
  | None => SharedMemory.zeroed_region
  end.

Definition v1_0_0 : AppMainV1.V1 := AppMainV1.main_cvirtos 0 region_0_0.

End Scenarios.

(* ================================================================== *)
(** * brain_linux/src/main.cpp: sending packets and heartbeats *)

Module BrainSend.

Import SharedMemory Mailbox BrainDaemon.

Definition HEARTBEAT_INTERVAL_MS : Z := 100.

Definition u64 (x : Z) : Z := x mod 18446744073709551616.

(** The members of [BrainDaemon] (and the global [g_estop]) that the
    packet path uses. *)
Record Brain := mkBrain {
  g_estop : bool;
  m_seq : Z;                     (* uint32_t *)
  m_current_servos : list Z;     (* uint16_t [13] *)
  m_shared_mem : SharedMemory;
  m_mailbox : Mailbox;
  m_packets_sent : Z;            (* uint32_t *)
  m_last_heartbeat_ms : Z        (* uint64_t *)
}.

(** [void BrainDaemon::sendPosePacket(const PosePacket31& pkt)]: the
    doorbell handed to the mailbox driver, if the call got that far, and
    the object. [ioctl_ret] is what the driver's [ioctl] returns. *)
Definition sendPosePacket (ioctl_ret : Z) (pkt : PosePacket31) (b : Brain)
  : option cmdqu_t * Brain :=
  if g_estop b && negb (truthy (Z.land (Packet.flags pkt) FLAG_ESTOP)) then (None, b)
  else
    let '(ok, write_idx, shm) := writePacket (Some pkt) 0 (m_shared_mem b) in
    if negb ok then (None, b)
    else
      let '(sent, cmd, mb) := notifyPacketReady ioctl_ret write_idx (m_mailbox b) in
      if negb sent then
        (cmd, mkBrain (g_estop b) (m_seq b) (m_current_servos b) shm mb
                      (m_packets_sent b) (m_last_heartbeat_ms b))
      else
        (cmd, mkBrain (g_estop b) (m_seq b) (m_current_servos b) shm mb
                      (u32 (m_packets_sent b + 1)) (m_last_heartbeat_ms b)).

(** [uint16_t flags = base; if (g_estop.load()) flags |= FLAG_ESTOP;] *)
Definition command_flags (base : Z) (b : Brain) : Z :=
  if g_estop b then Z.lor base FLAG_ESTOP else base.

(** [buildPosePacket(t_ms, flags, m_current_servos)] followed by
    [sendPosePacket(pkt)], the tail of every command handler. *)
Definition build_and_send (ioctl_ret : Z) (t_ms base_flags : Z) (b : Brain)
  : option cmdqu_t * Brain :=
  let '(pkt, seq') :=
    buildPosePacket (m_seq b) t_ms (command_flags base_flags b) (m_current_servos b) in
  sendPosePacket ioctl_ret pkt
    (mkBrain (g_estop b) seq' (m_current_servos b) (m_shared_mem b) (m_mailbox b)
             (m_packets_sent b) (m_last_heartbeat_ms b)).

(** The loop [for (i = 0; i < count && i < SERVO_COUNT_TOTAL; i++)
    m_current_servos[i] = clamp_servo_us(us[i]);] *)
Definition store_servos (us : list Z) (count : Z) (cur : list Z) : list Z :=
  map (fun i => if Z.of_nat i <? count then clamp_servo_us (nth i us 0)
                else nth i cur 0)
      channels13.

(** [void BrainDaemon::onSerialMove(uint32_t t_ms, const uint16_t* us, int count)] *)
Definition onSerialMove (ioctl_ret : Z) (t_ms : Z) (us : list Z) (count : Z) (b : Brain)
  : option cmdqu_t * Brain :=
  build_and_send ioctl_ret t_ms FLAG_CLAMP_ENABLE
    (mkBrain (g_estop b) (m_seq b) (store_servos us count (m_current_servos b))
             (m_shared_mem b) (m_mailbox b) (m_packets_sent b)
             (m_last_heartbeat_ms b)).

(** [void BrainDaemon::onSerialServos(const uint16_t* us, int count)] *)
Definition onSerialServos (ioctl_ret : Z) (us : list Z) (count : Z) (b : Brain)
  : option cmdqu_t * Brain :=
  onSerialMove ioctl_ret 0 us count b.


(** [void BrainDaemon::onSerialResume()] *)
Definition onSerialResume (b : Brain) : Brain :=
  mkBrain false (m_seq b) (m_current_servos b) (m_shared_mem b) (m_mailbox b)
          (m_packets_sent b) (m_last_heartbeat_ms b).

(** [void BrainDaemon::tickHeartbeat()], [now] being [get_time_ms()]. *)
Definition tickHeartbeat (ioctl_ret : Z) (now : Z) (b : Brain)
  : option cmdqu_t * Brain :=
  if u64 (u64 now - m_last_heartbeat_ms b) >=? HEARTBEAT_INTERVAL_MS then
    let '(_, cmd, mb) := sendHeartbeat ioctl_ret (m_mailbox b) in
    (cmd, mkBrain (g_estop b) (m_seq b) (m_current_servos b) (m_shared_mem b) mb
                  (m_packets_sent b) (u64 now))
  else (None, b).

End BrainSend.

(* ================================================================== *)
(** * The two sides on one shared region *)

Module System.

Import SharedRing BrainSend.

(** The producer, the consumer of app_main_v1.c, and the one region both
    have mapped. The copies of the region inside [brain] and [muscle] are
    views: each step of a side starts from [region] and writes it back. *)
Record System := mkSystem {
  region : SharedMotionBuffer;
  brain : Brain;
  muscle : AppMainV1.V1
}.

Definition gp_view (sys : System) : Brain :=
  let b := brain sys in
  mkBrain (g_estop b) (m_seq b) (m_current_servos b)
          (SharedMemory.mkShm (Some (region sys))
                              (SharedMemory.m_mem_fd (m_shared_mem b)))
          (m_mailbox b) (m_packets_sent b) (m_last_heartbeat_ms b).

Definition rt_view (sys : System) : AppMainV1.V1 :=
  AppMainV1.with_buf (Some (region sys)) (muscle sys).

Definition region_of_brain (old : SharedMotionBuffer) (b : Brain) : SharedMotionBuffer :=
  match SharedMemory.m_buffer (m_shared_mem b) with
  | Some r => r
  | None => old
  end.

Definition region_of_muscle (old : SharedMotionBuffer) (v : AppMainV1.V1)
  : SharedMotionBuffer :=
  match AppMainV1.g_shared_buf v with
  | Some r => r
  | None => old
  end.

(** The producer runs [onSerialMove]. *)
Definition gp_move (ioctl_ret t_ms : Z) (us : list Z) (count : Z) (sys : System)
  : option Mailbox.cmdqu_t * System :=
  let '(cmd, b) := onSerialMove ioctl_ret t_ms us count (gp_view sys) in
  (cmd, mkSystem (region_of_brain (region sys) b) b (muscle sys)).

(** The consumer's doorbell handler runs on a command of the producer. *)
Definition rt_doorbell (now : Z) (cmd : Mailbox.cmdqu_t) (sys : System)
  : option System :=
  match AppMainV1.mailbox_cmd_handler now (Mailbox.cmd_id cmd)
          (Mailbox.param_ptr cmd) (rt_view sys) with
  | Some v => Some (mkSystem (region_of_muscle (region sys) v) (brain sys) v)
  | None => None
  end.

End System.

(* ================================================================== *)
(** * muscle_rtos/archive/rpmsg_motion_rx.c *)

Module RpmsgMotionRx.

(** archive/app_main.c: [xQueueCreate(MOTION_QUEUE_LENGTH, ...)]. *)
Definition MOTION_QUEUE_LENGTH : Z := 4.

(** The statics of rpmsg_motion_rx.c; the queue is its content, oldest
    first, [None] for a [NULL] handle. *)
Record Rx := mkRx {
  rt : Rt;
  s_motion_queue : option (list PosePacket31);
  s_last_seq : Z;      (* uint32_t *)
  s_rx_count : Z;      (* uint32_t *)
  s_drop_count : Z     (* uint32_t *)
}.

(** [xQueueSend(queue, pkt, 0)] and [xQueueSendFromISR]: the item is
    appended unless the queue holds [MOTION_QUEUE_LENGTH] items. *)
Definition queue_send (pkt : PosePacket31) (q : list PosePacket31)
  : option (list PosePacket31) :=
  if Z.of_nat (length q) <? MOTION_QUEUE_LENGTH then Some (q ++ [pkt]) else None.

(** [xQueueReceive(queue, &pkt, ...)] once the wait is over. *)
Definition queue_receive (q : list PosePacket31)
  : option PosePacket31 * list PosePacket31 :=
  match q with
  | [] => (None, [])
  | pkt :: rest => (Some pkt, rest)
  end.

Definition rx_drop (flag : option Z) (rx : Rx) : Rx :=
  mkRx (match flag with Some f => fault_flags_set f (rt rx) | None => rt rx end)
       (s_motion_queue rx) (s_last_seq rx) (s_rx_count rx)
       (u32 (s_drop_count rx + 1)).

(** [static int validate_and_queue_packet(const PosePacket31 *pkt,
    BaseType_t from_isr)]; both values of [from_isr] do the same to the
    statics. *)
Definition validate_and_queue_packet (pkt : PosePacket31) (rx : Rx) : Z * Rx :=
  if negb (magic pkt =? SPIDER_MAGIC) then
    (-1, rx_drop (Some FAULT_PACKET_MAGIC) rx)
  else if negb (ver_major pkt =? SPIDER_VERSION_MAJOR)
          || negb (ver_minor pkt =? SPIDER_VERSION_MINOR) then
    (-2, rx_drop (Some FAULT_PACKET_VERSION) rx)
  else if negb (packet_crc pkt =? crc16 pkt) then
    (-3, rx_drop (Some FAULT_PACKET_CRC) rx)
  else if (seq pkt <=? s_last_seq rx) && negb (s_last_seq rx =? 0) then
    (-4, rx_drop None rx)
  else
    let rx := mkRx (rt rx) (s_motion_queue rx) (seq pkt) (s_rx_count rx)
                   (s_drop_count rx) in
    match s_motion_queue rx with
    | Some q =>
        match queue_send pkt q with
        | Some q' =>
            (0, mkRx (rt rx) (Some q') (s_last_seq rx) (u32 (s_rx_count rx + 1))
                     (s_drop_count rx))
        | None => (-5, rx_drop None rx)
        end
    | None => (-5, rx_drop None rx)
    end.

(** [rpmsg_motion_rx_init(motion_queue)] without the SDK part. *)
Definition rpmsg_motion_rx_init (r : Rt) : Rx := mkRx r (Some []) 0 0 0.

End RpmsgMotionRx.

(* ================================================================== *)
(** * brain_linux/src/scan_controller.{h,cpp} *)

Module ScanController.

Record ScanProfile := mkProfile {
  min_deg : Z;
  max_deg : Z;
  step_deg : Z;
  rate_hz : Z;
  dwell_ms : Z
}.

(** The default member initialisers of [ScanProfile]. *)
Definition default_profile : ScanProfile := mkProfile 20 160 10 5 80.

Record ScanPoint := mkPoint {
  angle_deg : Z;
  distance_mm : Z;
  timestamp_ms : Z
}.

(** The members of [ScanController]. The three callbacks are taken to be
    set: [servo_log] records the angles passed to [m_servo_cb], [data_log]
    the points passed to [m_data_cb], oldest first, and what
    [m_distance_cb] returns is an argument of [tick]. *)
Record Scan := mkScan {
  m_profile : ScanProfile;
  m_running : bool;
  m_current_angle : Z;        (* int *)
  m_direction : Z;            (* int *)
  m_last_step_ms : Z;         (* uint64_t *)
  m_dwell_start_ms : Z;       (* uint64_t *)
  m_dwelling : bool;
  m_scan_data : list ScanPoint;
  servo_log : list Z;
  data_log : list ScanPoint
}.

(** A default-constructed controller. *)
Definition scan_new : Scan :=
  mkScan default_profile false 90 1 0 0 false [] [] [].

Definition setProfile (p : ScanProfile) (s : Scan) : Scan :=
  mkScan p (m_running s) (m_current_angle s) (m_direction s) (m_last_step_ms s)
         (m_dwell_start_ms s) (m_dwelling s) (m_scan_data s) (servo_log s) (data_log s).

(** [void ScanController::start()] *)
Definition start (now : Z) (s : Scan) : Scan :=
  if m_running s then s
  else
    mkScan (m_profile s) true (min_deg (m_profile s)) 1 (BrainSend.u64 now)
           (BrainSend.u64 now) true [] (servo_log s ++ [min_deg (m_profile s)])
           (data_log s).

(** [void ScanController::stop()] *)
Definition stop (s : Scan) : Scan :=
  if negb (m_running s) then s
  else
    mkScan (m_profile s) false 90 (m_direction s) (m_last_step_ms s)
           (m_dwell_start_ms s) (m_dwelling s) (m_scan_data s)
           (servo_log s ++ [90]) (data_log s).

(** "Update or add to scan data": the first point at the angle is
    overwritten, a new point is appended when there is none. *)
Fixpoint upsert (point : ScanPoint) (data : list ScanPoint) : list ScanPoint :=
  match data with
  | [] => [point]
  | p :: rest =>
      if angle_deg p =? angle_deg point
      then mkPoint (angle_deg p) (distance_mm point) (timestamp_ms point) :: rest
      else p :: upsert point rest
  end.

(** [void ScanController::tick()]; [now] is [now_ms()], [distance] what
    [m_distance_cb()] returns when it is called. [None] stands for the
    division by zero in [1000 / m_profile.rate_hz]. Arithmetic on [int]
    wraps to 32 bits. *)
Definition tick (now : Z) (distance : Z) (s : Scan) : option Scan :=
  if negb (m_running s) then Some s
  else if rate_hz (m_profile s) =? 0 then None
  else
    let now := BrainSend.u64 now in
    let period_ms := u32 (Z.quot 1000 (rate_hz (m_profile s))) in
    if m_dwelling s then
      if BrainSend.u64 (now - m_dwell_start_ms s)
         >=? BrainSend.u64 (dwell_ms (m_profile s)) then
        let point := mkPoint (m_current_angle s) distance now in
        Some (mkScan (m_profile s) (m_running s) (m_current_angle s) (m_direction s)
                     (m_last_step_ms s) (m_dwell_start_ms s) false
                     (upsert point (m_scan_data s)) (servo_log s)
                     (data_log s ++ [point]))
      else Some s
    else if BrainSend.u64 (now - m_last_step_ms s) >=? period_ms then
      let angle := i32 (m_current_angle s
                        + i32 (m_direction s * step_deg (m_profile s))) in
      let '(angle, direction) :=
        if angle >? max_deg (m_profile s) then (max_deg (m_profile s), -1)
        else if angle <? min_deg (m_profile s) then (min_deg (m_profile s), 1)
        else (angle, m_direction s) in
      Some (mkScan (m_profile s) (m_running s) angle direction now now true
                   (m_scan_data s) (servo_log s ++ [angle]) (data_log s))
    else Some s.

(** [int ScanController::angleToServoUs(int angle_deg)]; [int] arithmetic
    wraps to 32 bits, division truncates towards zero. *)
Definition angleToServoUs (angle_deg : Z) : Z :=
  let us := i32 (500 + Z.quot (i32 (angle_deg * 2000)) 180) in
  let us := if us <? SERVO_PWM_MIN_US then SERVO_PWM_MIN_US else us in
  let us := if us >? SERVO_PWM_MAX_US then SERVO_PWM_MAX_US else us in
  us.

(** [int ScanController::getClosestDistance() const] *)
Definition getClosestDistance (s : Scan) : Z :=
  let closest :=
    fold_left (fun closest p =>
                 if (distance_mm p >? 0) && (distance_mm p <? closest)
                 then distance_mm p else closest)
              (m_scan_data s) 9999 in
  if closest =? 9999 then -1 else closest.

(** [int ScanController::getClosestAngle() const] *)
Definition getClosestAngle (s : Scan) : Z :=
  snd (fold_left (fun acc p =>
                    if (distance_mm p >? 0) && (distance_mm p <? fst acc)
                    then (distance_mm p, angle_deg p) else acc)
                 (m_scan_data s) (9999, 90)).

(** [int ScanController::getDistanceAtAngle(int angle_deg, int tolerance_deg) const] *)
Fixpoint distance_at (data : list ScanPoint) (angle tolerance : Z) : Z :=
  match data with
  | [] => -1
  | p :: rest =>
      if Z.abs (i32 (angle_deg p - angle)) <=? tolerance then distance_mm p
      else distance_at rest angle tolerance
  end.

Definition getDistanceAtAngle (angle tolerance : Z) (s : Scan) : Z :=
  distance_at (m_scan_data s) angle tolerance.

(** Consecutive calls of [tick], one per element of [inputs]: the time
    read and the distance the sensor would return. *)
Fixpoint ticks (inputs : list (Z * Z)) (s : Scan) : option Scan :=
  match inputs with
  | [] => Some s
  | (now, distance) :: rest =>
      match tick now distance s with
      | Some s' => ticks rest s'
      | None => None
      end
  end.

End ScanController.

(* ================================================================== *)
(** * Vocabulary of the further properties *)

Module Spec2.

(** [data] with bit [k mod 8] of byte [k / 8] inverted. *)
Fixpoint flip_bit (k : nat) (data : list Z) : list Z :=
  match data with
  | [] => []
  | b :: rest =>
      if (k <? 8)%nat then Z.lxor b (Z.shiftl 1 (Z.of_nat k)) :: rest
      else b :: flip_bit (k - 8) rest
  end.

(** What reaches the watchdog: a feed or a check of its task, at a tick. *)
Inductive WdEvent :=
| WdFeed (tick : Z)
| WdCheck (tick : Z).

(** The watchdog over a series of feeds and checks, in this order. *)
Fixpoint watchdog_events (timeout_cb : Callback) (evs : list WdEvent) (r : Rt) : Rt :=
  match evs with
  | [] => r
  | WdFeed t :: rest => watchdog_events timeout_cb rest (watchdog_feed t r)
  | WdCheck t :: rest => watchdog_events timeout_cb rest (watchdog_check timeout_cb t r)
  end.

(** Every check of the series comes at most 250 ticks after the feed
    before it; [last] is the tick of the feed that precedes the series. *)
Fixpoint timely (last : Z) (evs : list WdEvent) : Prop :=
  match evs with
  | [] => True
  | WdFeed t :: rest => timely t rest
  | WdCheck t :: rest => 0 <= t - last <= 250 /\ timely last rest
  end.

(** The stores to the watchdog state recorded in a trace. *)
Definition is_store (e : Event) : bool :=
  match e with
  | EvWatchdogStore _ => true
  | _ => false
  end.

(** The bus writes recorded in a trace. *)
Definition is_bus_write (e : Event) : bool :=
  match e with
  | EvI2cWrite _ _ _ => true
  | _ => false
  end.

(** A packet as the validation wants it: magic, version and CRC right. *)
Definition well_sealed (pkt : PosePacket31) : Prop :=
  magic pkt = SPIDER_MAGIC
  /\ ver_major pkt = SPIDER_VERSION_MAJOR
  /\ ver_minor pkt = SPIDER_VERSION_MINOR
  /\ crc16 pkt = packet_crc pkt.

End Spec2.
Import Spec2.

(* ================================================================== *)
(** * muscle_rtos/app_main_v1.c: the task loop and the inputs of a run *)

Module V1Run.

Import SharedRing AppMainV1.

(** One turn of the [while (1)] loop of [motion_task_entry] in
    app_main_v1.c: [rx] is what [xQueueReceive] delivered within its 100 ms,
    if anything; then the ring is polled unless ESTOP is active. The status
    line printed every 5 s is left out. *)
Definition motion_task_turn (now : Z) (rx : option PosePacket31) (v : V1)
  : option V1 :=
  let v := match rx with
           | Some pkt => queue_packet pkt v
           | None => v
           end in
  if negb (truthy (g_estop_active v)) then
    match process_shared_buffer_packets now v with
    | Some (_, v) => Some v
    | None => None
    end
  else Some v.

(** What can happen to the consumer: a doorbell of the mailbox driver, or a
    turn of its task. *)
Inductive V1Input :=
| Doorbell (cmd_id param : Z)
| TaskTurn (rx : option PosePacket31).

Definition v1_step (now : Z) (i : V1Input) (v : V1) : option V1 :=
  match i with
  | Doorbell cmd_id param => mailbox_cmd_handler now cmd_id param v
  | TaskTurn rx => motion_task_turn now rx v
  end.

(** A run: the inputs in the order they are served, each with the tick
    count at that time. *)
Fixpoint v1_run (inputs : list (Z * V1Input)) (v : V1) : option V1 :=
  match inputs with
  | [] => Some v
  | (now, i) :: rest =>
      match v1_step now i v with
      | Some v' => v1_run rest v'
      | None => None
      end
  end.

(** What of the consumer an input may not touch once ESTOP is active. *)
Definition frozen (v v' : V1) : Prop :=
  truthy (g_estop_active v') = true
  /\ applied v' = applied v
  /\ g_last_seq v' = g_last_seq v
  /\ g_rx_count v' = g_rx_count v
  /\ g_drop_count v' = g_drop_count v
  /\ option_map read_idx (g_shared_buf v') = option_map read_idx (g_shared_buf v)
  /\ option_map write_idx (g_shared_buf v') = option_map write_idx (g_shared_buf v)
  /\ option_map packets (g_shared_buf v') = option_map packets (g_shared_buf v).

End V1Run.

(* ================================================================== *)
(** * muscle_rtos/archive/rpmsg_motion_rx.c: a series of arrivals *)

Module RxRun.

Import RpmsgMotionRx.

(** [validate_and_queue_packet] called for each packet of [pkts] in turn,
    nothing taken from the queue in between. *)
Definition rx_run (pkts : list PosePacket31) (rx : Rx) : Rx :=
  fold_left (fun rx pkt => snd (validate_and_queue_packet pkt rx)) pkts rx.

(** The motion task has taken the oldest [n] packets from the queue. *)
Definition rx_taken (n : nat) (rx : Rx) : Rx :=
  mkRx (rt rx) (option_map (skipn n) (s_motion_queue rx)) (s_last_seq rx)
       (s_rx_count rx) (s_drop_count rx).

End RxRun.

(* ================================================================== *)
(** * brain_linux/src/scan_controller.cpp: what a sweep should keep *)

Module ScanSpec.

Import ScanController.

(** A profile with which the [int] arithmetic of [tick] stays far from
    overflow and the period can be computed. *)
Definition profile_ok (p : ScanProfile) : Prop :=
  min_deg p <= max_deg p
  /\ rate_hz p <> 0
  /\ -1000000 <= min_deg p
  /\ max_deg p <= 1000000
  /\ -1000000 <= step_deg p <= 1000000.

Definition angle_in (p : ScanProfile) (a : Z) : Prop :=
  min_deg p <= a <= max_deg p.

(** The sweep's invariant. *)
Definition scan_inv (s : Scan) : Prop :=
  profile_ok (m_profile s)
  /\ angle_in (m_profile s) (m_current_angle s)
  /\ (m_direction s = 1 \/ m_direction s = -1).

Definition angles (data : list ScanPoint) : list Z := map angle_deg data.

(** An [int]. *)
Definition is_int (x : Z) : Prop := -2147483648 <= x < 2147483648.

End ScanSpec.

(** Further scenarios. *)
Module Scenarios2.

Import Packet BrainDaemon Scenarios.


(** The producer right after start-up: no ESTOP, sequence counter 0, all
    servos neutral, region mapped, mailbox device open. *)
Definition brain_boot : BrainSend.Brain :=
  BrainSend.mkBrain false 0 (all_channels 1500) SharedMemory.mapped
                    (Mailbox.mkMailbox 3 0) 0 0.

(** Both sides after start-up on one freshly mapped region. *)
Definition system_boot : System.System :=
  System.mkSystem
    (System.region_of_muscle SharedMemory.zeroed_region v1_boot)
    brain_boot v1_boot.

End Scenarios2.

(* ================================================================== *)
(** * Arithmetic of the fixed-width types *)

Lemma u8_range x : 0 <= u8 x < 256.
Proof. unfold u8. apply Z.mod_pos_bound. lia. Qed.

Lemma u16_range x : 0 <= u16 x < 65536.
Proof. unfold u16. apply Z.mod_pos_bound. lia. Qed.

Lemma u32_range x : 0 <= u32 x < 4294967296.
Proof. unfold u32. apply Z.mod_pos_bound. lia. Qed.

Lemma u8_small x : 0 <= x < 256 -> u8 x = x.
Proof. intros. unfold u8. apply Z.mod_small. lia. Qed.

Lemma u16_small x : 0 <= x < 65536 -> u16 x = x.
Proof. intros. unfold u16. apply Z.mod_small. lia. Qed.

Lemma u32_small x : 0 <= x < 4294967296 -> u32 x = x.
Proof. intros. unfold u32. apply Z.mod_small. lia. Qed.

Lemma u32_idem x : u32 (u32 x) = u32 x.
Proof. apply u32_small, u32_range. Qed.

Lemma pdMS_TO_TICKS_250 : pdMS_TO_TICKS HEARTBEAT_TIMEOUT_MS = 250.
Proof. reflexivity. Qed.

Lemma pdMS_TO_TICKS_25 : pdMS_TO_TICKS WATCHDOG_CHECK_PERIOD_MS = 25.
Proof. reflexivity. Qed.

(* ================================================================== *)
(** * CRC and clamp: the values the unit tests pin down *)

(** tests/test_crc16.cpp: the check value of "123456789" and the empty
    message. *)
Example crc16_check_value :
  crc16_ccitt_false [49; 50; 51; 52; 53; 54; 55; 56; 57] = 0x29B1
  /\ crc16_ccitt_false [] = 0xFFFF.
Proof. split; vm_compute; reflexivity. Qed.

(** tests/test_clamp.cpp: the boundary values. *)
Example clamp_boundaries :
  clamp_servo_us 499 = 500 /\ clamp_servo_us 501 = 501
  /\ clamp_servo_us 2500 = 2500 /\ clamp_servo_us 2501 = 2500.
Proof. repeat split. Qed.

Lemma clamp_servo_us_range x :
  SERVO_PWM_MIN_US <= clamp_servo_us x <= SERVO_PWM_MAX_US.
Proof.
  unfold clamp_servo_us, SERVO_PWM_MIN_US, SERVO_PWM_MAX_US.
  destruct (u16 x <? 500) eqn:Hlo; [lia|].
  destruct (u16 x >? 2500) eqn:Hhi; [lia|].
  apply Z.ltb_ge in Hlo. rewrite Z.gtb_ltb in Hhi. apply Z.ltb_ge in Hhi. lia.
Qed.

Lemma packet_bytes_length pkt : length (packet_bytes pkt) = 42%nat.
Proof. reflexivity. Qed.

(* ================================================================== *)
(** * The PWM sink saturates *)

Module Pca9685Facts.

Lemma saturate_us_range x :
  SERVO_PWM_MIN_US <= saturate_us x <= SERVO_PWM_MAX_US.
Proof.
  unfold saturate_us, SERVO_PWM_MIN_US, SERVO_PWM_MAX_US.
  destruct (x <? 500) eqn:Hlo.
  - simpl. lia.
  - apply Z.ltb_ge in Hlo.
    destruct (x >? 2500) eqn:Hhi; [lia|].
    rewrite Z.gtb_ltb in Hhi. apply Z.ltb_ge in Hhi. lia.
Qed.


Lemma extends_refl P r : extends_with P r r.
Proof. exists []. rewrite app_nil_r. auto. Qed.

Lemma extends_trans P r1 r2 r3 :
  extends_with P r1 r2 -> extends_with P r2 r3 -> extends_with P r1 r3.
Proof.
  intros [l1 [E1 F1]] [l2 [E2 F2]]. exists (l1 ++ l2). split.
  - rewrite E2, E1, app_assoc. reflexivity.
  - apply Forall_app; auto.
Qed.

Lemma extends_emit (P : Event -> Prop) e r : P e -> extends_with P r (emit e r).
Proof. intros H. exists [e]. split; [reflexivity | auto]. Qed.

Lemma extends_same_trace P r r' : trace r' = trace r -> extends_with P r r'.
Proof. intros H. exists []. rewrite app_nil_r. auto. Qed.

(** What one call of [pca9685_set_pwm_us] does: nothing for a channel
    beyond 15, else exactly one bus write, of the saturated pulse. *)
Lemma pca9685_set_pwm_us_effect channel pulse_us r :
  snd (pca9685_set_pwm_us channel pulse_us r) =
  if u8 channel >=? PCA9685_CHANNEL_COUNT then r
  else emit (pwm_frame (s_i2c_addr r) (u8 channel) (saturate_us (u16 pulse_us))) r.
Proof.
  unfold pca9685_set_pwm_us, pca9685_set_pwm_raw, i2c_hal_write_buf, pwm_frame.
  destruct (u8 channel >=? PCA9685_CHANNEL_COUNT) eqn:Hc; [reflexivity|].
  rewrite (u8_small (u8 channel)) by apply u8_range. rewrite Hc.
  assert (Ht : u16 (us_to_ticks (saturate_us (u16 pulse_us)))
               = us_to_ticks (saturate_us (u16 pulse_us))).
  { unfold us_to_ticks at 1 2. apply u16_small, u16_range. }
  rewrite Ht. reflexivity.
Qed.

Lemma pwm_frame_in_range dev ch us :
  0 <= ch < PCA9685_CHANNEL_COUNT ->
  pwm_write_in_range (pwm_frame dev ch (saturate_us us)).
Proof.
  intros Hc. exists ch, (saturate_us us).
  repeat split; try apply saturate_us_range; lia.
Qed.

(** The sink emits bus writes only. *)
Lemma set_pwm_loop_bus_only (P : Event -> Prop) (f : nat -> Z) (chs : list nat) r :
  (forall dev reg data, P (EvI2cWrite dev reg data)) ->
  extends_with P r
    (fold_left (fun r i => snd (pca9685_set_pwm_us (Z.of_nat i) (f i) r)) chs r).
Proof.
  intros HP. revert r. induction chs as [|c chs IH]; intros r; cbn [fold_left].
  - apply extends_refl.
  - eapply extends_trans; [|apply IH].
    rewrite pca9685_set_pwm_us_effect.
    destruct (u8 (Z.of_nat c) >=? PCA9685_CHANNEL_COUNT).
    + apply extends_refl.
    + apply extends_emit, HP.
Qed.

Lemma pca9685_set_pwm_us_extends channel pulse_us r :
  extends_with pwm_write_in_range r (snd (pca9685_set_pwm_us channel pulse_us r)).
Proof.
  rewrite pca9685_set_pwm_us_effect.
  destruct (u8 channel >=? PCA9685_CHANNEL_COUNT) eqn:Hc.
  - apply extends_refl.
  - apply extends_emit, pwm_frame_in_range.
    pose proof (u8_range channel).
    rewrite Z.geb_leb in Hc. apply Z.leb_gt in Hc. lia.
Qed.

(** A loop of [pca9685_set_pwm_us] calls over channels [chs], the pulse of
    each given by [f]. *)
Lemma set_pwm_loop_extends (f : nat -> Z) (chs : list nat) r :
  extends_with pwm_write_in_range r
    (fold_left (fun r i => snd (pca9685_set_pwm_us (Z.of_nat i) (f i) r)) chs r).
Proof.
  revert r. induction chs as [|c chs IH]; intros r; simpl.
  - apply extends_refl.
  - eapply extends_trans; [apply pca9685_set_pwm_us_extends | apply IH].
Qed.

Lemma pca9685_set_all_us_extends pulse_us r :
  extends_with pwm_write_in_range r (pca9685_set_all_us pulse_us r).
Proof. apply (set_pwm_loop_extends (fun _ => pulse_us)). Qed.

End Pca9685Facts.

(* ================================================================== *)
(** * Safety modules: what they put on the bus *)

Module SafetyFacts.

Import Pca9685Facts.

Lemma store_state_extends P s r : P (EvWatchdogStore s) ->
  extends_with P r (store_state s r).
Proof. intros H. unfold store_state. exists [EvWatchdogStore s]. auto. Qed.

Lemma fault_flags_set_trace f r : trace (fault_flags_set f r) = trace r.
Proof. reflexivity. Qed.

Lemma fault_flags_clear_trace f r : trace (fault_flags_clear f r) = trace r.
Proof. reflexivity. Qed.

Lemma watchdog_feed_extends now r :
  extends_with pwm_write_in_range r (watchdog_feed now r).
Proof.
  unfold watchdog_feed. cbv zeta.
  match goal with |- context [if ?c then _ else _] => destruct c end.
  - exists [EvWatchdogFeed (u32 now); EvWatchdogStore WATCHDOG_STATE_NORMAL].
    split; [simpl; rewrite <- app_assoc; reflexivity | repeat constructor].
  - exists [EvWatchdogFeed (u32 now)]. split; [reflexivity | repeat constructor].
Qed.

Lemma failsafe_enter_estop_extends r :
  extends_with pwm_write_in_range r (failsafe_enter_estop r).
Proof.
  unfold failsafe_enter_estop, failsafe_set_safe_pose. cbv zeta.
  eapply extends_trans; [|apply pca9685_set_all_us_extends].
  apply extends_same_trace. reflexivity.
Qed.

Lemma watchdog_signal_estop_extends r :
  extends_with pwm_write_in_range r
    (watchdog_signal_estop MotionTask.on_watchdog_estop r).
Proof.
  unfold watchdog_signal_estop, MotionTask.on_watchdog_estop, invoke. cbv zeta.
  eapply extends_trans; [|apply failsafe_enter_estop_extends].
  exists [EvWatchdogStore WATCHDOG_STATE_ESTOP].
  split; [reflexivity | repeat constructor].
Qed.

End SafetyFacts.

(* ================================================================== *)
(** * Motion task: every pulse written lies in [500, 2500] *)

Module MotionFacts.

Import Interpolator MotionTask Pca9685Facts SafetyFacts.

Section FloatArithmetic.

Variable float_lerp : Z -> Z -> Z -> Z -> Z.

Lemma motion_sync_rt m : rt (motion_sync m) = rt m.
Proof.
  unfold motion_sync. cbv zeta.
  repeat match goal with |- context [if ?c then _ else _] => destruct c end;
    reflexivity.
Qed.

Lemma motion_switch_rt m : rt (motion_switch float_lerp m) = rt m.
Proof.
  unfold motion_switch. destruct (s_state m); try reflexivity.
  destruct (interpolator_tick float_lerp (interp m) (s_current_us m)) as [[c ip] out].
  reflexivity.
Qed.

Lemma motion_output_extends m :
  extends_with pwm_write_in_range (rt m) (rt (motion_output m)).
Proof.
  unfold motion_output, with_rt. cbn [rt].
  apply (set_pwm_loop_extends (fun i => nth i (s_current_us m) 0)).
Qed.

Lemma motion_tick_extends m :
  extends_with pwm_write_in_range (rt m) (rt (motion_tick float_lerp m)).
Proof.
  unfold motion_tick.
  rewrite <- (motion_sync_rt m) at 1.
  rewrite <- (motion_switch_rt (motion_sync m)) at 1.
  apply motion_output_extends.
Qed.

(** C1. In every turn of the motion loop, whatever the packet received
    (any channel values, any flags) and whatever the state of the task,
    each write the turn puts on the bus sets some channel to a pulse width
    within [500, 2500] microseconds: [pca9685_set_pwm_us] saturates before
    it converts to ticks. *)
Theorem C1_pwm_writes_within_limits :
  forall (now : Z) (rx : option PosePacket31) (m : Motion),
    extends_with pwm_write_in_range
      (rt m) (rt (motion_loop float_lerp on_watchdog_estop now rx m)).
Proof.
  intros now rx m. unfold motion_loop.
  destruct rx as [pkt|]; [|apply motion_tick_extends].
  cbv zeta.
  destruct (truthy (Z.land (flags pkt) FLAG_ESTOP)).
  - unfold with_rt, with_state. cbn [rt]. eapply extends_trans;
      [apply watchdog_feed_extends | apply watchdog_signal_estop_extends].
  - destruct (truthy (Z.land (flags pkt) FLAG_HOLD)).
    + unfold with_state. cbn [rt]. apply watchdog_feed_extends.
    + eapply extends_trans; [apply (watchdog_feed_extends now)|].
      match goal with |- extends_with _ _ (rt (motion_tick _ ?m')) =>
        apply (motion_tick_extends m') end.
Qed.

End FloatArithmetic.

End MotionFacts.

(* ================================================================== *)
(** * Motion task: emergency stop *)

Module EstopFacts.

Import Interpolator MotionTask Pca9685Facts SafetyFacts MotionFacts Scenarios.

Section FloatArithmetic.

Variable float_lerp : Z -> Z -> Z -> Z -> Z.

(** The channel loop at the end of a tick writes the stored pose, channel
    by channel, each value saturated by the sink. *)
Lemma motion_output_trace m :
  trace (rt (motion_output m)) =
  trace (rt m) ++
  map (fun i => pwm_frame (s_i2c_addr (rt m)) (Z.of_nat i)
                          (saturate_us (u16 (nth i (s_current_us m) 0))))
      channels13.
Proof.
  unfold motion_output, with_rt. cbn [rt].
  generalize (s_current_us m) as cur. generalize (rt m) as r. intros r cur.
  unfold channels13.
  assert (H : forall chs r, Forall (fun i => (i < 16)%nat) chs ->
    let r' := fold_left
      (fun r i => snd (pca9685_set_pwm_us (Z.of_nat i) (nth i cur 0) r)) chs r in
    trace r' = trace r ++
      map (fun i => pwm_frame (s_i2c_addr r) (Z.of_nat i)
                              (saturate_us (u16 (nth i cur 0)))) chs
    /\ s_i2c_addr r' = s_i2c_addr r).
  { induction chs as [|c chs IH]; intros r0 Hall; cbn zeta.
    - simpl. rewrite app_nil_r. auto.
    - inversion Hall as [|? ? Hc Hrest]; subst. cbn [fold_left map].
      rewrite pca9685_set_pwm_us_effect.
      rewrite (u8_small (Z.of_nat c)) by lia.
      replace (Z.of_nat c >=? PCA9685_CHANNEL_COUNT) with false
        by (symmetry; unfold PCA9685_CHANNEL_COUNT; rewrite Z.geb_leb;
            apply Z.leb_gt; lia).
      destruct (IH (emit (pwm_frame (s_i2c_addr r0) (Z.of_nat c)
                            (saturate_us (u16 (nth c cur 0)))) r0) Hrest)
        as [Ht Ha].
      cbv zeta in Ht, Ha. rewrite Ht, Ha. split; [|reflexivity].
      cbn [emit trace s_i2c_addr]. rewrite <- app_assoc. reflexivity. }
  apply H. repeat constructor.
Qed.

(** An ESTOP packet leaves the stored pose [s_current_us] as it is. *)
Lemma estop_packet_keeps_pose now pkt m :
  truthy (Z.land (flags pkt) FLAG_ESTOP) = true ->
  s_current_us (motion_loop float_lerp on_watchdog_estop now (Some pkt) m) = s_current_us m
  /\ s_state (motion_loop float_lerp on_watchdog_estop now (Some pkt) m) = MOTION_STATE_ESTOP
  /\ wd_state (rt (motion_loop float_lerp on_watchdog_estop now (Some pkt) m)) = WATCHDOG_STATE_ESTOP.
Proof.
  intros H. unfold motion_loop. cbv zeta. rewrite H.
  unfold with_rt, with_state. cbn [s_current_us s_state rt].
  split; [reflexivity|]. split; [reflexivity|].
  unfold watchdog_signal_estop, on_watchdog_estop, invoke. cbv zeta.
  unfold failsafe_enter_estop, failsafe_set_safe_pose. cbv zeta.
  assert (Hp : forall us r, wd_state (pca9685_set_all_us us r) = wd_state r).
  { intros us r. unfold pca9685_set_all_us. generalize (List.seq 0 16) as chs.
    intros chs. revert r. induction chs as [|c chs IH]; intros r; [reflexivity|].
    cbn [fold_left]. rewrite IH, pca9685_set_pwm_us_effect.
    destruct (u8 (Z.of_nat c) >=? PCA9685_CHANNEL_COUNT); reflexivity. }
  rewrite Hp. reflexivity.
Qed.

(** While the task is in ESTOP, a tick without packet writes the stored
    pose again: the pulses are those of [s_current_us], not the neutral
    1500 us. *)
Lemma estop_tick_writes_stored_pose m :
  s_state m = MOTION_STATE_ESTOP ->
  trace (rt (motion_loop float_lerp on_watchdog_estop 0 None m)) =
  trace (rt m) ++
  map (fun i => pwm_frame (s_i2c_addr (rt m)) (Z.of_nat i)
                          (saturate_us (u16 (nth i (s_current_us m) 0))))
      channels13.
Proof.
  intros Hs. unfold motion_loop, motion_tick.
  assert (Hsync : motion_sync m = m).
  { unfold motion_sync. cbv zeta. rewrite Hs. cbn [MotionState_eqb negb].
    rewrite !andb_false_r. reflexivity. }
  rewrite Hsync. unfold motion_switch. rewrite Hs.
  apply motion_output_trace.
Qed.

(** A feed does not leave ESTOP. *)
Lemma feed_keeps_estop now r :
  wd_state r = WATCHDOG_STATE_ESTOP ->
  wd_state (watchdog_feed now r) = WATCHDOG_STATE_ESTOP.
Proof.
  intros H. unfold watchdog_feed. cbv zeta.
  cbn [emit with_last_feed wd_state]. rewrite H.
  cbn [WatchdogState_eqb orb emit with_last_feed wd_state]. exact H.
Qed.

(** While the watchdog is in ESTOP, a packet without the ESTOP and HOLD
    flags does not move anything: the turn ends in ESTOP with the stored
    pose unchanged. *)
Lemma estop_ignores_motion_packet now pkt m :
  wd_state (rt m) = WATCHDOG_STATE_ESTOP ->
  truthy (Z.land (flags pkt) FLAG_ESTOP) = false ->
  truthy (Z.land (flags pkt) FLAG_HOLD) = false ->
  s_current_us (motion_loop float_lerp on_watchdog_estop now (Some pkt) m)
  = s_current_us m
  /\ s_state (motion_loop float_lerp on_watchdog_estop now (Some pkt) m)
     = MOTION_STATE_ESTOP.
Proof.
  intros Hwd He Hh. unfold motion_loop. cbv zeta. rewrite He, Hh.
  unfold motion_tick.
  match goal with |- context [motion_sync ?m0] =>
    assert (Hsync : motion_sync m0 = with_state MOTION_STATE_ESTOP m0) end.
  { unfold motion_sync. cbv zeta. cbn [rt s_state].
    unfold watchdog_get_state. rewrite (feed_keeps_estop now (rt m) Hwd).
    reflexivity. }
  rewrite Hsync. unfold motion_switch, with_state, motion_output, with_rt.
  cbn [s_state s_current_us]. split; reflexivity.
Qed.

(** C2 (the code at the failing input). From start-up: a packet moves all
    channels to 1800 us (reached within the tick, [t_ms = 20]); then an
    ESTOP packet arrives. The ESTOP turn latches ESTOP and the failsafe
    writes 1500 us to the 16 outputs; the motion tick that follows writes
    1800 us to each of the 13 channels again, and these are not the neutral
    pulse. *)
Theorem C2_estop_pose_overwritten_on_next_tick :
  let m1 := motion_loop float_lerp on_watchdog_estop 20 (Some move_1800) motion_boot in
  let m2 := motion_loop float_lerp on_watchdog_estop 40 (Some estop_packet) m1 in
  let m3 := motion_loop float_lerp on_watchdog_estop 60 None m2 in
  s_current_us m1 = all_channels 1800
  /\ s_state m2 = MOTION_STATE_ESTOP
  /\ wd_state (rt m2) = WATCHDOG_STATE_ESTOP
  /\ trace (rt m2) =
       trace (rt m1)
       ++ [EvWatchdogFeed 40; EvWatchdogStore WATCHDOG_STATE_ESTOP]
       ++ map (fun i => pwm_frame 0x40 (Z.of_nat i) 1500) (List.seq 0 16)
  /\ s_state m3 = MOTION_STATE_ESTOP
  /\ trace (rt m3) =
       trace (rt m2) ++ map (fun i => pwm_frame 0x40 (Z.of_nat i) 1800) channels13
  /\ (forall i, pwm_frame 0x40 i 1800 <> pwm_frame 0x40 i 1500).
Proof.
  cbv zeta.
  split; [vm_compute; reflexivity|].
  split; [vm_compute; reflexivity|].
  split; [vm_compute; reflexivity|].
  split; [vm_compute; reflexivity|].
  split; [vm_compute; reflexivity|].
  split; [vm_compute; reflexivity|].
  intros i H. unfold pwm_frame in H.
  assert (E : us_to_ticks 1800 = 368 /\ us_to_ticks 1500 = 307)
    by (split; vm_compute; reflexivity).
  destruct E as [E1 E2]. rewrite E1, E2 in H.
  injection H as H. vm_compute in H. discriminate H.
Qed.

End FloatArithmetic.

End EstopFacts.

(* ================================================================== *)
(** * ESTOP packets and the watchdog feed *)

Module FeedFacts.

Import Pca9685Facts SafetyFacts Scenarios.

Lemma feed_count_app l1 l2 :
  feed_count (l1 ++ l2) = (feed_count l1 + feed_count l2)%nat.
Proof. unfold feed_count. rewrite filter_app, length_app. reflexivity. Qed.

Lemma no_feed_count l :
  Forall (fun e => is_feed e = false) l -> feed_count l = 0%nat.
Proof.
  unfold feed_count. induction 1 as [|e l He _ IH]; [reflexivity|].
  cbn [filter]. rewrite He. exact IH.
Qed.

Lemma extends_no_feed r r' :
  extends_with (fun e => is_feed e = false) r r' ->
  feed_count (trace r') = feed_count (trace r).
Proof.
  intros [l [E F]]. rewrite E, feed_count_app, (no_feed_count l F). lia.
Qed.

Lemma set_all_us_no_feed us r :
  feed_count (trace (pca9685_set_all_us us r)) = feed_count (trace r).
Proof.
  apply extends_no_feed. unfold pca9685_set_all_us.
  apply (set_pwm_loop_bus_only _ (fun _ => us)). reflexivity.
Qed.

Lemma set_all_us_watchdog us r :
  wd_state (pca9685_set_all_us us r) = wd_state r
  /\ wd_last_feed_tick (pca9685_set_all_us us r) = wd_last_feed_tick r.
Proof.
  unfold pca9685_set_all_us. generalize (List.seq 0 16) as chs.
  intros chs. revert r. induction chs as [|c chs IH]; intros r; [split; reflexivity|].
  cbn [fold_left]. destruct (IH (snd (pca9685_set_pwm_us (Z.of_nat c) us r))) as [H1 H2].
  rewrite H1, H2, pca9685_set_pwm_us_effect.
  destruct (u8 (Z.of_nat c) >=? PCA9685_CHANNEL_COUNT); split; reflexivity.
Qed.

(** One call of [watchdog_feed]: the time stamp is taken and exactly one
    call is recorded. *)
Lemma watchdog_feed_counts now r :
  wd_last_feed_tick (watchdog_feed now r) = u32 now
  /\ feed_count (trace (watchdog_feed now r)) = S (feed_count (trace r)).
Proof.
  unfold watchdog_feed. cbv zeta.
  match goal with |- context [if ?c then _ else _] => destruct c end;
    cbn [fault_flags_clear with_fault_flags store_state emit with_wd_state
         with_last_feed wd_last_feed_tick trace];
    rewrite ?feed_count_app; cbn; split; try reflexivity; lia.
Qed.

Lemma validate_packet_ok pkt v :
  fst (AppMainV1.validate_packet pkt v) = 0 ->
  snd (AppMainV1.validate_packet pkt v) = v.
Proof.
  unfold AppMainV1.validate_packet. cbv zeta.
  repeat match goal with |- context [if ?c then _ else _] => destruct c end;
    cbn [fst snd]; intros H; try discriminate H; reflexivity.
Qed.

(** C3 (as the code has it). A packet with the ESTOP flag set feeds the
    watchdog: in the motion task the feed comes first and the ESTOP state
    is entered after it; in the ring consumer of app_main_v1.c a packet
    that passed validation is fed before its ESTOP flag is looked at. In
    both, the feed time stamp is the current tick and one more call of
    [watchdog_feed] is on record. *)
Theorem C3_estop_packet_feeds_watchdog :
  forall (float_lerp : Z -> Z -> Z -> Z -> Z) (now : Z) (pkt : PosePacket31),
    truthy (Z.land (flags pkt) FLAG_ESTOP) = true ->
    (forall m,
       let m' := MotionTask.motion_loop float_lerp MotionTask.on_watchdog_estop
                   now (Some pkt) m in
       MotionTask.s_state m' = MotionTask.MOTION_STATE_ESTOP
       /\ wd_state (MotionTask.rt m') = WATCHDOG_STATE_ESTOP
       /\ wd_last_feed_tick (MotionTask.rt m') = u32 now
       /\ feed_count (trace (MotionTask.rt m'))
          = S (feed_count (trace (MotionTask.rt m))))
    /\
    (forall processed v,
       fst (AppMainV1.validate_packet pkt v) = 0 ->
       let v' := snd (AppMainV1.process_packet now pkt processed v) in
       AppMainV1.g_estop_active v' = 1
       /\ wd_last_feed_tick (AppMainV1.rt v') = u32 now
       /\ feed_count (trace (AppMainV1.rt v'))
          = S (feed_count (trace (AppMainV1.rt v)))).
Proof.
  intros float_lerp now pkt Hflag. split.
  - intros m. cbv zeta. unfold MotionTask.motion_loop. cbv zeta. rewrite Hflag.
    unfold MotionTask.with_rt, MotionTask.with_state.
    cbn [MotionTask.s_state MotionTask.rt].
    unfold watchdog_signal_estop, MotionTask.on_watchdog_estop, invoke. cbv zeta.
    unfold failsafe_enter_estop, failsafe_set_safe_pose. cbv zeta.
    destruct (watchdog_feed_counts now (MotionTask.rt m)) as [Ht Hc].
    split; [reflexivity|].
    rewrite set_all_us_no_feed.
    destruct (set_all_us_watchdog SERVO_PWM_NEUTRAL_US
                (fault_flags_set FAULT_ESTOP_ACTIVE
                   (with_fs_estop 1
                      (fault_flags_set FAULT_ESTOP_ACTIVE
                         (store_state WATCHDOG_STATE_ESTOP
                            (watchdog_feed now (MotionTask.rt m)))))))
      as [Hs Hl].
    rewrite Hs, Hl.
    cbn [fault_flags_set with_fault_flags with_fs_estop store_state emit
         with_wd_state wd_state wd_last_feed_tick trace].
    rewrite feed_count_app, Ht, Hc. cbn. repeat split; lia.
  - intros processed v Hok. cbv zeta. unfold AppMainV1.process_packet.
    pose proof (validate_packet_ok pkt v Hok) as Hv.
    destruct (AppMainV1.validate_packet pkt v) as [status v1].
    cbn [fst snd] in Hok, Hv. subst status v1.
    cbn [Z.eqb]. rewrite Hflag. cbn [snd].
    unfold AppMainV1.handle_estop, AppMainV1.with_rt, AppMainV1.set_all_servos_neutral.
    cbv zeta. cbn [AppMainV1.rt AppMainV1.g_estop_active].
    destruct (watchdog_feed_counts now (AppMainV1.rt v)) as [Ht Hc].
    split; [reflexivity|].
    rewrite set_all_us_no_feed.
    destruct (set_all_us_watchdog SERVO_PWM_NEUTRAL_US
                (fault_flags_set FAULT_ESTOP_ACTIVE
                   (watchdog_feed now (AppMainV1.rt v)))) as [_ Hl].
    rewrite Hl.
    cbn [fault_flags_set with_fault_flags wd_last_feed_tick trace].
    split; assumption.
Qed.

(** C3, witness: the ESTOP packet of the scenarios, received at start-up
    by the motion task and by the ring consumer. *)
Lemma C3_estop_packet_feeds_watchdog_witness :
  truthy (Z.land (flags estop_packet) FLAG_ESTOP) = true
  /\ (let m' := MotionTask.motion_loop Interpolator.float_lerp_ideal
                  MotionTask.on_watchdog_estop 40 (Some estop_packet) motion_boot in
      MotionTask.s_state m' = MotionTask.MOTION_STATE_ESTOP
      /\ wd_state (MotionTask.rt m') = WATCHDOG_STATE_ESTOP
      /\ wd_last_feed_tick (MotionTask.rt m') = u32 40
      /\ feed_count (trace (MotionTask.rt m'))
         = S (feed_count (trace (MotionTask.rt motion_boot))))
  /\ fst (AppMainV1.validate_packet estop_packet v1_boot) = 0
  /\ (let v' := snd (AppMainV1.process_packet 40 estop_packet 0 v1_boot) in
      AppMainV1.g_estop_active v' = 1
      /\ wd_last_feed_tick (AppMainV1.rt v') = u32 40
      /\ feed_count (trace (AppMainV1.rt v'))
         = S (feed_count (trace (AppMainV1.rt v1_boot)))).
Proof.
  assert (Hflag : truthy (Z.land (flags estop_packet) FLAG_ESTOP) = true)
    by (vm_compute; reflexivity).
  assert (Hvalid : fst (AppMainV1.validate_packet estop_packet v1_boot) = 0)
    by (vm_compute; reflexivity).
  destruct (C3_estop_packet_feeds_watchdog Interpolator.float_lerp_ideal 40
              estop_packet Hflag) as [Hm Hv].
  split; [exact Hflag|]. split; [exact (Hm motion_boot)|].
  split; [exact Hvalid|]. exact (Hv 0 v1_boot Hvalid).
Defined.

(** C3, counterexample to the claim as stated: at start-up no call of
    [watchdog_feed] is on record; the turn that receives the ESTOP packet
    enters ESTOP and records one, time-stamped with the turn's tick. *)
Lemma C3_estop_packet_not_fed_counterexample :
  let m := MotionTask.motion_loop Interpolator.float_lerp_ideal
             MotionTask.on_watchdog_estop 40 (Some estop_packet) motion_boot in
  truthy (Z.land (flags estop_packet) FLAG_ESTOP) = true
  /\ MotionTask.s_state m = MotionTask.MOTION_STATE_ESTOP
  /\ feed_count (trace (MotionTask.rt motion_boot)) = 0%nat
  /\ feed_count (trace (MotionTask.rt m)) = 1%nat
  /\ In (EvWatchdogFeed 40) (trace (MotionTask.rt m)).
Proof.
  cbv zeta.
  split; [vm_compute; reflexivity|].
  split; [vm_compute; reflexivity|].
  split; [vm_compute; reflexivity|].
  split; [vm_compute; reflexivity|].
  vm_compute. do 14 right. left. reflexivity.
Qed.

End FeedFacts.

(* ================================================================== *)
(** * Shared ring, producer side *)

Module RingFacts.

Import SharedRing SharedMemory.

Lemma ring_full_iff buf :
  u32 (write_idx buf - read_idx buf) <= PACKET_RING_SIZE ->
  (shared_buffer_is_full buf = true
   <-> u32 (write_idx buf - read_idx buf) = PACKET_RING_SIZE).
Proof.
  unfold shared_buffer_is_full. intros H. rewrite Z.geb_leb, Z.leb_le. lia.
Qed.

Lemma ring_empty_iff buf :
  shared_buffer_is_empty buf = true <-> write_idx buf = read_idx buf.
Proof. unfold shared_buffer_is_empty. apply Z.eqb_eq. Qed.

(** A push never takes the fill level above the ring size. *)
Lemma writePacket_fill_bound pkt out buf fd :
  0 <= read_idx buf < 4294967296 ->
  u32 (write_idx buf - read_idx buf) <= PACKET_RING_SIZE ->
  match m_buffer (snd (writePacket pkt out (mkShm (Some buf) fd))) with
  | Some buf' =>
      read_idx buf' = read_idx buf
      /\ u32 (write_idx buf' - read_idx buf') <= PACKET_RING_SIZE
  | None => False
  end.
Proof.
  intros Hr Hb. unfold writePacket. cbn [m_buffer].
  destruct pkt as [pkt|]; cbn [snd m_buffer]; [|auto].
  destruct (u32 (write_idx buf - read_idx buf) >=? PACKET_RING_SIZE) eqn:Hfull;
    cbn [snd m_buffer]; [auto|].
  unfold with_write_idx, slot_put, with_packets. cbn [read_idx write_idx].
  split; [reflexivity|].
  rewrite Z.geb_leb in Hfull. apply Z.leb_gt in Hfull.
  unfold PACKET_RING_SIZE in *. unfold u32 in *.
  rewrite Zminus_mod_idemp_l.
  replace (write_idx buf + 1 - read_idx buf) with ((write_idx buf - read_idx buf) + 1) by lia.
  rewrite <- Zplus_mod_idemp_l.
  pose proof (Z.mod_pos_bound (write_idx buf - read_idx buf) 4294967296 ltac:(lia)).
  rewrite Z.mod_small; lia.
Qed.

(** C4 (the code at the failing input). On a freshly mapped region, nine
    calls of [SharedMemory::writePacket] with nothing drained: the first
    eight return [true], the ninth returns [false]; the region is then full
    with [write_idx - read_idx = 8], and its flags word is still 0, so the
    OVERFLOW bit is clear. The archived sender [sendViaCmdqu], given the
    same full region, also refuses but sets the OVERFLOW bit. *)
Theorem C4_ninth_push_refused_overflow_flag_clear :
  forall p1 p2 p3 p4 p5 p6 p7 p8 p9 : PosePacket31,
    let run := writePackets [p1; p2; p3; p4; p5; p6; p7; p8; p9] mapped in
    let full := writePackets [p1; p2; p3; p4; p5; p6; p7; p8] mapped in
    fst run = [true; true; true; true; true; true; true; true; false]
    /\ option_map write_idx (m_buffer (snd run)) = Some 8
    /\ option_map read_idx (m_buffer (snd run)) = Some 0
    /\ option_map shared_buffer_is_full (m_buffer (snd run)) = Some true
    /\ option_map flags (m_buffer (snd run)) = Some 0
    /\ option_map (fun b => Z.land (flags b) SHARED_FLAG_OVERFLOW)
                  (m_buffer (snd run)) = Some 0
    /\ (let '(ok, ipc) :=
          IpcMuscleRpmsg.sendViaCmdqu 0 p9
            (IpcMuscleRpmsg.mkIpc 3 (m_buffer (snd full)) 0 0) in
        ok = false
        /\ option_map (fun b => Z.land (flags b) SHARED_FLAG_OVERFLOW)
                      (IpcMuscleRpmsg.m_shared_buf ipc)
           = Some SHARED_FLAG_OVERFLOW).
Proof.
  intros. cbv zeta.
  split; [vm_compute; reflexivity|].
  split; [vm_compute; reflexivity|].
  split; [vm_compute; reflexivity|].
  split; [vm_compute; reflexivity|].
  split; [vm_compute; reflexivity|].
  split; [vm_compute; reflexivity|].
  vm_compute. split; reflexivity.
Qed.

End RingFacts.

(* ================================================================== *)
(** * Ring consumer of app_main_v1.c: validation and sequence numbers *)

Module ConsumerFacts.

Import SharedRing AppMainV1 Scenarios.

Lemma last_seq_app d l1 l2 : last_seq d (l1 ++ l2) = last_seq (last_seq d l1) l2.
Proof. unfold last_seq. apply fold_left_app. Qed.

Lemma seq_chain_app d l1 l2 :
  seq_chain d (l1 ++ l2) <-> seq_chain d l1 /\ seq_chain (last_seq d l1) l2.
Proof.
  revert d. induction l1 as [|p l1 IH]; intros d; cbn [app seq_chain].
  - unfold last_seq. cbn. tauto.
  - rewrite IH. unfold last_seq. cbn [fold_left]. tauto.
Qed.

(** In a chain, a packet that follows one with a non-zero sequence number
    has a larger sequence number. *)
Lemma seq_chain_adjacent d l1 p1 p2 l2 :
  seq_chain d (l1 ++ p1 :: p2 :: l2) -> seq p1 <> 0 -> seq p2 > seq p1.
Proof.
  rewrite seq_chain_app. cbn [seq_chain]. intros [_ [_ [H _]]] Hnz. auto.
Qed.

(** The sequence test of [validate_packet] is the last one: a packet that
    is accepted has a good header and CRC and passes the rule. *)
Lemma validate_packet_accepts pkt v :
  fst (validate_packet pkt v) = 0 ->
  snd (validate_packet pkt v) = v
  /\ (g_last_seq v <> 0 -> seq pkt > g_last_seq v).
Proof.
  unfold validate_packet. cbv zeta.
  destruct (negb (magic pkt =? SPIDER_MAGIC)); [discriminate|].
  destruct (negb (ver_major pkt =? SPIDER_VERSION_MAJOR)
            || negb (ver_minor pkt =? SPIDER_VERSION_MINOR)); [discriminate|].
  destruct (negb (packet_crc pkt =? crc16 pkt)); [discriminate|].
  destruct (seq pkt <=? g_last_seq v) eqn:Hle;
    destruct (g_last_seq v =? 0) eqn:Hz; cbn [andb negb fst snd];
    try discriminate; intros _; split; try reflexivity; intros Hnz.
  - apply Z.eqb_eq in Hz. contradiction.
  - apply Z.leb_gt in Hle. lia.
  - apply Z.leb_gt in Hle. lia.
Qed.

(** A rejected packet changes counters and fault flags only. *)
Lemma validate_packet_log pkt v :
  applied (snd (validate_packet pkt v)) = applied v
  /\ g_last_seq (snd (validate_packet pkt v)) = g_last_seq v.
Proof.
  unfold validate_packet. cbv zeta.
  repeat match goal with |- context [if ?c then _ else _] => destruct c end;
    split; reflexivity.
Qed.

Lemma publish_read_idx_log i v :
  applied (publish_read_idx i v) = applied v
  /\ g_last_seq (publish_read_idx i v) = g_last_seq v.
Proof. unfold publish_read_idx. destruct (g_shared_buf v); split; reflexivity. Qed.

Lemma consumer_inv_same_log v v' :
  applied v' = applied v -> g_last_seq v' = g_last_seq v ->
  consumer_inv v -> consumer_inv v'.
Proof. unfold consumer_inv. intros -> ->. auto. Qed.

Lemma process_packet_inv now pkt processed v :
  consumer_inv v -> consumer_inv (snd (process_packet now pkt processed v)).
Proof.
  intros Hinv. unfold process_packet.
  pose proof (validate_packet_accepts pkt v) as Hacc.
  pose proof (validate_packet_log pkt v) as [Hlog1 Hlog2].
  destruct (validate_packet pkt v) as [status v1]. cbn [fst snd] in *.
  destruct (status =? 0) eqn:Hs.
  - apply Z.eqb_eq in Hs. destruct (Hacc Hs) as [-> Hrule].
    destruct (truthy (Z.land (Packet.flags pkt) FLAG_ESTOP)); cbn [snd].
    + revert Hinv. apply consumer_inv_same_log; reflexivity.
    + destruct Hinv as [Hchain Hlast]. unfold consumer_inv, accept_packet.
      cbn [applied g_last_seq apply_servo_values with_rt].
      rewrite seq_chain_app, last_seq_app, <- Hlast.
      cbn [seq_chain]. split; [auto|reflexivity].
  - cbn [snd]. revert Hinv. apply consumer_inv_same_log; assumption.
Qed.

Lemma drain_loop_inv fuel now slots :
  forall read_idx write_idx processed v n v',
    consumer_inv v ->
    drain_loop fuel now slots read_idx write_idx processed v = Some (n, v') ->
    consumer_inv v'.
Proof.
  induction fuel as [|fuel IH]; intros read_idx write_idx processed v n v' Hinv;
    cbn [drain_loop]; destruct (read_idx =? write_idx);
    try (intros H; inversion H; subst; assumption); try discriminate.
  destruct (truthy (g_estop_active v)).
  - apply IH. destruct (publish_read_idx_log (u32 (read_idx + 1)) v).
    revert Hinv. apply consumer_inv_same_log; assumption.
  - pose proof (process_packet_inv now
                  (slot_get slots (shared_buffer_slot_index read_idx))
                  processed v Hinv) as Hp.
    destruct (process_packet now _ processed v) as [processed' v1].
    cbn [snd] in Hp. apply IH.
    destruct (publish_read_idx_log (u32 (read_idx + 1)) v1).
    revert Hp. apply consumer_inv_same_log; assumption.
Qed.

(** The loop leaves through its exit test: [(write_idx - read_idx) mod 2^32]
    turns are enough. *)
Lemma drain_loop_total fuel now slots write_idx :
  0 <= write_idx < 4294967296 ->
  forall read_idx processed v,
    0 <= read_idx < 4294967296 ->
    u32 (write_idx - read_idx) = Z.of_nat fuel ->
    exists n v', drain_loop fuel now slots read_idx write_idx processed v
                 = Some (n, v').
Proof.
  intros Hw. induction fuel as [|fuel IH]; intros read_idx processed v Hr Hfuel;
    cbn [drain_loop]; destruct (read_idx =? write_idx) eqn:He; eauto.
  - apply Z.eqb_neq in He. exfalso. unfold u32 in Hfuel.
    assert (Hcases : write_idx - read_idx = (write_idx - read_idx) mod 4294967296
                     \/ write_idx - read_idx + 4294967296
                        = (write_idx - read_idx) mod 4294967296).
    { destruct (Z_lt_le_dec write_idx read_idx).
      - right. apply Z.mod_unique with (q := -1); lia.
      - left. symmetry. apply Z.mod_small. lia. }
    cbn in Hfuel. lia.
  - apply Z.eqb_neq in He.
    assert (Hnext : u32 (write_idx - u32 (read_idx + 1)) = Z.of_nat fuel).
    { unfold u32 in *.
      rewrite Zminus_mod_idemp_r.
      replace (write_idx - (read_idx + 1)) with ((write_idx - read_idx) - 1) by lia.
      pose proof (Z.mod_pos_bound (write_idx - read_idx) 4294967296 ltac:(lia)).
      rewrite <- Zminus_mod_idemp_l, Hfuel.
      rewrite Z.mod_small; lia. }
    pose proof (u32_range (read_idx + 1)) as Hr'.
    destruct (truthy (g_estop_active v)).
    + apply IH; assumption.
    + destruct (process_packet now _ processed v) as [processed' v1].
      apply IH; assumption.
Qed.

(** C5 (as the code has it). With the consumer's invariant in force (it
    holds at start-up), [process_shared_buffer_packets] returns, keeps the
    invariant, and among the packets applied so far any packet that follows
    one with a non-zero sequence number has a larger sequence number; and
    [validate_packet] rejects a packet whose sequence number is equal to or
    below the last applied one whenever that one is not 0. *)
Theorem C5_applied_sequence_increases_after_nonzero :
  forall (now : Z) (v : V1),
    indices_u32 v ->
    consumer_inv v ->
    (exists n v',
        process_shared_buffer_packets now v = Some (n, v')
        /\ consumer_inv v'
        /\ forall l1 p1 p2 l2,
             applied v' = l1 ++ p1 :: p2 :: l2 ->
             seq p1 <> 0 -> seq p2 > seq p1)
    /\ (forall pkt,
          g_last_seq v <> 0 -> seq pkt <= g_last_seq v ->
          fst (validate_packet pkt v) <> 0).
Proof.
  intros now v Hidx Hinv. split.
  - unfold process_shared_buffer_packets. unfold indices_u32 in Hidx.
    destruct (g_shared_buf v) as [b|].
    + destruct Hidx as [Hr Hw].
      destruct (drain_loop_total
                  (Z.to_nat (u32 (write_idx b - read_idx b))) now b
                  (write_idx b) Hw (read_idx b) 0 v Hr) as [n [v' Hrun]].
      { rewrite Z2Nat.id; [reflexivity | apply u32_range]. }
      exists n, v'. split; [exact Hrun|].
      pose proof (drain_loop_inv _ _ _ _ _ _ _ _ _ Hinv Hrun) as Hinv'.
      split; [exact Hinv'|].
      intros l1 p1 p2 l2 Happ. destruct Hinv' as [Hchain _].
      rewrite Happ in Hchain. eapply seq_chain_adjacent; eassumption.
    + exists 0, v. split; [reflexivity|]. split; [exact Hinv|].
      intros l1 p1 p2 l2 Happ. destruct Hinv as [Hchain _].
      rewrite Happ in Hchain. eapply seq_chain_adjacent; eassumption.
  - intros pkt Hnz Hle Hok.
    destruct (validate_packet_accepts pkt v Hok) as [_ Hrule].
    specialize (Hrule Hnz). lia.
Qed.

(** The queue path of app_main_v1.c and the doorbell handler keep the
    invariant as well. *)
Lemma queue_packet_inv pkt v : consumer_inv v -> consumer_inv (queue_packet pkt v).
Proof.
  intros Hinv. unfold queue_packet.
  destruct (truthy (g_estop_active v)); [exact Hinv|].
  pose proof (validate_packet_accepts pkt v) as Hacc.
  pose proof (validate_packet_log pkt v) as [Hlog1 Hlog2].
  destruct (validate_packet pkt v) as [status v1]. cbn [fst snd] in *.
  destruct (status =? 0) eqn:Hs.
  - apply Z.eqb_eq in Hs. destruct (Hacc Hs) as [-> Hrule].
    destruct (truthy (Z.land (Packet.flags pkt) FLAG_ESTOP)).
    + revert Hinv. apply consumer_inv_same_log; reflexivity.
    + destruct Hinv as [Hchain Hlast]. unfold consumer_inv.
      cbn [applied g_last_seq apply_servo_values].
      rewrite seq_chain_app, last_seq_app, <- Hlast.
      cbn [seq_chain]. split; [auto|reflexivity].
  - revert Hinv. apply consumer_inv_same_log; assumption.
Qed.

Lemma mailbox_cmd_handler_inv now cmd_id param v v' :
  consumer_inv v -> mailbox_cmd_handler now cmd_id param v = Some v' ->
  consumer_inv v'.
Proof.
  intros Hinv. unfold mailbox_cmd_handler. cbv zeta.
  destruct (u8 cmd_id =? CMD_HEARTBEAT).
  { intros H. inversion H; subst. revert Hinv.
    apply consumer_inv_same_log; reflexivity. }
  destruct (u8 cmd_id =? CMD_MOTION_PACKET).
  { destruct (negb (truthy (g_estop_active v)));
      [|intros H; inversion H; subst; exact Hinv].
    unfold process_shared_buffer_packets.
    destruct (g_shared_buf v) as [b|];
      [|intros H; inversion H; subst; exact Hinv].
    destruct (drain_loop _ now b (read_idx b) (write_idx b) 0 v)
      as [[n v1]|] eqn:Hrun; [|discriminate].
    intros H. inversion H; subst.
    eapply drain_loop_inv; eassumption. }
  destruct (u8 cmd_id =? CMD_ESTOP); intros H; inversion H; subst.
  - revert Hinv. apply consumer_inv_same_log.
    + unfold handle_estop. reflexivity.
    + unfold handle_estop. reflexivity.
  - exact Hinv.
Qed.

Lemma consumer_inv_boot now region : consumer_inv (main_cvirtos now region).
Proof. split; [exact I | reflexivity]. Qed.

(** C5, witness: the consumer attached to a ring holding sequence numbers
    5, 3 and 7. *)
Lemma C5_applied_sequence_increases_after_nonzero_witness :
  indices_u32 v1_5_3_7
  /\ consumer_inv v1_5_3_7
  /\ (exists n v',
        process_shared_buffer_packets 10 v1_5_3_7 = Some (n, v')
        /\ consumer_inv v'
        /\ forall l1 p1 p2 l2,
             applied v' = l1 ++ p1 :: p2 :: l2 ->
             seq p1 <> 0 -> seq p2 > seq p1).
Proof.
  assert (Hidx : indices_u32 v1_5_3_7) by (vm_compute; intuition discriminate).
  assert (Hinv : consumer_inv v1_5_3_7) by apply consumer_inv_boot.
  split; [exact Hidx|]. split; [exact Hinv|].
  exact (proj1 (C5_applied_sequence_increases_after_nonzero 10 v1_5_3_7 Hidx Hinv)).
Defined.

(** What the witness run does: 5 is applied, 3 is dropped, 7 is applied. *)
Example drain_5_3_7 :
  option_map (fun r => (fst r, map seq (applied (snd r)), g_drop_count (snd r)))
             (process_shared_buffer_packets 10 v1_5_3_7)
  = Some (2, [5; 7], 1).
Proof. vm_compute. reflexivity. Qed.

(** C5, counterexample to the claim as stated: two packets that both carry
    sequence number 0 are applied one after the other; the second is not
    above the first, and validation drops neither. *)
Lemma C5_equal_sequence_applied_counterexample :
  exists n v',
    process_shared_buffer_packets 10 v1_0_0 = Some (n, v')
    /\ n = 2
    /\ applied v' = [zero_seq_a; zero_seq_b]
    /\ g_drop_count v' = 0
    /\ ~ (seq zero_seq_b > seq zero_seq_a).
Proof.
  destruct (process_shared_buffer_packets 10 v1_0_0) as [[n v']|] eqn:Hrun;
    [|vm_compute in Hrun; discriminate Hrun].
  exists n, v'. split; [reflexivity|].
  vm_compute in Hrun. injection Hrun as Hn Hv. subst n v'.
  split; [reflexivity|]. split; [vm_compute; reflexivity|].
  split; [reflexivity|]. vm_compute. discriminate.
Qed.

End ConsumerFacts.

(* ================================================================== *)
(** * Watchdog: timeout window and ESTOP clearing *)

Module WatchdogFacts.

Import Pca9685Facts FeedFacts Scenarios.

(** Ticks elapsed since a feed at [t0], read [d] ticks later, whatever the
    position of the 32-bit tick counter. *)
Lemma elapsed_since_feed t0 d :
  tick_sub (u32 (t0 + d)) (u32 t0) = u32 d.
Proof.
  unfold tick_sub, u32.
  rewrite Zminus_mod_idemp_l, Zminus_mod_idemp_r.
  f_equal. lia.
Qed.

Lemma watchdog_feed_state t0 r :
  wd_state r <> WATCHDOG_STATE_ESTOP ->
  wd_state (watchdog_feed t0 r) = WATCHDOG_STATE_NORMAL
  /\ wd_last_feed_tick (watchdog_feed t0 r) = u32 t0.
Proof.
  intros H. unfold watchdog_feed. cbv zeta.
  cbn [emit with_last_feed wd_state].
  destruct (wd_state r) eqn:Hs; try contradiction; cbn; auto.
Qed.

(** A check inside the window changes nothing. *)
Lemma watchdog_check_quiet cb t0 d r :
  wd_state r = WATCHDOG_STATE_NORMAL ->
  wd_last_feed_tick r = u32 t0 ->
  0 <= d <= 250 ->
  watchdog_check cb (t0 + d) r = r.
Proof.
  intros Hs Hl Hd. unfold watchdog_check. cbv zeta.
  rewrite Hs, Hl, elapsed_since_feed, pdMS_TO_TICKS_250.
  cbn [WatchdogState_eqb]. rewrite u32_small by lia.
  replace (d >? 250) with false; [reflexivity|].
  symmetry. rewrite Z.gtb_ltb. apply Z.ltb_ge. lia.
Qed.

(** The first check past the window sets TIMEOUT, fires the callback and
    moves on to HOLD. *)
Lemma watchdog_check_timeout cb t0 d r :
  callback_keeps_watchdog cb ->
  wd_state r = WATCHDOG_STATE_NORMAL ->
  wd_last_feed_tick r = u32 t0 ->
  250 < d < 4294967296 ->
  timeout_transition r (watchdog_check cb (t0 + d) r).
Proof.
  intros Hcb Hs Hl Hd. unfold watchdog_check. cbv zeta.
  rewrite Hs, Hl, elapsed_since_feed, pdMS_TO_TICKS_250.
  cbn [WatchdogState_eqb]. rewrite u32_small by lia.
  replace (d >? 250) with true
    by (symmetry; rewrite Z.gtb_ltb; apply Z.ltb_lt; lia).
  set (r1 := fault_flags_set FAULT_HEARTBEAT_TIMEOUT
               (store_state WATCHDOG_STATE_TIMEOUT r)).
  destruct (Hcb r1) as [Hst [_ [l Htr]]].
  replace (wd_state (invoke cb r1)) with WATCHDOG_STATE_TIMEOUT
    by (rewrite Hst; reflexivity).
  cbn [WatchdogState_eqb]. unfold failsafe_enter_hold, timeout_transition.
  split; [reflexivity|].
  exists l. unfold store_state at 1. cbn [emit with_wd_state trace].
  rewrite Htr. subst r1. cbn [fault_flags_set with_fault_flags store_state
                               emit with_wd_state trace].
  rewrite <- !app_assoc. reflexivity.
Qed.

Lemma watchdog_run_snoc cb n first r :
  watchdog_run cb (S n) first r =
  watchdog_check cb (first + 25 * Z.of_nat n) (watchdog_run cb n first r).
Proof.
  revert first r. induction n as [|n IH]; intros first r.
  - cbn [watchdog_run]. rewrite Z.mul_0_r, Z.add_0_r. reflexivity.
  - change (watchdog_run cb (S (S n)) first r)
      with (watchdog_run cb (S n) (first + pdMS_TO_TICKS WATCHDOG_CHECK_PERIOD_MS)
              (watchdog_check cb first r)).
    rewrite IH, pdMS_TO_TICKS_25. cbn [watchdog_run].
    rewrite pdMS_TO_TICKS_25. f_equal. lia.
Qed.

(** Periodic checks that all fall inside the window change nothing. *)
Lemma watchdog_run_quiet cb t0 r :
  wd_state r = WATCHDOG_STATE_NORMAL ->
  wd_last_feed_tick r = u32 t0 ->
  forall n d0,
    0 <= d0 -> d0 + 25 * Z.of_nat n <= 275 ->
    watchdog_run cb n (t0 + d0) r = r.
Proof.
  intros Hs Hl. induction n as [|n IH]; intros d0 H0 Hn; [reflexivity|].
  cbn [watchdog_run]. rewrite watchdog_check_quiet by (auto; lia).
  rewrite pdMS_TO_TICKS_25.
  replace (t0 + d0 + 25) with (t0 + (d0 + 25)) by lia.
  apply IH; lia.
Qed.

(** C6. After a feed at tick [t0] (the watchdog not being in ESTOP) the
    state is NORMAL; a check of the watchdog task at any tick [t0 + d] with
    [d <= 250] leaves everything as it is; a check at [t0 + d] with
    [d > 250] sets the state to TIMEOUT (and, in the same check, on to
    HOLD). With checks every 25 ticks, the first one past the window comes
    at most 25 ticks after it: for a check at [t0 + d0] inside the window,
    some later check of the same series falls at [t0 + d] with
    [250 < d <= 275], nothing has changed up to it, and it makes the
    transition. *)
Theorem C6_watchdog_timeout_window :
  forall (cb : Callback) (t0 : Z) (r : Rt),
    callback_keeps_watchdog cb ->
    wd_state r <> WATCHDOG_STATE_ESTOP ->
    let fed := watchdog_feed t0 r in
    wd_state fed = WATCHDOG_STATE_NORMAL
    /\ (forall d, 0 <= d <= 250 -> watchdog_check cb (t0 + d) fed = fed)
    /\ (forall d, 250 < d < 4294967296 ->
          timeout_transition fed (watchdog_check cb (t0 + d) fed))
    /\ (forall d0, 0 <= d0 <= 250 ->
          exists (k : nat) (d : Z),
            d = d0 + 25 * Z.of_nat k
            /\ 250 < d <= 250 + WATCHDOG_CHECK_PERIOD_MS
            /\ watchdog_run cb k (t0 + d0) fed = fed
            /\ timeout_transition fed (watchdog_run cb (S k) (t0 + d0) fed)).
Proof.
  intros cb t0 r Hcb Hne. cbv zeta.
  destruct (watchdog_feed_state t0 r Hne) as [Hs Hl].
  split; [exact Hs|]. split; [|split].
  - intros d Hd. apply watchdog_check_quiet; assumption.
  - intros d Hd. apply watchdog_check_timeout; assumption.
  - intros d0 Hd0. unfold WATCHDOG_CHECK_PERIOD_MS.
    exists (Z.to_nat ((250 - d0) / 25 + 1)), (d0 + 25 * ((250 - d0) / 25 + 1)).
    pose proof (Z.div_pos (250 - d0) 25 ltac:(lia) ltac:(lia)) as Hq.
    pose proof (Z.mul_div_le (250 - d0) 25 ltac:(lia)) as Hlo.
    pose proof (Z.mul_succ_div_gt (250 - d0) 25 ltac:(lia)) as Hhi.
    rewrite Z2Nat.id by lia.
    split; [reflexivity|]. split; [lia|].
    assert (Hquiet : watchdog_run cb (Z.to_nat ((250 - d0) / 25 + 1)) (t0 + d0)
                       (watchdog_feed t0 r) = watchdog_feed t0 r).
    { apply watchdog_run_quiet; try assumption; lia. }
    split; [exact Hquiet|].
    rewrite watchdog_run_snoc, Hquiet, Z2Nat.id by lia.
    replace (t0 + d0 + 25 * ((250 - d0) / 25 + 1))
      with (t0 + (d0 + 25 * ((250 - d0) / 25 + 1))) by lia.
    apply watchdog_check_timeout; try assumption. lia.
Qed.

Lemma v1_timeout_callback_keeps_watchdog :
  callback_keeps_watchdog AppMainV1.on_watchdog_timeout.
Proof.
  intros r. unfold AppMainV1.on_watchdog_timeout, invoke,
    AppMainV1.set_all_servos_neutral.
  destruct (set_all_us_watchdog SERVO_PWM_NEUTRAL_US r) as [H1 H2].
  split; [exact H1|]. split; [exact H2|].
  destruct (pca9685_set_all_us_extends SERVO_PWM_NEUTRAL_US r) as [l [Hl _]].
  exists l. exact Hl.
Qed.

Lemma archive_timeout_callback_keeps_watchdog :
  callback_keeps_watchdog MotionTask.on_watchdog_timeout.
Proof.
  intros r. cbn. repeat split. exists []. rewrite app_nil_r. reflexivity.
Qed.

(** C6, witness: the watchdog of app_main_v1.c, fed at tick 1000 after
    boot, first check 10 ticks later. *)
Lemma C6_watchdog_timeout_window_witness :
  callback_keeps_watchdog AppMainV1.on_watchdog_timeout
  /\ wd_state rt_boot <> WATCHDOG_STATE_ESTOP
  /\ wd_state (watchdog_feed 1000 rt_boot) = WATCHDOG_STATE_NORMAL
  /\ watchdog_check AppMainV1.on_watchdog_timeout (1000 + 250)
       (watchdog_feed 1000 rt_boot) = watchdog_feed 1000 rt_boot
  /\ timeout_transition (watchdog_feed 1000 rt_boot)
       (watchdog_check AppMainV1.on_watchdog_timeout (1000 + 251)
          (watchdog_feed 1000 rt_boot))
  /\ (exists (k : nat) (d : Z),
        d = 10 + 25 * Z.of_nat k
        /\ 250 < d <= 250 + WATCHDOG_CHECK_PERIOD_MS
        /\ watchdog_run AppMainV1.on_watchdog_timeout k (1000 + 10)
             (watchdog_feed 1000 rt_boot) = watchdog_feed 1000 rt_boot
        /\ timeout_transition (watchdog_feed 1000 rt_boot)
             (watchdog_run AppMainV1.on_watchdog_timeout (S k) (1000 + 10)
                (watchdog_feed 1000 rt_boot))).
Proof.
  assert (Hne : wd_state rt_boot <> WATCHDOG_STATE_ESTOP)
    by (cbn; discriminate).
  destruct (C6_watchdog_timeout_window AppMainV1.on_watchdog_timeout 1000
              rt_boot v1_timeout_callback_keeps_watchdog Hne)
    as [H1 [H2 [H3 H4]]].
  split; [exact v1_timeout_callback_keeps_watchdog|].
  split; [exact Hne|]. split; [exact H1|].
  split; [apply H2; lia|]. split; [apply H3; lia|]. apply H4; lia.
Defined.

(** The witness series in numbers: checks at 1010, 1035, ..., 1260; the
    eleventh is the first past tick 1250 and ends in HOLD. *)
Example watchdog_series_1010 :
  wd_state (watchdog_run AppMainV1.on_watchdog_timeout 10 1010
              (watchdog_feed 1000 rt_boot)) = WATCHDOG_STATE_NORMAL
  /\ wd_state (watchdog_run AppMainV1.on_watchdog_timeout 11 1010
                 (watchdog_feed 1000 rt_boot)) = WATCHDOG_STATE_HOLD.
Proof. split; vm_compute; reflexivity. Qed.

End WatchdogFacts.

(* ================================================================== *)
(** * Watchdog: a failed clear of ESTOP *)

Module ClearFacts.

Import WatchdogFacts Scenarios.

Lemma heartbeat_fault_cleared f :
  Z.land (Z.land f (Z.lxor 0xFFFFFFFF (u32 FAULT_HEARTBEAT_TIMEOUT)))
         (u32 FAULT_HEARTBEAT_TIMEOUT) = 0.
Proof.
  rewrite <- Z.land_assoc.
  replace (Z.land (Z.lxor 0xFFFFFFFF (u32 FAULT_HEARTBEAT_TIMEOUT))
                  (u32 FAULT_HEARTBEAT_TIMEOUT)) with 0 by reflexivity.
  apply Z.land_0_r.
Qed.

(** C9. In ESTOP with the last feed 250 ticks old or older,
    [watchdog_clear_estop] returns -1 and leaves the watchdog in HOLD; one
    [watchdog_feed] after that, at any time, puts it back to NORMAL with
    the heartbeat-timeout fault cleared, and motion is allowed again. *)
Theorem C9_failed_clear_then_feed_leaves_estop :
  forall (now later : Z) (r : Rt),
    wd_state r = WATCHDOG_STATE_ESTOP ->
    tick_sub (u32 now) (wd_last_feed_tick r) >= pdMS_TO_TICKS HEARTBEAT_TIMEOUT_MS ->
    fst (watchdog_clear_estop now r) = -1
    /\ wd_state (snd (watchdog_clear_estop now r)) = WATCHDOG_STATE_HOLD
    /\ (let r2 := watchdog_feed later (snd (watchdog_clear_estop now r)) in
        wd_state r2 = WATCHDOG_STATE_NORMAL
        /\ fault_flags_is_set FAULT_HEARTBEAT_TIMEOUT r2 = false
        /\ watchdog_is_motion_allowed r2 = true).
Proof.
  intros now later r Hs Hold. unfold watchdog_clear_estop. cbv zeta.
  rewrite Hs. cbn [WatchdogState_eqb negb].
  replace (tick_sub (u32 now) (wd_last_feed_tick r)
           <? pdMS_TO_TICKS HEARTBEAT_TIMEOUT_MS) with false
    by (symmetry; apply Z.ltb_ge; lia).
  cbn [fst snd]. split; [reflexivity|]. split; [reflexivity|].
  unfold watchdog_feed, watchdog_is_motion_allowed, fault_flags_is_set. cbv zeta.
  cbn [store_state emit with_wd_state with_last_feed wd_state
       WatchdogState_eqb orb fault_flags_clear with_fault_flags s_fault_flags].
  rewrite heartbeat_fault_cleared. repeat split.
Qed.

(** C9, witness: ESTOP signalled at boot (last feed at tick 0), clear
    attempted at tick 250, heartbeat at tick 300. *)
Lemma C9_failed_clear_then_feed_leaves_estop_witness :
  let r := watchdog_signal_estop AppMainV1.on_watchdog_estop rt_boot in
  wd_state r = WATCHDOG_STATE_ESTOP
  /\ tick_sub (u32 250) (wd_last_feed_tick r) >= pdMS_TO_TICKS HEARTBEAT_TIMEOUT_MS
  /\ fst (watchdog_clear_estop 250 r) = -1
  /\ wd_state (snd (watchdog_clear_estop 250 r)) = WATCHDOG_STATE_HOLD
  /\ (let r2 := watchdog_feed 300 (snd (watchdog_clear_estop 250 r)) in
      wd_state r2 = WATCHDOG_STATE_NORMAL
      /\ fault_flags_is_set FAULT_HEARTBEAT_TIMEOUT r2 = false
      /\ watchdog_is_motion_allowed r2 = true).
Proof.
  cbv zeta.
  assert (Hs : wd_state (watchdog_signal_estop AppMainV1.on_watchdog_estop rt_boot)
               = WATCHDOG_STATE_ESTOP) by (vm_compute; reflexivity).
  assert (Hold : tick_sub (u32 250)
                   (wd_last_feed_tick
                      (watchdog_signal_estop AppMainV1.on_watchdog_estop rt_boot))
                 >= pdMS_TO_TICKS HEARTBEAT_TIMEOUT_MS)
    by (vm_compute; discriminate).
  split; [exact Hs|]. split; [exact Hold|].
  exact (C9_failed_clear_then_feed_leaves_estop 250 300 _ Hs Hold).
Defined.

(** With a feed younger than 250 ticks the clear succeeds instead. *)
Lemma clear_estop_succeeds now r :
  wd_state r = WATCHDOG_STATE_ESTOP ->
  tick_sub (u32 now) (wd_last_feed_tick r) < pdMS_TO_TICKS HEARTBEAT_TIMEOUT_MS ->
  fst (watchdog_clear_estop now r) = 0
  /\ wd_state (snd (watchdog_clear_estop now r)) = WATCHDOG_STATE_NORMAL.
Proof.
  intros Hs Hyoung. unfold watchdog_clear_estop. cbv zeta.
  rewrite Hs. cbn [WatchdogState_eqb negb].
  replace (tick_sub (u32 now) (wd_last_feed_tick r)
           <? pdMS_TO_TICKS HEARTBEAT_TIMEOUT_MS) with true
    by (symmetry; apply Z.ltb_lt; lia).
  split; reflexivity.
Qed.

(** The motion task after the two steps of C9: ESTOP latched at tick 40,
    a clear attempted at tick 400 fails, and the next ordinary packet is
    acted upon; the channels go to 1200 us although no clear has
    succeeded. *)
Example estop_latch_lost_in_motion_task :
  forall float_lerp : Z -> Z -> Z -> Z -> Z,
    let turn := MotionTask.motion_loop float_lerp MotionTask.on_watchdog_estop in
    let m2 := turn 40 (Some estop_packet) (turn 20 (Some move_1800) motion_boot) in
    let cleared := watchdog_clear_estop 400 (MotionTask.rt m2) in
    let m3 := turn 420 (Some move_1200) (MotionTask.with_rt (snd cleared) m2) in
    wd_state (MotionTask.rt m2) = WATCHDOG_STATE_ESTOP
    /\ fst cleared = -1
    /\ wd_state (MotionTask.rt m3) = WATCHDOG_STATE_NORMAL
    /\ MotionTask.s_current_us m3 = all_channels 1200.
Proof.
  intros float_lerp. cbv zeta.
  split; [vm_compute; reflexivity|]. split; [vm_compute; reflexivity|].
  split; vm_compute; reflexivity.
Qed.

End ClearFacts.

(* ================================================================== *)
(** * Ring consumer: the first packet *)

Module FirstPacketFacts.

Import AppMainV1 Scenarios.

(** C10. While [g_last_seq] is 0, [validate_packet] accepts a packet with
    good magic, version and CRC whatever its sequence number, 0 and values
    seen before included; with [g_last_seq] not 0, such a packet is
    rejected with -4 as soon as its sequence number is not above it. *)
Theorem C10_no_sequence_check_before_first_packet :
  forall (pkt : PosePacket31) (v : V1),
    magic pkt = SPIDER_MAGIC ->
    ver_major pkt = SPIDER_VERSION_MAJOR ->
    ver_minor pkt = SPIDER_VERSION_MINOR ->
    crc16 pkt = packet_crc pkt ->
    (g_last_seq v = 0 -> validate_packet pkt v = (0, v))
    /\ (g_last_seq v <> 0 -> seq pkt <= g_last_seq v ->
        validate_packet pkt v = (-4, drop v))
    /\ (g_last_seq v <> 0 -> seq pkt > g_last_seq v ->
        validate_packet pkt v = (0, v)).
Proof.
  intros pkt v Hm Hmaj Hmin Hcrc. unfold validate_packet. cbv zeta.
  rewrite Hm, Hmaj, Hmin, Hcrc, !Z.eqb_refl. cbn [negb orb].
  split; [|split].
  - intros H0. rewrite H0. cbn [Z.eqb negb]. rewrite andb_false_r. reflexivity.
  - intros Hnz Hle. apply Z.leb_le in Hle. apply Z.eqb_neq in Hnz.
    rewrite Hle, Hnz. reflexivity.
  - intros Hnz Hgt.
    replace (seq pkt <=? g_last_seq v) with false
      by (symmetry; apply Z.leb_gt; lia).
    reflexivity.
Qed.

(** C10, witness: a sealed packet with sequence number 0 at the consumer's
    start-up. *)
Lemma C10_no_sequence_check_before_first_packet_witness :
  magic zero_seq_a = SPIDER_MAGIC
  /\ ver_major zero_seq_a = SPIDER_VERSION_MAJOR
  /\ ver_minor zero_seq_a = SPIDER_VERSION_MINOR
  /\ crc16 zero_seq_a = packet_crc zero_seq_a
  /\ g_last_seq v1_boot = 0
  /\ seq zero_seq_a = 0
  /\ validate_packet zero_seq_a v1_boot = (0, v1_boot).
Proof.
  assert (Hcrc : crc16 zero_seq_a = packet_crc zero_seq_a)
    by (vm_compute; reflexivity).
  split; [reflexivity|]. split; [reflexivity|]. split; [reflexivity|].
  split; [exact Hcrc|]. split; [reflexivity|]. split; [reflexivity|].
  exact (proj1 (C10_no_sequence_check_before_first_packet zero_seq_a v1_boot
                  eq_refl eq_refl eq_refl Hcrc) eq_refl).
Defined.

End FirstPacketFacts.

(* ================================================================== *)
(** * Interpolator: reaching the target *)

Module InterpFacts.

Import Interpolator Scenarios.

Section FloatArithmetic.

Variable float_lerp : Z -> Z -> Z -> Z -> Z.

Lemma copy13_nth (l : list Z) (i : nat) (rest : list Z) :
  (i < 13)%nat -> nth i (copy13 l ++ rest) 0 = nth i l 0.
Proof.
  intros Hi. rewrite app_nth1 by (unfold copy13; rewrite length_map; cbn; lia).
  do 13 (destruct i as [|i]; [reflexivity|]). lia.
Qed.

Lemma skipn13_channels (f : nat -> Z) (rest : list Z) :
  skipn 13 (map f channels13 ++ rest) = rest.
Proof. reflexivity. Qed.

Lemma copy13_idem (l : list Z) : copy13 (copy13 l) = copy13 l.
Proof. reflexivity. Qed.

(** An array of exactly 13 entries is its own copy and has nothing
    behind them. *)
Lemma copy13_exact (l : list Z) :
  length l = 13%nat -> copy13 l = l /\ skipn 13 l = [].
Proof.
  intros H. do 13 (destruct l as [|? l]; [discriminate H|]).
  destruct l; [split; reflexivity | discriminate H].
Qed.

(** A tick that does not reach the duration keeps the interpolation
    running. *)
Lemma tick_running ip out :
  s_active ip = true ->
  u32 (s_elapsed_ms ip + TICK_PERIOD_MS) < s_duration_ms ip ->
  exists out',
    interpolator_tick float_lerp ip out =
    (false,
     mkInterp (s_start_us ip) (s_target_us ip) (s_duration_ms ip)
              (u32 (s_elapsed_ms ip + TICK_PERIOD_MS)) (s_mode ip) true,
     out')
    /\ skipn 13 out' = skipn 13 out.
Proof.
  intros Ha Hlt. unfold interpolator_tick. rewrite Ha. cbn [negb]. cbv zeta.
  cbn [s_duration_ms s_start_us s_target_us s_mode s_active].
  replace (u32 (s_elapsed_ms ip + TICK_PERIOD_MS) >=? s_duration_ms ip) with false
    by (symmetry; rewrite Z.geb_leb; apply Z.leb_gt; lia).
  eexists. split; [reflexivity|]. apply skipn13_channels.
Qed.

(** The tick that reaches the duration copies the target and stops. *)
Lemma tick_final ip out :
  s_active ip = true ->
  u32 (s_elapsed_ms ip + TICK_PERIOD_MS) >= s_duration_ms ip ->
  interpolator_tick float_lerp ip out =
  (true,
   mkInterp (s_start_us ip) (s_target_us ip) (s_duration_ms ip)
            (u32 (s_elapsed_ms ip + TICK_PERIOD_MS)) (s_mode ip) false,
   copy13 (s_target_us ip) ++ skipn 13 out).
Proof.
  intros Ha Hge. unfold interpolator_tick. rewrite Ha. cbn [negb]. cbv zeta.
  cbn [s_duration_ms s_start_us s_target_us s_mode s_active].
  replace (u32 (s_elapsed_ms ip + TICK_PERIOD_MS) >=? s_duration_ms ip) with true
    by (symmetry; rewrite Z.geb_leb; apply Z.leb_le; lia).
  reflexivity.
Qed.

Lemma ticks_snoc n ip out :
  interpolator_ticks float_lerp (S n) ip out =
  let '(ip', out') := interpolator_ticks float_lerp n ip out in
  let '(_, ip'', out'') := interpolator_tick float_lerp ip' out' in
  (ip'', out'').
Proof.
  revert ip out. induction n as [|n IH]; intros ip out.
  - cbn [interpolator_ticks].
    destruct (interpolator_tick float_lerp ip out) as [[c ip1] out1]. reflexivity.
  - change (interpolator_ticks float_lerp (S (S n)) ip out)
      with (let '(_, ip', out') := interpolator_tick float_lerp ip out in
            interpolator_ticks float_lerp (S n) ip' out').
    destruct (interpolator_tick float_lerp ip out) as [[c ip1] out1] eqn:Ht.
    rewrite IH. cbn [interpolator_ticks]. rewrite Ht. reflexivity.
Qed.

(** As long as the elapsed time stays below the duration (and so below
    2^32), [n] ticks add [20 n] ms and leave the interpolation running. *)
Lemma ticks_running n :
  forall ip out,
    s_active ip = true ->
    0 <= s_elapsed_ms ip ->
    s_elapsed_ms ip + TICK_PERIOD_MS * Z.of_nat n < s_duration_ms ip ->
    s_duration_ms ip <= 4294967296 ->
    exists out',
      interpolator_ticks float_lerp n ip out =
      (mkInterp (s_start_us ip) (s_target_us ip) (s_duration_ms ip)
                (s_elapsed_ms ip + TICK_PERIOD_MS * Z.of_nat n) (s_mode ip) true,
       out')
      /\ skipn 13 out' = skipn 13 out.
Proof.
  unfold TICK_PERIOD_MS, MOTION_UPDATE_HZ. change (1000 / 50) with 20.
  induction n as [|n IH]; intros ip out Ha H0 Hlt Hd.
  - exists out. cbn [interpolator_ticks]. rewrite Z.mul_0_r, Z.add_0_r.
    split; [|reflexivity]. destruct ip; cbn in *; subst; reflexivity.
  - cbn [interpolator_ticks].
    assert (Hsmall : u32 (s_elapsed_ms ip + TICK_PERIOD_MS) = s_elapsed_ms ip + 20).
    { unfold TICK_PERIOD_MS, MOTION_UPDATE_HZ. change (1000 / 50) with 20.
      apply u32_small. lia. }
    destruct (tick_running ip out Ha) as [out1 [Ht Hs1]]; [rewrite Hsmall; lia|].
    rewrite Ht, Hsmall.
    destruct (IH (mkInterp (s_start_us ip) (s_target_us ip) (s_duration_ms ip)
                           (s_elapsed_ms ip + 20) (s_mode ip) true) out1)
      as [out2 [Hrun Hs2]]; cbn [s_active s_elapsed_ms s_duration_ms]; try lia; auto.
    exists out2. rewrite Hrun.
    cbn [s_start_us s_target_us s_duration_ms s_elapsed_ms s_mode].
    split; [do 2 f_equal; lia | congruence].
Qed.

(** The same with the number of ticks given as an integer. *)
Lemma ticks_running_Z (k : Z) ip out :
  0 <= k ->
  s_active ip = true ->
  0 <= s_elapsed_ms ip ->
  s_elapsed_ms ip + TICK_PERIOD_MS * k < s_duration_ms ip ->
  s_duration_ms ip <= 4294967296 ->
  exists out',
    interpolator_ticks float_lerp (Z.to_nat k) ip out =
    (mkInterp (s_start_us ip) (s_target_us ip) (s_duration_ms ip)
              (s_elapsed_ms ip + TICK_PERIOD_MS * k) (s_mode ip) true,
     out')
    /\ skipn 13 out' = skipn 13 out.
Proof.
  intros Hk Ha H0 Hlt Hd.
  destruct (ticks_running (Z.to_nat k) ip out Ha H0) as [out' [Hrun Hs]];
    rewrite ?Z2Nat.id by exact Hk; auto.
  exists out'. rewrite Z2Nat.id in Hrun by exact Hk. split; assumption.
Qed.

Lemma ticks_succ_Z (k : Z) ip out :
  0 <= k ->
  interpolator_ticks float_lerp (Z.to_nat (k + 1)) ip out =
  let '(ip', out') := interpolator_ticks float_lerp (Z.to_nat k) ip out in
  let '(_, ip'', out'') := interpolator_tick float_lerp ip' out' in
  (ip'', out'').
Proof.
  intros Hk. rewrite Z2Nat.inj_add by lia.
  change (Z.to_nat 1) with 1%nat. rewrite Nat.add_1_r. apply ticks_snoc.
Qed.

(** For a duration of at most 4294967280 ms the elapsed counter cannot
    wrap before the end: after [ceil (duration / 20)] ticks the
    interpolation is over and the array holds the target on all 13
    channels; what lies behind them is untouched, so an array of 13
    entries equals a target of 13 entries. *)
Lemma interpolation_reaches_target from to duration mode out :
  0 < duration <= 4294967280 ->
  exists ip',
    interpolator_ticks float_lerp (Z.to_nat ((duration + 19) / 20))
      (interpolator_start from to duration mode) out
    = (ip', copy13 to ++ skipn 13 out)
    /\ s_active ip' = false
    /\ (forall i, (i < 13)%nat -> nth i (copy13 to ++ skipn 13 out) 0 = nth i to 0)
    /\ (length to = 13%nat -> length out = 13%nat ->
        copy13 to ++ skipn 13 out = to).
Proof.
  intros Hd.
  pose proof (Z.mul_div_le (duration + 19) 20 ltac:(lia)) as Hlo.
  pose proof (Z.mul_succ_div_gt (duration + 19) 20 ltac:(lia)) as Hhi.
  set (k := (duration + 19) / 20 - 1).
  assert (Hk : 0 <= k) by (unfold k; lia).
  replace ((duration + 19) / 20) with (k + 1) by (unfold k; lia).
  rewrite ticks_succ_Z by exact Hk.
  assert (Hstart : interpolator_start from to duration mode
                   = mkInterp (copy13 from) (copy13 to) duration 0 mode true).
  { unfold interpolator_start. cbv zeta. rewrite u32_small by lia.
    replace (duration >? 0) with true
      by (symmetry; rewrite Z.gtb_ltb; apply Z.ltb_lt; lia).
    reflexivity. }
  rewrite Hstart.
  destruct (ticks_running_Z k (mkInterp (copy13 from) (copy13 to) duration 0 mode true) out)
    as [out1 [Hrun Hs1]]; cbn [s_active s_elapsed_ms s_duration_ms];
    unfold TICK_PERIOD_MS, MOTION_UPDATE_HZ; try change (1000 / 50) with 20;
    try (unfold k; lia); auto.
  rewrite Hrun. cbn [s_start_us s_target_us s_duration_ms s_elapsed_ms s_mode].
  rewrite tick_final; cbn [s_active s_elapsed_ms s_duration_ms s_target_us].
  - rewrite copy13_idem, Hs1. eexists. split; [reflexivity|].
    split; [reflexivity|]. split.
    + intros i Hi. apply copy13_nth. exact Hi.
    + intros Hto Hout. destruct (copy13_exact to Hto) as [-> _].
      destruct (copy13_exact out Hout) as [_ ->]. apply app_nil_r.
  - reflexivity.
  - unfold TICK_PERIOD_MS, MOTION_UPDATE_HZ. change (1000 / 50) with 20.
    rewrite u32_small; unfold k; lia.
Qed.

(** A duration of 0 is taken as 1 ms: the first tick completes. *)
Lemma zero_duration_completes_on_first_tick from to mode out :
  s_duration_ms (interpolator_start from to 0 mode) = 1
  /\ exists ip',
       interpolator_tick float_lerp (interpolator_start from to 0 mode) out
       = (true, ip', copy13 to ++ skipn 13 out)
       /\ s_active ip' = false.
Proof.
  split; [reflexivity|]. eexists. split.
  - rewrite tick_final; [reflexivity | reflexivity | vm_compute; discriminate].
  - reflexivity.
Qed.

(** C7 (the code at the failing input). With [duration = 4294967295] ms,
    [ceil (duration / 20)] is 214748365 ticks. After 214748364 of them the
    elapsed counter stands at 4294967280; the next tick wraps it to 4, the
    test [elapsed >= duration] fails, and the array is not the target: in
    Q16 mode it is the start pose again, and the interpolation is still
    running. *)
Theorem C7_elapsed_counter_wraps_before_target :
  (4294967295 + 19) / 20 = 214748365
  /\ exists ip',
       interpolator_ticks float_lerp (Z.to_nat 214748365)
         (interpolator_start (all_channels 1500) (all_channels 1800)
                             4294967295 INTERP_MODE_Q16)
         (all_channels 1500)
       = (ip', all_channels 1500)
       /\ s_active ip' = true
       /\ s_elapsed_ms ip' = 4
       /\ all_channels 1500 <> all_channels 1800.
Proof.
  split; [reflexivity|].
  change 214748365 with (214748364 + 1).
  rewrite ticks_succ_Z by (apply Z.leb_le; reflexivity).
  assert (Hstart : interpolator_start (all_channels 1500) (all_channels 1800)
                                      4294967295 INTERP_MODE_Q16
                   = mkInterp (all_channels 1500) (all_channels 1800)
                              4294967295 0 INTERP_MODE_Q16 true)
    by (vm_compute; reflexivity).
  rewrite Hstart.
  destruct (ticks_running_Z 214748364
              (mkInterp (all_channels 1500) (all_channels 1800)
                        4294967295 0 INTERP_MODE_Q16 true)
              (all_channels 1500))
    as [out1 [Hrun Hs1]].
  { apply Z.leb_le; reflexivity. }
  { reflexivity. }
  { apply Z.leb_le; reflexivity. }
  { reflexivity. }
  { apply Z.leb_le; reflexivity. }
  rewrite Hrun.
  cbn [s_start_us s_target_us s_duration_ms s_elapsed_ms s_mode].
  assert (Hlast : forall out,
    interpolator_tick float_lerp
      (mkInterp (all_channels 1500) (all_channels 1800) 4294967295
                (0 + TICK_PERIOD_MS * 214748364) INTERP_MODE_Q16 true) out
    = (false,
       mkInterp (all_channels 1500) (all_channels 1800) 4294967295 4
                INTERP_MODE_Q16 true,
       all_channels 1500 ++ skipn 13 out)).
  { intros out. vm_compute. reflexivity. }
  rewrite Hlast, Hs1.
  exists (mkInterp (all_channels 1500) (all_channels 1800) 4294967295 4
                   INTERP_MODE_Q16 true).
  split; [reflexivity|]. split; [reflexivity|]. split; [reflexivity|].
  vm_compute. discriminate.
Qed.

(** What the unit tests and scenario S5 of the specification exercise:
    60 ms from 1500 to 1800 is reached by the third tick, in Q16 mode with
    1599 and 1699 on the way. *)
Example interpolation_60ms :
  let ip := interpolator_start (all_channels 1500) (all_channels 1800) 60
                               INTERP_MODE_Q16 in
  snd (interpolator_ticks float_lerp 1 ip (all_channels 1500)) = all_channels 1599
  /\ snd (interpolator_ticks float_lerp 2 ip (all_channels 1500)) = all_channels 1699
  /\ snd (interpolator_ticks float_lerp 3 ip (all_channels 1500)) = all_channels 1800.
Proof. cbv zeta. repeat split. Qed.

End FloatArithmetic.

End InterpFacts.

(* ================================================================== *)
(** * Doorbell: command identifiers on the two sides *)

Module DoorbellFacts.

Import FeedFacts.

(** C8 (the code at the failing input). The producer's header gives
    HEARTBEAT = 0x22 and ESTOP = 0x23, the consumer's source HEARTBEAT =
    0x10 and ESTOP = 0x30; only MOTION_PACKET = 0x20 is common. A heartbeat
    sent by [Mailbox::sendHeartbeat] carries 0x22, falls into the
    [default] branch of [mailbox_cmd_handler] and leaves the consumer, its
    watchdog included, as it was; the same holds for [sendEstop]. Only the
    consumer's own identifier 0x10 feeds the watchdog. *)
Theorem C8_heartbeat_identifier_mismatch :
  forall (now tx : Z) (v : AppMainV1.V1),
    Mailbox.CMD_HEARTBEAT = 0x22
    /\ AppMainV1.CMD_HEARTBEAT = 0x10
    /\ Mailbox.CMD_ESTOP = 0x23
    /\ AppMainV1.CMD_ESTOP = 0x30
    /\ Mailbox.CMD_MOTION_PACKET = AppMainV1.CMD_MOTION_PACKET
    /\ (exists cmd mb,
          Mailbox.sendHeartbeat 0 (Mailbox.mkMailbox 3 tx) = (true, Some cmd, mb)
          /\ Mailbox.cmd_id cmd = 0x22
          /\ deliver now cmd v = Some v)
    /\ (exists cmd mb,
          Mailbox.sendEstop 0 (Mailbox.mkMailbox 3 tx) = (true, Some cmd, mb)
          /\ Mailbox.cmd_id cmd = 0x23
          /\ deliver now cmd v = Some v)
    /\ (AppMainV1.mailbox_cmd_handler now AppMainV1.CMD_HEARTBEAT 0 v
        = Some (AppMainV1.handle_heartbeat now v)
        /\ feed_count (trace (AppMainV1.rt (AppMainV1.handle_heartbeat now v)))
           = S (feed_count (trace (AppMainV1.rt v)))).
Proof.
  intros now tx v.
  split; [reflexivity|]. split; [reflexivity|]. split; [reflexivity|].
  split; [reflexivity|]. split; [reflexivity|].
  split; [|split; [|split]].
  - eexists. eexists. split; [reflexivity|]. split; reflexivity.
  - eexists. eexists. split; [reflexivity|]. split; reflexivity.
  - reflexivity.
  - unfold AppMainV1.handle_heartbeat, AppMainV1.with_rt. cbn [AppMainV1.rt].
    apply watchdog_feed_counts.
Qed.

End DoorbellFacts.

(* ================================================================== *)
(** * Further properties: limits, fault flags, PWM driver *)

Module DriverFacts.

Import Pca9685Facts.

(** The driver's saturation is [clamp_servo_us]. *)
Lemma saturate_is_clamp x : saturate_us (u16 x) = clamp_servo_us x.
Proof.
  unfold saturate_us, clamp_servo_us, SERVO_PWM_MIN_US, SERVO_PWM_MAX_US.
  destruct (u16 x <? 500) eqn:Hlo; [reflexivity|].
  destruct (u16 x >? 2500); reflexivity.
Qed.

(** X1. [clamp_servo_us] always lands in [500, 2500], leaves values of
    that range alone, is idempotent, and is the same function as the
    saturation at the head of [pca9685_set_pwm_us]. *)
Theorem X1_clamp_servo_us_laws :
  forall x : Z,
    SERVO_PWM_MIN_US <= clamp_servo_us x <= SERVO_PWM_MAX_US
    /\ clamp_servo_us (clamp_servo_us x) = clamp_servo_us x
    /\ (SERVO_PWM_MIN_US <= x <= SERVO_PWM_MAX_US -> clamp_servo_us x = x)
    /\ saturate_us (u16 x) = clamp_servo_us x.
Proof.
  intros x. pose proof (clamp_servo_us_range x) as Hr.
  assert (Hfix : forall y, SERVO_PWM_MIN_US <= y <= SERVO_PWM_MAX_US ->
                           clamp_servo_us y = y).
  { intros y. unfold clamp_servo_us, SERVO_PWM_MIN_US, SERVO_PWM_MAX_US. intros Hy.
    rewrite (u16_small y) by lia.
    destruct (y <? 500) eqn:Hlo; [apply Z.ltb_lt in Hlo; lia|].
    destruct (y >? 2500) eqn:Hhi; [|reflexivity].
    rewrite Z.gtb_ltb in Hhi. apply Z.ltb_lt in Hhi. lia. }
  split; [exact Hr|]. split; [apply Hfix; exact Hr|]. split; [apply Hfix|].
  apply saturate_is_clamp.
Qed.

Ltac bitwise :=
  apply Z.bits_inj'; intros ?n ?Hn;
  repeat (rewrite Z.land_spec || rewrite Z.lor_spec || rewrite Z.lxor_spec
          || rewrite Z.bits_0);
  repeat match goal with
         | |- context [Z.testbit ?a ?n] =>
             lazymatch a with
             | Z.land _ _ => fail
             | Z.lor _ _ => fail
             | Z.lxor _ _ => fail
             | _ => destruct (Z.testbit a n) eqn:?
             end
         end;
  try reflexivity; try discriminate.

Lemma u32_as_land x : u32 x = Z.land x 0xFFFFFFFF.
Proof. unfold u32. change 0xFFFFFFFF with (Z.ones 32). rewrite Z.land_ones by lia. reflexivity. Qed.

Lemma land_lor_same s f : Z.land (Z.lor s f) f = f.
Proof. bitwise. Qed.

Lemma land_clear_same s f m : Z.land (Z.land s (Z.lxor m (Z.land f m))) (Z.land f m) = 0.
Proof. bitwise. Qed.

Lemma land_lor_other s f g : Z.land f g = 0 -> Z.land (Z.lor s f) g = Z.land s g.
Proof.
  intros H. apply Z.bits_inj'. intros n Hn.
  assert (Hb : Z.testbit (Z.land f g) n = false) by (rewrite H; apply Z.bits_0).
  rewrite Z.land_spec in Hb. rewrite !Z.land_spec, Z.lor_spec.
  destruct (Z.testbit s n), (Z.testbit f n), (Z.testbit g n);
    try reflexivity; discriminate.
Qed.

Lemma land_clear_other s f g m :
  Z.land f g = 0 ->
  Z.land (Z.land s (Z.lxor m (Z.land f m))) (Z.land g m) = Z.land s (Z.land g m).
Proof.
  intros H. apply Z.bits_inj'. intros n Hn.
  assert (Hb : Z.testbit (Z.land f g) n = false) by (rewrite H; apply Z.bits_0).
  rewrite Z.land_spec in Hb. rewrite !Z.land_spec, Z.lxor_spec, !Z.land_spec.
  destruct (Z.testbit s n), (Z.testbit f n), (Z.testbit g n), (Z.testbit m n);
    try reflexivity; discriminate.
Qed.

(** X2. Fault flags behave as a set of bits: a flag that has been set
    reads as set, a flag that has been cleared reads as clear, and setting
    or clearing one flag does not change how a disjoint flag reads. *)
Theorem X2_fault_flags_set_clear_query :
  forall (f g : Z) (r : Rt),
    u32 f <> 0 ->
    Z.land f g = 0 ->
    fault_flags_is_set f (fault_flags_set f r) = true
    /\ fault_flags_is_set f (fault_flags_clear f r) = false
    /\ fault_flags_is_set g (fault_flags_set f r) = fault_flags_is_set g r
    /\ fault_flags_is_set g (fault_flags_clear f r) = fault_flags_is_set g r.
Proof.
  intros f g r Hf Hdis.
  unfold fault_flags_is_set, fault_flags_set, fault_flags_clear, with_fault_flags.
  cbn [s_fault_flags]. unfold truthy.
  split; [|split; [|split]].
  - rewrite land_lor_same. apply negb_true_iff, Z.eqb_neq. exact Hf.
  - rewrite (u32_as_land f), land_clear_same. reflexivity.
  - rewrite !u32_as_land.
    rewrite land_lor_other; [reflexivity|].
    apply Z.bits_inj'. intros n Hn.
    assert (Hb : Z.testbit (Z.land f g) n = false) by (rewrite Hdis; apply Z.bits_0).
    rewrite Z.land_spec in Hb. rewrite !Z.land_spec, Z.bits_0.
    destruct (Z.testbit f n), (Z.testbit g n); try discriminate;
      rewrite ?andb_false_r; reflexivity.
  - rewrite !u32_as_land, land_clear_other by exact Hdis. reflexivity.
Qed.

(** X2, witness: the heartbeat-timeout and ESTOP flags on the boot state. *)
Lemma X2_fault_flags_set_clear_query_witness :
  u32 FAULT_HEARTBEAT_TIMEOUT <> 0
  /\ Z.land FAULT_HEARTBEAT_TIMEOUT FAULT_ESTOP_ACTIVE = 0
  /\ fault_flags_is_set FAULT_HEARTBEAT_TIMEOUT
       (fault_flags_set FAULT_HEARTBEAT_TIMEOUT rt_boot) = true
  /\ fault_flags_is_set FAULT_HEARTBEAT_TIMEOUT
       (fault_flags_clear FAULT_HEARTBEAT_TIMEOUT rt_boot) = false
  /\ fault_flags_is_set FAULT_ESTOP_ACTIVE
       (fault_flags_set FAULT_HEARTBEAT_TIMEOUT rt_boot)
     = fault_flags_is_set FAULT_ESTOP_ACTIVE rt_boot
  /\ fault_flags_is_set FAULT_ESTOP_ACTIVE
       (fault_flags_clear FAULT_HEARTBEAT_TIMEOUT rt_boot)
     = fault_flags_is_set FAULT_ESTOP_ACTIVE rt_boot.
Proof.
  assert (H1 : u32 FAULT_HEARTBEAT_TIMEOUT <> 0) by (vm_compute; discriminate).
  assert (H2 : Z.land FAULT_HEARTBEAT_TIMEOUT FAULT_ESTOP_ACTIVE = 0) by reflexivity.
  split; [exact H1|]. split; [exact H2|].
  exact (X2_fault_flags_set_clear_query FAULT_HEARTBEAT_TIMEOUT FAULT_ESTOP_ACTIVE
           rt_boot H1 H2).
Defined.


End DriverFacts.

(* ================================================================== *)
(** * Further properties: the CRC detects every single-bit error *)

Module CrcFacts.

Import DriverFacts.

Lemma u16_as_land x : u16 x = Z.land x 65535.
Proof.
  unfold u16. change 65535 with (Z.ones 16). rewrite Z.land_ones by lia.
  reflexivity.
Qed.

(** The test [crc & 0x8000] looks at bit 15. *)
Lemma top_bit_test x : truthy (Z.land x 0x8000) = Z.testbit x 15.
Proof.
  assert (H : Z.land x 0x8000 = if Z.testbit x 15 then 2 ^ 15 else 0).
  { apply Z.bits_inj'. intros n Hn. rewrite Z.land_spec.
    change 0x8000 with (2 ^ 15). rewrite Z.pow2_bits_eqb by lia.
    destruct (Z.testbit x 15) eqn:H15.
    - rewrite Z.pow2_bits_eqb by lia.
      destruct (Z.eqb_spec 15 n) as [<-|_]; [rewrite H15; reflexivity|].
      apply andb_false_r.
    - rewrite Z.bits_0.
      destruct (Z.eqb_spec 15 n) as [<-|_]; [rewrite H15; reflexivity|].
      apply andb_false_r. }
  unfold truthy. rewrite H. destruct (Z.testbit x 15); reflexivity.
Qed.

Lemma crc_shift_bits x :
  crc_shift x =
  Z.land (Z.lxor (Z.shiftl x 1) (if Z.testbit x 15 then CRC16_POLY else 0)) 65535.
Proof.
  unfold crc_shift. rewrite top_bit_test, !u16_as_land.
  destruct (Z.testbit x 15); [reflexivity|]. rewrite Z.lxor_0_r. reflexivity.
Qed.

(** One shift step is linear over exclusive or. *)
Lemma crc_shift_lxor a b :
  crc_shift (Z.lxor a b) = Z.lxor (crc_shift a) (crc_shift b).
Proof.
  rewrite !crc_shift_bits, Z.lxor_spec, Z.shiftl_lxor.
  generalize (Z.shiftl a 1) (Z.shiftl b 1) CRC16_POLY. intros a1 b1 poly.
  destruct (Z.testbit a 15), (Z.testbit b 15); cbn [xorb]; bitwise.
Qed.

Lemma crc_shift_range x : 0 <= crc_shift x < 65536.
Proof.
  unfold crc_shift. destruct (truthy (Z.land x 32768)); apply u16_range.
Qed.

Lemma iter_crc_shift_lxor n a b :
  Nat.iter n crc_shift (Z.lxor a b)
  = Z.lxor (Nat.iter n crc_shift a) (Nat.iter n crc_shift b).
Proof.
  induction n as [|n IH]; [reflexivity|].
  rewrite !Nat.iter_succ, IH. apply crc_shift_lxor.
Qed.

Lemma land_lxor_distr a b m :
  Z.land (Z.lxor a b) m = Z.lxor (Z.land a m) (Z.land b m).
Proof. bitwise. Qed.

(** The step for one byte is linear in the running CRC and the byte. *)
Lemma crc_byte_lxor c1 c2 b1 b2 :
  crc_byte (Z.lxor c1 c2) (Z.lxor b1 b2)
  = Z.lxor (crc_byte c1 b1) (crc_byte c2 b2).
Proof.
  unfold crc_byte. cbv zeta. rewrite <- iter_crc_shift_lxor. f_equal.
  rewrite !u16_as_land, (land_lxor_distr b1 b2), Z.shiftl_lxor.
  generalize (Z.shiftl (Z.land b1 65535) 8) (Z.shiftl (Z.land b2 65535) 8).
  intros s1 s2. bitwise.
Qed.

Lemma crc_byte_range c b : 0 <= crc_byte c b < 65536.
Proof. unfold crc_byte. cbv zeta. rewrite Nat.iter_succ. apply crc_shift_range. Qed.

(** A shift step does not take a non-zero 16-bit value to zero: without
    the top bit the value is doubled, with it bit 0 of the polynomial ends
    up in the result. *)
Lemma crc_shift_keeps_nonzero x :
  0 < x < 65536 -> crc_shift x <> 0.
Proof.
  intros Hx. rewrite crc_shift_bits.
  destruct (Z.testbit x 15) eqn:H15.
  - intros Hz.
    assert (Hb : Z.testbit
                   (Z.land (Z.lxor (Z.shiftl x 1) CRC16_POLY) 65535) 0 = true).
    { rewrite Z.land_spec, Z.lxor_spec, Z.shiftl_spec_low by lia. reflexivity. }
    rewrite Hz in Hb. discriminate Hb.
  - rewrite Z.lxor_0_r. change 65535 with (Z.ones 16).
    rewrite Z.land_ones, Z.shiftl_mul_pow2 by lia. change (2 ^ 1) with 2.
    assert (Hlow : x < 32768).
    { destruct (Z_lt_le_dec x 32768) as [Hl|Hge]; [exact Hl|]. exfalso.
      assert (Ht : Z.testbit x 15 = true).
      { apply Z.testbit_true; [lia|]. change (2 ^ 15) with 32768.
        assert (Hq : x / 32768 = 1).
        { symmetry. apply Z.div_unique with (r := x - 32768); lia. }
        rewrite Hq. reflexivity. }
      congruence. }
    rewrite Z.mod_small by lia. lia.
Qed.

(** Zero bytes never drive a non-zero remainder to zero. *)
Lemma crc_byte_zero_keeps_nonzero e :
  0 < e < 65536 -> crc_byte e 0 <> 0.
Proof.
  intros He. unfold crc_byte. cbv zeta.
  change (Z.shiftl (u16 0) 8) with 0. rewrite Z.lxor_0_r, u16_small by lia.
  assert (Hiter : forall n, 0 < Nat.iter n crc_shift e < 65536).
  { induction n as [|n IH]; [exact He|]. rewrite Nat.iter_succ.
    pose proof (crc_shift_range (Nat.iter n crc_shift e)).
    pose proof (crc_shift_keeps_nonzero _ IH). lia. }
  specialize (Hiter 8%nat). lia.
Qed.

Lemma zero_run_nonzero (data : list Z) e :
  0 < e < 65536 ->
  0 < fold_left crc_byte (map (fun _ => 0) data) e < 65536.
Proof.
  revert e. induction data as [|b data IH]; intros e He; cbn [map fold_left].
  - exact He.
  - apply IH. pose proof (crc_byte_range e 0).
    pose proof (crc_byte_zero_keeps_nonzero e He). lia.
Qed.

(** An error in the running CRC travels through the remaining bytes as it
    would through zero bytes. *)
Lemma crc_error_propagates (data : list Z) c e :
  fold_left crc_byte data (Z.lxor c e)
  = Z.lxor (fold_left crc_byte data c)
           (fold_left crc_byte (map (fun _ => 0) data) e).
Proof.
  revert c e. induction data as [|b data IH]; intros c e; cbn [map fold_left].
  - reflexivity.
  - rewrite <- IH. f_equal.
    rewrite <- (Z.lxor_0_r b) at 1. apply crc_byte_lxor.
Qed.

Lemma single_bit_error_nonzero (k : nat) :
  (k < 8)%nat -> 0 < crc_byte 0 (Z.shiftl 1 (Z.of_nat k)) < 65536.
Proof.
  intros Hk. do 8 (destruct k as [|k]; [vm_compute; split; reflexivity|]). lia.
Qed.

Lemma flip_changes_remainder (data : list Z) :
  forall (k : nat) c,
    (k < 8 * length data)%nat ->
    exists E, 0 < E < 65536
              /\ fold_left crc_byte (flip_bit k data) c
                 = Z.lxor (fold_left crc_byte data c) E.
Proof.
  induction data as [|b data IH]; intros k c Hk; [cbn in Hk; lia|].
  cbn [flip_bit]. destruct (Nat.ltb_spec k 8) as [Hlt|Hge].
  - cbn [fold_left].
    exists (fold_left crc_byte (map (fun _ => 0) data)
                      (crc_byte 0 (Z.shiftl 1 (Z.of_nat k)))).
    split; [apply zero_run_nonzero, single_bit_error_nonzero; exact Hlt|].
    rewrite <- crc_error_propagates. f_equal.
    rewrite <- (Z.lxor_0_r c) at 1. apply crc_byte_lxor.
  - cbn [fold_left]. apply IH. cbn [length] in Hk. lia.
Qed.

Lemma lxor_error_zero X E : Z.lxor X E = X -> E = 0.
Proof.
  intros H.
  assert (HX : Z.lxor X (Z.lxor X E) = E)
    by (rewrite <- Z.lxor_assoc, Z.lxor_nilpotent; apply Z.lxor_0_l).
  rewrite H, Z.lxor_nilpotent in HX. symmetry. exact HX.
Qed.

(** X4. Inverting any one bit of a message changes its CRC-16: for every
    byte string and every bit position inside it, the CRC of the string
    with that bit flipped differs from the CRC of the string. *)
Theorem X4_crc_detects_single_bit_flip :
  forall (data : list Z) (k : nat),
    (k < 8 * length data)%nat ->
    crc16_ccitt_false (flip_bit k data) <> crc16_ccitt_false data.
Proof.
  intros data k Hk. unfold crc16_ccitt_false.
  destruct (flip_changes_remainder data k CRC16_INIT Hk) as [E [HE Heq]].
  rewrite Heq. intros H. apply lxor_error_zero in H. lia.
Qed.

(** X4, witness: the bit flip of tests/test_crc16.cpp, [data[2] ^= 0x01]
    on the bytes 1 .. 5. *)
Lemma X4_crc_detects_single_bit_flip_witness :
  (16 < 8 * length [1; 2; 3; 4; 5])%nat
  /\ flip_bit 16 [1; 2; 3; 4; 5] = [1; 2; 2; 4; 5]
  /\ crc16_ccitt_false (flip_bit 16 [1; 2; 3; 4; 5])
     <> crc16_ccitt_false [1; 2; 3; 4; 5].
Proof.
  assert (H : (16 < 8 * length [1; 2; 3; 4; 5])%nat) by (cbn; lia).
  split; [exact H|]. split; [reflexivity|].
  exact (X4_crc_detects_single_bit_flip [1; 2; 3; 4; 5] 16 H).
Defined.

End CrcFacts.

(* ================================================================== *)
(** * Further properties: packets between producer and consumer *)

Module PacketFacts.

Import AppMainV1 BrainDaemon CrcFacts Scenarios.

(** The CRC of a packet does not depend on its own CRC field. *)
Lemma packet_crc_ignores_crc_field m ma mi s t f us c c' :
  packet_crc (mkPacket m ma mi s t f us c) = packet_crc (mkPacket m ma mi s t f us c').
Proof. unfold packet_crc. f_equal. Qed.

(** What [validate_packet] does with a packet whose magic, version and CRC
    are right. *)
Lemma validate_packet_sealed pkt v :
  well_sealed pkt ->
  validate_packet pkt v =
  if (seq pkt <=? g_last_seq v) && negb (g_last_seq v =? 0)
  then (-4, drop v) else (0, v).
Proof.
  intros [Hm [Hmaj [Hmin Hcrc]]]. unfold validate_packet. cbv zeta.
  rewrite Hm, Hmaj, Hmin, Hcrc, !Z.eqb_refl. reflexivity.
Qed.

Lemma channels13_nth (f : nat -> Z) (i : nat) :
  (i < 13)%nat -> nth i (map f channels13) 0 = f i.
Proof. intros Hi. do 13 (destruct i as [|i]; [reflexivity|]). lia. Qed.

(** X5. A packet whose first 40 bytes differ in exactly one bit from those
    of a correctly sealed packet, the CRC field being the same, is never
    accepted: [validate_packet] answers -1, -2 or -3 and counts a drop, and
    the consumer's loop body neither applies it nor writes to the bus nor
    feeds the watchdog. *)
Theorem X5_single_bit_corruption_rejected :
  forall (p q : PosePacket31) (k : nat) (now processed : Z) (v : V1),
    well_sealed p ->
    crc16 q = crc16 p ->
    (k < 320)%nat ->
    firstn 40 (packet_bytes q) = flip_bit k (firstn 40 (packet_bytes p)) ->
    (fst (validate_packet q v) = -1 \/ fst (validate_packet q v) = -2
     \/ fst (validate_packet q v) = -3)
    /\ g_drop_count (snd (validate_packet q v)) = u32 (g_drop_count v + 1)
    /\ fst (process_packet now q processed v) = processed
    /\ applied (snd (process_packet now q processed v)) = applied v
    /\ g_last_seq (snd (process_packet now q processed v)) = g_last_seq v
    /\ trace (rt (snd (process_packet now q processed v))) = trace (rt v).
Proof.
  intros p q k now processed v [_ [_ [_ Hcrc]]] Hsame Hk Hflip.
  assert (Hbad : packet_crc q <> crc16 q).
  { unfold packet_crc at 1. rewrite Hflip, Hsame, Hcrc.
    unfold packet_crc, crc16_ccitt_false.
    destruct (flip_changes_remainder (firstn 40 (packet_bytes p)) k CRC16_INIT)
      as [E [HE Heq]].
    { replace (length (firstn 40 (packet_bytes p))) with 40%nat by reflexivity.
      lia. }
    rewrite Heq. intros H. apply lxor_error_zero in H. lia. }
  apply Z.eqb_neq in Hbad.
  unfold process_packet, validate_packet. cbv zeta. rewrite Hbad. cbn [negb].
  destruct (negb (magic q =? SPIDER_MAGIC)).
  { cbn. repeat split; auto. }
  destruct (negb (ver_major q =? SPIDER_VERSION_MAJOR)
            || negb (ver_minor q =? SPIDER_VERSION_MINOR)).
  { cbn. repeat split; auto. }
  cbn. repeat split; auto.
Qed.

(** X5, witness: the sealed packet with sequence number 0 of the
    scenarios, its sequence number turned into 1 in flight (bit 0 of byte
    4), at the consumer's start-up. *)
Lemma X5_single_bit_corruption_rejected_witness :
  let p := zero_seq_a in
  let q := mkPacket (magic p) (ver_major p) (ver_minor p) 1 (t_ms p)
                    (Packet.flags p) (servo_us p) (crc16 p) in
  well_sealed p
  /\ crc16 q = crc16 p
  /\ (32 < 320)%nat
  /\ firstn 40 (packet_bytes q) = flip_bit 32 (firstn 40 (packet_bytes p))
  /\ fst (validate_packet q v1_boot) = -3
  /\ applied (snd (process_packet 10 q 0 v1_boot)) = applied v1_boot
  /\ trace (rt (snd (process_packet 10 q 0 v1_boot))) = trace (rt v1_boot).
Proof.
  cbv zeta.
  assert (Hs : well_sealed zero_seq_a).
  { repeat split; vm_compute; reflexivity. }
  assert (Hf : firstn 40 (packet_bytes
                 (mkPacket (magic zero_seq_a) (ver_major zero_seq_a)
                    (ver_minor zero_seq_a) 1 (t_ms zero_seq_a)
                    (Packet.flags zero_seq_a) (servo_us zero_seq_a)
                    (crc16 zero_seq_a)))
               = flip_bit 32 (firstn 40 (packet_bytes zero_seq_a)))
    by (vm_compute; reflexivity).
  assert (Hk : (32 < 320)%nat) by lia.
  destruct (X5_single_bit_corruption_rejected zero_seq_a
              (mkPacket (magic zero_seq_a) (ver_major zero_seq_a)
                 (ver_minor zero_seq_a) 1 (t_ms zero_seq_a)
                 (Packet.flags zero_seq_a) (servo_us zero_seq_a)
                 (crc16 zero_seq_a))
              32 10 0 v1_boot Hs eq_refl Hk Hf) as [_ [_ [_ [Ha [_ Ht]]]]].
  split; [exact Hs|]. split; [reflexivity|]. split; [exact Hk|].
  split; [exact Hf|]. split; [vm_compute; reflexivity|].
  split; [exact Ha | exact Ht].
Defined.

(** X6. Every packet made by [BrainDaemon::buildPosePacket] carries the
    next sequence number, channel values within [500, 2500] and a correct
    magic, version and CRC; the consumer's [validate_packet] accepts it
    whenever its sequence number is above the last applied one or nothing
    has been applied yet. *)
Theorem X6_built_packet_passes_validation :
  forall (m_seq t_ms flags : Z) (servos : list Z) (v : V1),
    let pkt := fst (buildPosePacket m_seq t_ms flags servos) in
    well_sealed pkt
    /\ seq pkt = u32 (m_seq + 1)
    /\ snd (buildPosePacket m_seq t_ms flags servos) = u32 (m_seq + 1)
    /\ (forall i, (i < 13)%nat ->
          servo_at pkt i = clamp_servo_us (nth i servos 0)
          /\ SERVO_PWM_MIN_US <= servo_at pkt i <= SERVO_PWM_MAX_US)
    /\ (g_last_seq v = 0 \/ g_last_seq v < seq pkt ->
        validate_packet pkt v = (0, v)).
Proof.
  intros m_seq t_ms flags servos v. cbv zeta.
  assert (Hsealed : well_sealed (fst (buildPosePacket m_seq t_ms flags servos))).
  { unfold buildPosePacket, well_sealed. cbv zeta.
    cbn [fst magic ver_major ver_minor seq Packet.t_ms Packet.flags servo_us crc16].
    split; [reflexivity|]. split; [reflexivity|]. split; [reflexivity|].
    apply packet_crc_ignores_crc_field. }
  split; [exact Hsealed|]. split; [reflexivity|]. split; [reflexivity|]. split.
  - intros i Hi. unfold buildPosePacket, servo_at. cbv zeta. cbn [fst servo_us].
    rewrite (channels13_nth (fun i => clamp_servo_us (nth i servos 0)) i Hi).
    split; [reflexivity | apply clamp_servo_us_range].
  - intros Hfresh. rewrite validate_packet_sealed by exact Hsealed.
    replace ((seq (fst (buildPosePacket m_seq t_ms flags servos)) <=? g_last_seq v)
             && negb (g_last_seq v =? 0)) with false; [reflexivity|].
    symmetry. destruct Hfresh as [Hz|Hlt].
    + rewrite Hz. cbn [Z.eqb negb]. apply andb_false_r.
    + replace (_ <=? g_last_seq v) with false; [reflexivity|].
      symmetry. apply Z.leb_gt. exact Hlt.
Qed.

End PacketFacts.

(* ================================================================== *)
(** * Further properties: the motion loop *)

Module MotionMore.

Import Interpolator MotionTask Pca9685Facts MotionFacts EstopFacts DriverFacts
       PacketFacts InterpFacts WatchdogFacts.

(** The channel loops touch the bus only: every static of the safety
    modules is as before. *)
Lemma pwm_loop_keeps_statics (f : nat -> Z) (chs : list nat) (r : Rt) :
  let r' := fold_left (fun r i => snd (pca9685_set_pwm_us (Z.of_nat i) (f i) r)) chs r in
  wd_state r' = wd_state r
  /\ wd_last_feed_tick r' = wd_last_feed_tick r
  /\ s_fault_flags r' = s_fault_flags r
  /\ fs_estop_active r' = fs_estop_active r
  /\ s_i2c_addr r' = s_i2c_addr r.
Proof.
  revert r. induction chs as [|c chs IH]; intros r; cbn zeta; cbn [fold_left].
  - repeat split.
  - destruct (IH (snd (pca9685_set_pwm_us (Z.of_nat c) (f c) r)))
      as [H1 [H2 [H3 [H4 H5]]]]. cbv zeta in *.
    rewrite H1, H2, H3, H4, H5, pca9685_set_pwm_us_effect.
    destruct (u8 (Z.of_nat c) >=? PCA9685_CHANNEL_COUNT); repeat split.
Qed.

Lemma motion_output_fields m :
  s_current_us (motion_output m) = s_current_us m
  /\ s_target_us (motion_output m) = s_target_us m
  /\ s_state (motion_output m) = s_state m
  /\ interp (motion_output m) = interp m
  /\ wd_state (rt (motion_output m)) = wd_state (rt m)
  /\ s_i2c_addr (rt (motion_output m)) = s_i2c_addr (rt m).
Proof.
  unfold motion_output, with_rt. cbn [s_current_us s_target_us s_state interp rt].
  destruct (pwm_loop_keeps_statics (fun i => nth i (s_current_us m) 0)
              channels13 (rt m)) as [H1 [_ [_ [_ H5]]]].
  cbv zeta in H1, H5. rewrite H1, H5. repeat split.
Qed.

Lemma watchdog_feed_addr now r : s_i2c_addr (watchdog_feed now r) = s_i2c_addr r.
Proof.
  unfold watchdog_feed. cbv zeta.
  match goal with |- context [if ?c then _ else _] => destruct c end; reflexivity.
Qed.

Section FloatArithmetic.

Variable float_lerp : Z -> Z -> Z -> Z -> Z.

(** The frames a tick puts on the bus for the pose [pose]. *)
Lemma motion_tick_trace m :
  trace (rt (motion_tick float_lerp m)) =
  trace (rt m) ++
  map (fun i => pwm_frame (s_i2c_addr (rt m)) (Z.of_nat i)
                 (clamp_servo_us (nth i (s_current_us (motion_tick float_lerp m)) 0)))
      channels13.
Proof.
  unfold motion_tick. rewrite motion_output_trace.
  destruct (motion_output_fields (motion_switch float_lerp (motion_sync m)))
    as [Hc _]. rewrite Hc.
  rewrite motion_switch_rt, motion_sync_rt. f_equal.
  apply map_ext. intros i. rewrite saturate_is_clamp. reflexivity.
Qed.

(** X7. Bus traffic of one turn of the motion loop. A turn without packet
    writes each of the 13 channels exactly once, in channel order, with
    the clamped pose the turn ends with. A turn with an ordinary packet
    first records the watchdog feed and then does the same. A turn with a
    HOLD packet records the feed and writes nothing. *)
Theorem X7_motion_turn_bus_traffic :
  forall (now : Z) (m : Motion),
    (let m' := motion_loop float_lerp on_watchdog_estop now None m in
     trace (rt m') =
     trace (rt m) ++
     map (fun i => pwm_frame (s_i2c_addr (rt m)) (Z.of_nat i)
                    (clamp_servo_us (nth i (s_current_us m') 0)))
         channels13)
    /\ (forall pkt,
          truthy (Z.land (flags pkt) FLAG_ESTOP) = false ->
          truthy (Z.land (flags pkt) FLAG_HOLD) = false ->
          let m' := motion_loop float_lerp on_watchdog_estop now (Some pkt) m in
          trace (rt m') =
          trace (watchdog_feed now (rt m)) ++
          map (fun i => pwm_frame (s_i2c_addr (rt m)) (Z.of_nat i)
                         (clamp_servo_us (nth i (s_current_us m') 0)))
              channels13)
    /\ (forall pkt,
          truthy (Z.land (flags pkt) FLAG_ESTOP) = false ->
          truthy (Z.land (flags pkt) FLAG_HOLD) = true ->
          let m' := motion_loop float_lerp on_watchdog_estop now (Some pkt) m in
          trace (rt m') = trace (watchdog_feed now (rt m))
          /\ s_current_us m' = s_current_us m
          /\ s_state m' = MOTION_STATE_HOLD).
Proof.
  intros now m. split; [|split].
  - cbv zeta. unfold motion_loop. apply motion_tick_trace.
  - intros pkt He Hh. cbv zeta. unfold motion_loop. cbv zeta. rewrite He, Hh.
    rewrite motion_tick_trace. cbn [rt]. rewrite watchdog_feed_addr. reflexivity.
  - intros pkt He Hh. cbv zeta. unfold motion_loop. cbv zeta. rewrite He, Hh.
    unfold with_state. cbn [rt s_current_us s_state]. repeat split.
Qed.

(** A tick of a task that is not moving, or whose watchdog is not
    NORMAL, changes neither pose nor interpolator, and does not start a
    motion. *)
Lemma motion_tick_frozen m :
  s_state m <> MOTION_STATE_MOVING \/ wd_state (rt m) <> WATCHDOG_STATE_NORMAL ->
  let m' := motion_tick float_lerp m in
  s_current_us m' = s_current_us m
  /\ interp m' = interp m
  /\ s_state m' <> MOTION_STATE_MOVING
  /\ wd_state (rt m') = wd_state (rt m).
Proof.
  intros Hcond. cbv zeta. unfold motion_tick.
  destruct (motion_output_fields (motion_switch float_lerp (motion_sync m)))
    as [Hc [_ [Hs [Hi [Hw _]]]]].
  rewrite Hc, Hs, Hi, Hw, motion_switch_rt, motion_sync_rt.
  assert (Hsync : s_state (motion_sync m) <> MOTION_STATE_MOVING
                  /\ s_current_us (motion_sync m) = s_current_us m
                  /\ interp (motion_sync m) = interp m).
  { unfold motion_sync, watchdog_get_state. cbv zeta.
    destruct (wd_state (rt m)) eqn:Hw0, (s_state m) eqn:Hs0;
      cbn; repeat split; try discriminate;
      destruct Hcond as [Hc1|Hc1]; congruence. }
  destruct Hsync as [Hns [Hcur Hint]].
  assert (Hsw : motion_switch float_lerp (motion_sync m) = motion_sync m).
  { unfold motion_switch. destruct (s_state (motion_sync m)); congruence. }
  rewrite Hsw. repeat split; assumption.
Qed.

(** Turns without packet are ticks. *)
Lemma motion_run_idle (times : list Z) m :
  motion_run float_lerp on_watchdog_estop (map (fun t => (t, None)) times) m
  = Nat.iter (length times) (motion_tick float_lerp) m.
Proof.
  revert m. induction times as [|t times IH]; intros m; [reflexivity|].
  cbn [map length]. rewrite Nat.iter_succ_r. unfold motion_run in *.
  cbn [fold_left fst snd]. rewrite IH. reflexivity.
Qed.

Lemma motion_ticks_frozen (n : nat) :
  forall m,
    s_state m <> MOTION_STATE_MOVING \/ wd_state (rt m) <> WATCHDOG_STATE_NORMAL ->
    let m' := Nat.iter n (motion_tick float_lerp) m in
    s_current_us m' = s_current_us m
    /\ interp m' = interp m
    /\ (n <> 0%nat -> s_state m' <> MOTION_STATE_MOVING).
Proof.
  induction n as [|n IH]; intros m Hcond; cbv zeta.
  - cbn [Nat.iter]. repeat split. intros H; now elim H.
  - rewrite Nat.iter_succ_r.
    destruct (motion_tick_frozen m Hcond) as [Hc [Hi [Hs Hw]]].
    destruct (IH (motion_tick float_lerp m) (or_introl Hs)) as [Hc' [Hi' Hs']].
    rewrite Hc', Hi', Hc, Hi. repeat split. intros _.
    destruct n as [|n'].
    + cbn [Nat.iter]. exact Hs.
    + apply Hs'. discriminate.
Qed.

(** X8. Without a packet nothing starts or continues a motion unless the
    task is MOVING under a NORMAL watchdog: from any state that is not
    MOVING, or whose watchdog reports TIMEOUT, HOLD or ESTOP, any number
    of turns without packet leave the pose and the interpolator as they
    are, and after the first such turn the task is not MOVING. *)
Theorem X8_pose_frozen_without_packet :
  forall (times : list Z) (m : Motion),
    s_state m <> MOTION_STATE_MOVING \/ wd_state (rt m) <> WATCHDOG_STATE_NORMAL ->
    let m' := motion_run float_lerp on_watchdog_estop
                (map (fun t => (t, None)) times) m in
    s_current_us m' = s_current_us m
    /\ interp m' = interp m
    /\ (times <> nil -> s_state m' <> MOTION_STATE_MOVING).
Proof.
  intros times m Hcond. cbv zeta. rewrite motion_run_idle.
  destruct (motion_ticks_frozen (length times) m Hcond) as [Hc [Hi Hs]].
  repeat split; try assumption.
  intros Hne. apply Hs. destruct times; [now elim Hne|discriminate].
Qed.






End FloatArithmetic.

(** A task that is HOLDing stays where it is over two turns. *)
Lemma X8_pose_frozen_without_packet_witness :
  (s_state (with_state MOTION_STATE_HOLD Scenarios.motion_boot) <> MOTION_STATE_MOVING
   \/ wd_state (rt (with_state MOTION_STATE_HOLD Scenarios.motion_boot))
      <> WATCHDOG_STATE_NORMAL)
  /\ (let m' := motion_run float_lerp_ideal on_watchdog_estop
                  (map (fun t => (t, None)) (20 :: 40 :: nil))
                  (with_state MOTION_STATE_HOLD Scenarios.motion_boot) in
      s_current_us m' = s_current_us (with_state MOTION_STATE_HOLD Scenarios.motion_boot)
      /\ interp m' = interp (with_state MOTION_STATE_HOLD Scenarios.motion_boot)
      /\ (20 :: 40 :: nil <> nil -> s_state m' <> MOTION_STATE_MOVING)).
Proof.
  assert (H : s_state (with_state MOTION_STATE_HOLD Scenarios.motion_boot)
              <> MOTION_STATE_MOVING
              \/ wd_state (rt (with_state MOTION_STATE_HOLD Scenarios.motion_boot))
                 <> WATCHDOG_STATE_NORMAL)
    by (left; cbn; discriminate).
  split; [exact H|].
  exact (X8_pose_frozen_without_packet float_lerp_ideal (20 :: 40 :: nil)
           (with_state MOTION_STATE_HOLD Scenarios.motion_boot) H).
Defined.


End MotionMore.

(* ================================================================== *)
(** * Further properties: the Q16.16 interpolation *)

Module InterpMore.

Import Interpolator.

(** The 32-bit product [s_elapsed_ms << 16] keeps the low 16 bits of the
    elapsed time only. *)
Lemma q16_shift_wraps (e : Z) :
  u32 (Z.shiftl e 16) = (e mod 65536) * 65536.
Proof.
  rewrite Z.shiftl_mul_pow2 by lia. unfold u32.
  change 4294967296 with (65536 * 65536). change (2 ^ 16) with 65536.
  apply Z.mul_mod_distr_r; lia.
Qed.

(** Before the duration is reached the factor [t_q16] is below 1.0. *)
Lemma q16_factor_range (e d : Z) :
  0 <= e < d -> 0 <= u32 (Z.shiftl e 16) / d < 65536.
Proof.
  intros H. rewrite q16_shift_wraps.
  pose proof (Z.mod_pos_bound e 65536 ltac:(lia)) as Hm.
  pose proof (Z.mod_le e 65536 ltac:(lia) ltac:(lia)) as Hle.
  split.
  - apply Z.div_pos; lia.
  - apply Z.div_lt_upper_bound; nia.
Qed.

Lemma i32_small (x : Z) : -2147483648 <= x < 2147483648 -> i32 x = x.
Proof. intros H. unfold i32. rewrite Z.mod_small by lia. lia. Qed.

(** Without overflow the Q16 branch computes
    [start + floor (delta * t_q16 / 65536)]. *)
Lemma q16_lerp_exact (s t e d : Z) :
  0 <= s <= 65535 -> 0 <= t <= 65535 -> -32767 <= t - s <= 32767 ->
  0 <= e < d ->
  q16_lerp s t e d = s + ((t - s) * (u32 (Z.shiftl e 16) / d)) / 65536
  /\ Z.min s t <= s + ((t - s) * (u32 (Z.shiftl e 16) / d)) / 65536 <= Z.max s t.
Proof.
  intros Hs Ht Hd He. unfold q16_lerp. cbv zeta.
  pose proof (q16_factor_range e d He) as Hq.
  set (q := u32 (Z.shiftl e 16) / d) in *.
  rewrite (i32_small (t - s)) by lia.
  rewrite (i32_small q) by lia.
  rewrite (i32_small ((t - s) * q)) by nia.
  rewrite Z.shiftr_div_pow2 by lia. change (2 ^ 16) with 65536.
  pose proof (Z.mul_div_le ((t - s) * q) 65536 ltac:(lia)) as Hlo.
  pose proof (Z.mul_succ_div_gt ((t - s) * q) 65536 ltac:(lia)) as Hhi.
  set (z := (t - s) * q / 65536) in *.
  assert (Hz : Z.min s t <= s + z <= Z.max s t).
  { destruct (Z.le_gt_cases s t) as [Hst|Hst].
    - rewrite Z.min_l, Z.max_r by lia. nia.
    - rewrite Z.min_r, Z.max_l by lia. nia. }
  split; [|exact Hz].
  rewrite (i32_small (s + z)) by lia.
  apply u16_small. lia.
Qed.

(** X10. The Q16.16 branch stays between start and target. For two
    pulse widths that fit 16 bits and lie at most 32767 apart (servo pulse
    widths, 500 to 2500, always do), and any elapsed time below the
    duration, the interpolated value lies between the start and the target
    value, both included: the 32-bit product does not overflow and the
    truncation to 16 bits loses nothing. *)
Theorem X10_q16_lerp_between_start_and_target :
  forall (s t e d : Z),
    0 <= s <= 65535 -> 0 <= t <= 65535 -> -32767 <= t - s <= 32767 ->
    0 <= e < d ->
    Z.min s t <= q16_lerp s t e d <= Z.max s t.
Proof.
  intros s t e d Hs Ht Hd He.
  destruct (q16_lerp_exact s t e d Hs Ht Hd He) as [Heq Hb].
  rewrite Heq. exact Hb.
Qed.

Lemma X10_q16_lerp_between_start_and_target_witness :
  Z.min 1500 1800 <= q16_lerp 1500 1800 20 60 <= Z.max 1500 1800.
Proof.
  apply (X10_q16_lerp_between_start_and_target 1500 1800 20 60); lia.
Defined.

(** X11. The Q16.16 branch sees the elapsed time modulo 65536 ms: the
    shift [s_elapsed_ms << 16] drops the upper 16 bits, so the interpolated
    value for an elapsed time [e] is the one for [e mod 65536], and whenever
    the elapsed time is a multiple of 65536 ms the branch yields the start
    value again, however far the motion has come. *)
Theorem X11_q16_lerp_elapsed_modulo_65536 :
  forall (s t e d k : Z),
    0 <= s <= 65535 ->
    q16_lerp s t e d = q16_lerp s t (e mod 65536) d
    /\ q16_lerp s t (65536 * k) d = s.
Proof.
  intros s t e d k Hs. split.
  - unfold q16_lerp. cbv zeta. rewrite !q16_shift_wraps.
    rewrite Z.mod_mod by lia. reflexivity.
  - unfold q16_lerp. cbv zeta. rewrite q16_shift_wraps.
    rewrite (Z.mul_comm 65536 k), Z.mod_mul by lia.
    change (0 * 65536) with 0. change (0 / d) with 0.
    change (i32 0) with 0. rewrite Z.mul_0_r. change (i32 0) with 0.
    change (Z.shiftr 0 16) with 0. rewrite Z.add_0_r.
    rewrite i32_small by lia. apply u16_small. lia.
Qed.

(** 65.556 s into a motion of 131.072 s from 1500 to 1800 us the branch
    computes what it computed after 20 ms, and after 65.536 s it is back
    at 1500. *)
Lemma X11_q16_lerp_elapsed_modulo_65536_witness :
  0 <= 1500 <= 65535
  /\ q16_lerp 1500 1800 65556 131072 = q16_lerp 1500 1800 (65556 mod 65536) 131072
  /\ q16_lerp 1500 1800 (65536 * 1) 131072 = 1500.
Proof.
  split; [lia|].
  apply (X11_q16_lerp_elapsed_modulo_65536 1500 1800 65556 131072 1). lia.
Defined.

End InterpMore.

(* ================================================================== *)
(** * Further properties: the watchdog under feeds and checks *)

Module WatchdogMore.

Import WatchdogFacts.

(** A feed in NORMAL records the tick and nothing else. *)
Lemma watchdog_feed_normal t r :
  wd_state r = WATCHDOG_STATE_NORMAL ->
  watchdog_feed t r = emit (EvWatchdogFeed (u32 t)) (with_last_feed (u32 t) r).
Proof.
  intros Hs. unfold watchdog_feed. cbv zeta.
  cbn [emit with_last_feed wd_state]. rewrite Hs. reflexivity.
Qed.

(** A feed in ESTOP records the tick and nothing else. *)
Lemma watchdog_feed_estop t r :
  wd_state r = WATCHDOG_STATE_ESTOP ->
  watchdog_feed t r = emit (EvWatchdogFeed (u32 t)) (with_last_feed (u32 t) r).
Proof.
  intros Hs. unfold watchdog_feed. cbv zeta.
  cbn [emit with_last_feed wd_state]. rewrite Hs. reflexivity.
Qed.

Lemma watchdog_check_estop cb t r :
  wd_state r = WATCHDOG_STATE_ESTOP -> watchdog_check cb t r = r.
Proof.
  intros Hs. unfold watchdog_check. cbv zeta. rewrite Hs. reflexivity.
Qed.

Lemma filter_store_feed (l : list Event) (t : Z) :
  filter is_store (l ++ [EvWatchdogFeed t]) = filter is_store l.
Proof. rewrite filter_app. cbn. apply app_nil_r. Qed.

(** X12. A heartbeat that is never late keeps the watchdog quiet. From
    NORMAL, over any series of feeds and checks in which every check comes
    at most 250 ticks after the feed before it, the state stays NORMAL, the
    fault flags and the failsafe latch are untouched, no store to the state
    is made, and the timeout callback is never called (the outcome is the
    same with no callback at all). The tick counter may wrap in between. *)
Theorem X12_timely_feeds_keep_watchdog_normal :
  forall (cb : Callback) (evs : list WdEvent) (t0 : Z) (r : Rt),
    wd_state r = WATCHDOG_STATE_NORMAL ->
    wd_last_feed_tick r = u32 t0 ->
    timely t0 evs ->
    let r' := watchdog_events cb evs r in
    wd_state r' = WATCHDOG_STATE_NORMAL
    /\ s_fault_flags r' = s_fault_flags r
    /\ fs_estop_active r' = fs_estop_active r
    /\ filter is_store (trace r') = filter is_store (trace r)
    /\ r' = watchdog_events None evs r.
Proof.
  intros cb evs. induction evs as [|[t|t] evs IH]; intros t0 r Hs Hl Ht; cbv zeta.
  - cbn [watchdog_events]. repeat split. exact Hs.
  - cbn [watchdog_events timely] in *.
    rewrite (watchdog_feed_normal t r Hs).
    destruct (IH t (emit (EvWatchdogFeed (u32 t)) (with_last_feed (u32 t) r)))
      as [H1 [H2 [H3 [H4 H5]]]]; try assumption; try reflexivity.
    cbv zeta in *. rewrite H1, H2, H3, H4.
    cbn [emit with_last_feed s_fault_flags fs_estop_active trace].
    rewrite filter_store_feed. repeat split. exact H5.
  - cbn [watchdog_events timely] in *. destruct Ht as [Hd Ht].
    replace t with (t0 + (t - t0)) by lia.
    rewrite !(watchdog_check_quiet _ t0 (t - t0) r Hs Hl Hd).
    apply (IH t0 r Hs Hl Ht).
Qed.

(** Feeds at 100 and 4294967290, checks in between and after the counter
    has wrapped. *)
Lemma X12_timely_feeds_keep_watchdog_normal_witness :
  let evs := [WdCheck 25; WdFeed 100; WdCheck 350;
              WdFeed 4294967290; WdCheck 4294967300] in
  (wd_state rt_boot = WATCHDOG_STATE_NORMAL
   /\ wd_last_feed_tick rt_boot = u32 0
   /\ timely 0 evs)
  /\ (let r' := watchdog_events AppMainV1.on_watchdog_timeout evs rt_boot in
      wd_state r' = WATCHDOG_STATE_NORMAL
      /\ s_fault_flags r' = s_fault_flags rt_boot
      /\ fs_estop_active r' = fs_estop_active rt_boot
      /\ filter is_store (trace r') = filter is_store (trace rt_boot)
      /\ r' = watchdog_events None evs rt_boot).
Proof.
  cbv zeta.
  assert (H1 : wd_state rt_boot = WATCHDOG_STATE_NORMAL) by reflexivity.
  assert (H2 : wd_last_feed_tick rt_boot = u32 0) by reflexivity.
  assert (H3 : timely 0 [WdCheck 25; WdFeed 100; WdCheck 350;
                         WdFeed 4294967290; WdCheck 4294967300])
    by (cbn; lia).
  split; [repeat split; try assumption; apply H3|].
  exact (X12_timely_feeds_keep_watchdog_normal AppMainV1.on_watchdog_timeout
           _ 0 rt_boot H1 H2 H3).
Defined.

(** X13. ESTOP is a latch for feeds and checks. Once the watchdog state is
    ESTOP, no series of [watchdog_feed] calls and watchdog-task checks, at
    whatever ticks, changes it: the state stays ESTOP, motion stays
    disallowed, no store to the state is made, and fault flags and failsafe
    latch stay as they are. Only [watchdog_clear_estop] leads out. *)
Theorem X13_estop_survives_feeds_and_checks :
  forall (cb : Callback) (evs : list WdEvent) (r : Rt),
    wd_state r = WATCHDOG_STATE_ESTOP ->
    let r' := watchdog_events cb evs r in
    wd_state r' = WATCHDOG_STATE_ESTOP
    /\ watchdog_is_motion_allowed r' = false
    /\ s_fault_flags r' = s_fault_flags r
    /\ fs_estop_active r' = fs_estop_active r
    /\ filter is_store (trace r') = filter is_store (trace r).
Proof.
  intros cb evs. induction evs as [|[t|t] evs IH]; intros r Hs; cbv zeta.
  - cbn [watchdog_events]. unfold watchdog_is_motion_allowed. rewrite Hs.
    repeat split.
  - cbn [watchdog_events]. rewrite (watchdog_feed_estop t r Hs).
    destruct (IH (emit (EvWatchdogFeed (u32 t)) (with_last_feed (u32 t) r)) Hs)
      as [H1 [H2 [H3 [H4 H5]]]].
    cbv zeta in *. rewrite H1, H2, H3, H4, H5.
    cbn [emit with_last_feed s_fault_flags fs_estop_active trace].
    rewrite filter_store_feed. repeat split.
  - cbn [watchdog_events]. rewrite (watchdog_check_estop cb t r Hs).
    apply (IH r Hs).
Qed.

Lemma X13_estop_survives_feeds_and_checks_witness :
  let r := watchdog_signal_estop AppMainV1.on_watchdog_estop rt_boot in
  let evs := [WdFeed 10; WdCheck 25; WdCheck 1000; WdFeed 1001; WdCheck 1025] in
  wd_state r = WATCHDOG_STATE_ESTOP
  /\ (let r' := watchdog_events AppMainV1.on_watchdog_timeout evs r in
      wd_state r' = WATCHDOG_STATE_ESTOP
      /\ watchdog_is_motion_allowed r' = false
      /\ s_fault_flags r' = s_fault_flags r
      /\ fs_estop_active r' = fs_estop_active r
      /\ filter is_store (trace r') = filter is_store (trace r)).
Proof.
  cbv zeta.
  assert (Hs : wd_state (watchdog_signal_estop AppMainV1.on_watchdog_estop rt_boot)
               = WATCHDOG_STATE_ESTOP) by (vm_compute; reflexivity).
  split; [exact Hs|].
  exact (X13_estop_survives_feeds_and_checks AppMainV1.on_watchdog_timeout
           [WdFeed 10; WdCheck 25; WdCheck 1000; WdFeed 1001; WdCheck 1025] _ Hs).
Defined.

End WatchdogMore.

(* ================================================================== *)
(** * Further properties: the ring, producer and consumer *)

Module RingMore.

Import SharedRing SharedMemory AppMainV1 RingFacts ConsumerFacts.

Lemma length_list_set {A : Type} (i : nat) (x : A) (l : list A) :
  length (list_set i x l) = length l.
Proof.
  revert i. induction l as [|h t IH]; intros i; [destruct i; reflexivity|].
  destruct i; cbn [list_set length]; [reflexivity|]. rewrite IH. reflexivity.
Qed.

Lemma nth_list_set_eq {A : Type} (i : nat) (x d : A) (l : list A) :
  (i < length l)%nat -> nth i (list_set i x l) d = x.
Proof.
  revert i. induction l as [|h t IH]; intros i Hi; cbn [length] in Hi; [lia|].
  destruct i; cbn [list_set nth]; [reflexivity|]. apply IH. lia.
Qed.

Lemma nth_list_set_neq {A : Type} (i j : nat) (x d : A) (l : list A) :
  i <> j -> nth j (list_set i x l) d = nth j l d.
Proof.
  revert i j. induction l as [|h t IH]; intros i j Hij; [destruct i; reflexivity|].
  destruct i, j; cbn [list_set nth]; try reflexivity; [congruence|].
  apply IH. congruence.
Qed.

(** A push into a region that has room. *)
Lemma writePacket_room pkt out buf fd :
  length (packets buf) = 8%nat ->
  u32 (write_idx buf - read_idx buf) < PACKET_RING_SIZE ->
  exists buf',
    writePacket (Some pkt) out (mkShm (Some buf) fd)
    = (true, u32 (write_idx buf + 1), mkShm (Some buf') fd)
    /\ write_idx buf' = u32 (write_idx buf + 1)
    /\ read_idx buf' = read_idx buf
    /\ flags buf' = flags buf
    /\ length (packets buf') = 8%nat
    /\ slot_get buf' (write_idx buf mod PACKET_RING_SIZE) = pkt
    /\ (forall s, 0 <= s < PACKET_RING_SIZE ->
                  s <> write_idx buf mod PACKET_RING_SIZE ->
                  slot_get buf' s = slot_get buf s).
Proof.
  intros Hlen Hroom. unfold PACKET_RING_SIZE in *.
  pose proof (Z.mod_pos_bound (write_idx buf) 8 ltac:(lia)) as Hslot.
  unfold writePacket. cbn [m_buffer m_mem_fd]. unfold PACKET_RING_SIZE.
  replace (u32 (write_idx buf - read_idx buf) >=? 8) with false
    by (symmetry; rewrite Z.geb_leb; apply Z.leb_gt; lia).
  eexists. split; [reflexivity|].
  unfold with_write_idx, slot_put, with_packets, slot_get.
  cbn [write_idx read_idx flags packets].
  split; [reflexivity|]. split; [reflexivity|]. split; [reflexivity|].
  split; [rewrite length_list_set; exact Hlen|].
  split.
  - apply nth_list_set_eq. rewrite Hlen. lia.
  - intros s Hs Hne. apply nth_list_set_neq. intros Heq.
    apply Hne. apply Z2Nat.inj in Heq; lia.
Qed.

(** X14. [SharedMemory::writePacket] on a mapped region of 8 slots. With
    fewer than 8 packets pending it returns true, hands back the new write
    index [write_idx + 1] (wrapping at 2^32), stores the packet in slot
    [write_idx mod 8] and leaves every other slot, the read index and the
    flags alone. With 8 or more pending, or for a null packet, it returns
    false and changes nothing, the caller's [out_write_idx] included. *)
Theorem X14_writePacket_success_and_refusal :
  forall (pkt : PosePacket31) (out : Z) (buf : SharedMotionBuffer) (fd : Z),
    length (packets buf) = 8%nat ->
    let shm := mkShm (Some buf) fd in
    (u32 (write_idx buf - read_idx buf) < PACKET_RING_SIZE ->
       exists buf',
         writePacket (Some pkt) out shm
         = (true, u32 (write_idx buf + 1), mkShm (Some buf') fd)
         /\ write_idx buf' = u32 (write_idx buf + 1)
         /\ read_idx buf' = read_idx buf
         /\ flags buf' = flags buf
         /\ length (packets buf') = 8%nat
         /\ slot_get buf' (write_idx buf mod PACKET_RING_SIZE) = pkt
         /\ (forall s, 0 <= s < PACKET_RING_SIZE ->
                       s <> write_idx buf mod PACKET_RING_SIZE ->
                       slot_get buf' s = slot_get buf s))
    /\ (PACKET_RING_SIZE <= u32 (write_idx buf - read_idx buf) ->
          writePacket (Some pkt) out shm = (false, out, shm))
    /\ writePacket None out shm = (false, out, shm).
Proof.
  intros pkt out buf fd Hlen. cbv zeta.
  split; [|split].
  - intros Hroom. apply writePacket_room; assumption.
  - intros Hfull. unfold writePacket. cbn [m_buffer]. unfold PACKET_RING_SIZE in *.
    replace (u32 (write_idx buf - read_idx buf) >=? 8) with true
      by (symmetry; rewrite Z.geb_leb; apply Z.leb_le; lia).
    reflexivity.
  - reflexivity.
Qed.

(** A fresh region takes a packet into slot 0. *)
Lemma X14_writePacket_success_and_refusal_witness :
  length (packets zeroed_region) = 8%nat
  /\ (let buf := zeroed_region in
      let pkt := Scenarios.move_1800 in
      let shm := mkShm (Some buf) 3 in
      (u32 (write_idx buf - read_idx buf) < PACKET_RING_SIZE ->
         exists buf',
           writePacket (Some pkt) 0 shm
           = (true, u32 (write_idx buf + 1), mkShm (Some buf') 3)
           /\ write_idx buf' = u32 (write_idx buf + 1)
           /\ read_idx buf' = read_idx buf
           /\ flags buf' = flags buf
           /\ length (packets buf') = 8%nat
           /\ slot_get buf' (write_idx buf mod PACKET_RING_SIZE) = pkt
           /\ (forall s, 0 <= s < PACKET_RING_SIZE ->
                         s <> write_idx buf mod PACKET_RING_SIZE ->
                         slot_get buf' s = slot_get buf s))
      /\ (PACKET_RING_SIZE <= u32 (write_idx buf - read_idx buf) ->
            writePacket (Some pkt) 0 shm = (false, 0, shm))
      /\ writePacket None 0 shm = (false, 0, shm)).
Proof.
  assert (H : length (packets zeroed_region) = 8%nat) by reflexivity.
  split; [exact H|].
  exact (X14_writePacket_success_and_refusal Scenarios.move_1800 0 zeroed_region 3 H).
Defined.

(** The loop body leaves the ring's indices and slots alone; it either
    applies the packet and counts it, or applies nothing. *)
Lemma process_packet_effect now pkt pr v b :
  g_shared_buf v = Some b ->
  exists b1,
    g_shared_buf (snd (process_packet now pkt pr v)) = Some b1
    /\ write_idx b1 = write_idx b
    /\ read_idx b1 = read_idx b
    /\ packets b1 = packets b
    /\ ((fst (process_packet now pkt pr v) = pr + 1
         /\ applied (snd (process_packet now pkt pr v)) = applied v ++ [pkt])
        \/ (fst (process_packet now pkt pr v) = pr
            /\ applied (snd (process_packet now pkt pr v)) = applied v)).
Proof.
  intros Hb. unfold process_packet, validate_packet.
  repeat match goal with
         | |- context [if ?c then _ else _] => destruct c
         end;
    cbn [fst snd Z.eqb drop_with_fault drop with_rt handle_estop accept_packet
         apply_servo_values g_shared_buf applied rt];
    try rewrite Hb;
    try (exists b; repeat split; auto; fail);
    try (eexists; split; [reflexivity|];
         unfold with_flags; cbn [write_idx read_idx packets];
         repeat split; auto; fail).
Qed.

Lemma publish_read_idx_effect i v b :
  g_shared_buf v = Some b ->
  g_shared_buf (publish_read_idx i v) = Some (with_read_idx i b)
  /\ applied (publish_read_idx i v) = applied v.
Proof.
  intros Hb. unfold publish_read_idx. rewrite Hb. split; reflexivity.
Qed.

(** What the loop leaves behind: the read index at the write index, the
    write index and the slots as they were, and as many packets applied
    as it counts. *)
Lemma drain_loop_effect fuel now slots w :
  forall r pr v b n v',
    g_shared_buf v = Some b ->
    read_idx b = r ->
    drain_loop fuel now slots r w pr v = Some (n, v') ->
    exists b',
      g_shared_buf v' = Some b'
      /\ read_idx b' = w
      /\ write_idx b' = write_idx b
      /\ packets b' = packets b
      /\ pr <= n <= pr + Z.of_nat fuel
      /\ length (applied v') = (length (applied v) + Z.to_nat (n - pr))%nat.
Proof.
  induction fuel as [|fuel IH]; intros r pr v b n v' Hb Hr Hrun;
    cbn [drain_loop] in Hrun; destruct (r =? w) eqn:He.
  - injection Hrun as <- <-. apply Z.eqb_eq in He. exists b.
    rewrite Z.sub_diag. cbn. rewrite Nat.add_0_r. repeat split; try lia; auto.
  - discriminate.
  - injection Hrun as <- <-. apply Z.eqb_eq in He. exists b.
    rewrite Z.sub_diag. cbn [Z.to_nat]. rewrite Nat.add_0_r.
    repeat split; try lia; auto.
  - destruct (truthy (g_estop_active v)).
    + destruct (publish_read_idx_effect (u32 (r + 1)) v b Hb) as [Hb1 Ha1].
      destruct (IH _ _ _ _ _ _ Hb1 eq_refl Hrun)
        as [b' [H1 [H2 [H3 [H4 [H5 H6]]]]]].
      exists b'. rewrite Ha1 in H6. cbn [with_read_idx write_idx packets] in H3, H4.
      repeat split; try assumption; lia.
    + destruct (process_packet_effect now
                  (slot_get slots (shared_buffer_slot_index r)) pr v b Hb)
        as [b1 [Hb1 [Hw1 [Hr1 [Hp1 Hcount]]]]].
      destruct (process_packet now (slot_get slots (shared_buffer_slot_index r)) pr v)
        as [pr1 v1]. cbn [fst snd] in *.
      destruct (publish_read_idx_effect (u32 (r + 1)) v1 b1 Hb1) as [Hb2 Ha2].
      destruct (IH _ _ _ _ _ _ Hb2 eq_refl Hrun)
        as [b' [H1 [H2 [H3 [H4 [H5 H6]]]]]].
      exists b'. rewrite Ha2 in H6. cbn [with_read_idx write_idx packets] in H3, H4.
      split; [exact H1|]. split; [exact H2|].
      split; [congruence|]. split; [congruence|].
      destruct Hcount as [[Hc Ha]|[Hc Ha]]; rewrite Ha in H6; subst pr1.
      * split; [lia|]. rewrite length_app in H6. cbn [length] in H6.
        replace (n - pr) with ((n - (pr + 1)) + 1) by lia.
        rewrite Z2Nat.inj_add by lia. cbn. lia.
      * split; [lia|]. exact H6.
Qed.

(** X15. [process_shared_buffer_packets] drains the ring. For 32-bit
    indices it returns; afterwards the read index equals the write index
    (the ring is empty), write index and slots are untouched, the value
    returned lies between 0 and the number of packets that were pending and
    is the number of packets applied in this call; a second call right
    after it returns 0 and changes nothing. *)
Theorem X15_drain_empties_ring :
  forall (now later : Z) (v : V1) (b : SharedMotionBuffer),
    g_shared_buf v = Some b ->
    0 <= read_idx b < 4294967296 ->
    0 <= write_idx b < 4294967296 ->
    exists n v' b',
      process_shared_buffer_packets now v = Some (n, v')
      /\ g_shared_buf v' = Some b'
      /\ read_idx b' = write_idx b
      /\ write_idx b' = write_idx b
      /\ packets b' = packets b
      /\ shared_buffer_is_empty b' = true
      /\ 0 <= n <= u32 (write_idx b - read_idx b)
      /\ length (applied v') = (length (applied v) + Z.to_nat n)%nat
      /\ process_shared_buffer_packets later v' = Some (0, v').
Proof.
  intros now later v b Hb Hr Hw.
  unfold process_shared_buffer_packets at 1. rewrite Hb. cbv zeta.
  destruct (drain_loop_total
              (Z.to_nat (u32 (write_idx b - read_idx b))) now b
              (write_idx b) Hw (read_idx b) 0 v Hr) as [n [v' Hrun]].
  { rewrite Z2Nat.id; [reflexivity | apply u32_range]. }
  destruct (drain_loop_effect _ _ _ _ _ _ _ _ _ _ Hb eq_refl Hrun)
    as [b' [H1 [H2 [H3 [H4 [H5 H6]]]]]].
  exists n, v', b'. split; [exact Hrun|]. split; [exact H1|].
  split; [exact H2|]. split; [exact H3|]. split; [exact H4|].
  split; [unfold shared_buffer_is_empty; rewrite H2, H3; apply Z.eqb_refl|].
  rewrite Z2Nat.id in H5 by apply u32_range.
  split; [lia|]. split; [rewrite Z.sub_0_r in H6; exact H6|].
  unfold process_shared_buffer_packets. rewrite H1. cbv zeta.
  rewrite H2, H3, Z.sub_diag. cbn [u32 Z.modulo Z.div_eucl Z.to_nat snd drain_loop].
  rewrite Z.eqb_refl. reflexivity.
Qed.

(** The consumer at start-up on the region holding packets 5, 3 and 7. *)
Lemma X15_drain_empties_ring_witness :
  exists b,
    (g_shared_buf Scenarios.v1_5_3_7 = Some b
     /\ 0 <= read_idx b < 4294967296
     /\ 0 <= write_idx b < 4294967296)
    /\ exists n v' b',
         process_shared_buffer_packets 100 Scenarios.v1_5_3_7 = Some (n, v')
         /\ g_shared_buf v' = Some b'
         /\ read_idx b' = write_idx b
         /\ write_idx b' = write_idx b
         /\ packets b' = packets b
         /\ shared_buffer_is_empty b' = true
         /\ 0 <= n <= u32 (write_idx b - read_idx b)
         /\ length (applied v') = (length (applied Scenarios.v1_5_3_7) + Z.to_nat n)%nat
         /\ process_shared_buffer_packets 200 v' = Some (0, v').
Proof.
  destruct (g_shared_buf Scenarios.v1_5_3_7) as [b|] eqn:Hb;
    [|vm_compute in Hb; discriminate Hb].
  assert (Hr : 0 <= read_idx b < 4294967296)
    by (vm_compute in Hb; injection Hb as <-; vm_compute; split; congruence).
  assert (Hw : 0 <= write_idx b < 4294967296)
    by (vm_compute in Hb; injection Hb as <-; vm_compute; split; [congruence|reflexivity]).
  exists b. split; [repeat split; try reflexivity; first [apply Hr|apply Hw]|].
  exact (X15_drain_empties_ring 100 200 Scenarios.v1_5_3_7 b Hb Hr Hw).
Defined.

End RingMore.

(* ================================================================== *)
(** * Further properties: ESTOP in the consumer of app_main_v1.c *)

Module V1EstopFacts.

Import SharedRing AppMainV1 V1Run.

Lemma frozen_refl v : truthy (g_estop_active v) = true -> frozen v v.
Proof. intros H. unfold frozen. repeat split. exact H. Qed.

Lemma frozen_trans v1 v2 v3 : frozen v1 v2 -> frozen v2 v3 -> frozen v1 v3.
Proof.
  unfold frozen. intros [A1 [A2 [A3 [A4 [A5 [A6 [A7 A8]]]]]]]
                        [B1 [B2 [B3 [B4 [B5 [B6 [B7 B8]]]]]]].
  repeat split; congruence.
Qed.

Lemma handle_estop_frozen v : frozen v (handle_estop v).
Proof.
  unfold frozen, handle_estop. cbv zeta.
  cbn [g_estop_active applied g_last_seq g_rx_count g_drop_count g_shared_buf].
  destruct (g_shared_buf v); repeat split.
Qed.

Lemma v1_step_estop now i v :
  truthy (g_estop_active v) = true ->
  exists v', v1_step now i v = Some v' /\ frozen v v'
             /\ match i with
                | Doorbell c _ => u8 c = CMD_HEARTBEAT \/ u8 c = CMD_ESTOP \/ v' = v
                | TaskTurn _ => v' = v
                end.
Proof.
  intros He. destruct i as [c param|rx]; cbn [v1_step].
  - unfold mailbox_cmd_handler. cbv zeta.
    destruct (u8 c =? CMD_HEARTBEAT) eqn:H1.
    { eexists. split; [reflexivity|]. split.
      - unfold handle_heartbeat, with_rt, frozen.
        cbn [g_estop_active applied g_last_seq g_rx_count g_drop_count g_shared_buf].
        repeat split. exact He.
      - left. apply Z.eqb_eq. exact H1. }
    destruct (u8 c =? CMD_MOTION_PACKET) eqn:H2.
    { rewrite He. cbn [negb]. exists v. split; [reflexivity|].
      split; [apply frozen_refl; exact He|]. right. right. reflexivity. }
    destruct (u8 c =? CMD_ESTOP) eqn:H3.
    { eexists. split; [reflexivity|]. split; [apply handle_estop_frozen|].
      right. left. apply Z.eqb_eq. exact H3. }
    exists v. split; [reflexivity|]. split; [apply frozen_refl; exact He|].
    right. right. reflexivity.
  - unfold motion_task_turn. cbv zeta.
    assert (Hq : (match rx with Some pkt => queue_packet pkt v | None => v end) = v).
    { destruct rx; [|reflexivity]. unfold queue_packet. rewrite He. reflexivity. }
    rewrite Hq, He. cbn [negb]. exists v. split; [reflexivity|].
    split; [apply frozen_refl; exact He|]. reflexivity.
Qed.

(** X16. In app_main_v1.c ESTOP is final. Once [g_estop_active] is set,
    every run of doorbells (with any command identifier and parameter) and
    task turns (with or without a queued packet) ends, leaves the flag set,
    applies no packet, keeps the last sequence number and both counters,
    and moves neither ring index nor slot: packets still in the ring, and
    any the producer adds, are never consumed. A task turn, and a doorbell
    other than HEARTBEAT and ESTOP, changes nothing at all. *)
Theorem X16_v1_estop_is_final :
  forall (inputs : list (Z * V1Input)) (v : V1),
    truthy (g_estop_active v) = true ->
    (exists v', v1_run inputs v = Some v' /\ frozen v v')
    /\ (forall now rx, motion_task_turn now rx v = Some v)
    /\ (forall now c param,
          u8 c <> CMD_HEARTBEAT -> u8 c <> CMD_ESTOP ->
          mailbox_cmd_handler now c param v = Some v).
Proof.
  intros inputs v He. split; [|split].
  - revert v He. induction inputs as [|[now i] rest IH]; intros v He.
    + exists v. split; [reflexivity|]. apply frozen_refl. exact He.
    + cbn [v1_run].
      destruct (v1_step_estop now i v He) as [v1 [Hs [Hf _]]]. rewrite Hs.
      destruct (IH v1 ltac:(apply Hf)) as [v' [Hrun Hf']].
      exists v'. split; [exact Hrun|]. eapply frozen_trans; eassumption.
  - intros now rx.
    destruct (v1_step_estop now (TaskTurn rx) v He) as [v1 [Hs [_ Hsame]]].
    cbn [v1_step] in Hs. rewrite Hs. f_equal. exact Hsame.
  - intros now c param Hh Hs.
    destruct (v1_step_estop now (Doorbell c param) v He) as [v1 [Hst [_ Hsame]]].
    cbn [v1_step] in Hst. rewrite Hst. f_equal.
    destruct Hsame as [H|[H|H]]; [contradiction|contradiction|exact H].
Qed.

(** After an ESTOP at start-up with three packets waiting: a doorbell, a
    queued packet, a heartbeat and a second ESTOP. *)
Lemma X16_v1_estop_is_final_witness :
  let v := handle_estop Scenarios.v1_5_3_7 in
  let inputs := [(10, Doorbell CMD_MOTION_PACKET 3);
                 (20, TaskTurn (Some Scenarios.move_1800));
                 (30, Doorbell CMD_HEARTBEAT 0);
                 (40, Doorbell CMD_ESTOP 0)] in
  truthy (g_estop_active v) = true
  /\ ((exists v', v1_run inputs v = Some v' /\ frozen v v')
      /\ (forall now rx, motion_task_turn now rx v = Some v)
      /\ (forall now c param,
            u8 c <> CMD_HEARTBEAT -> u8 c <> CMD_ESTOP ->
            mailbox_cmd_handler now c param v = Some v)).
Proof.
  cbv zeta.
  assert (He : truthy (g_estop_active (handle_estop Scenarios.v1_5_3_7)) = true)
    by reflexivity.
  split; [exact He|].
  exact (X16_v1_estop_is_final
           [(10, Doorbell CMD_MOTION_PACKET 3);
            (20, TaskTurn (Some Scenarios.move_1800));
            (30, Doorbell CMD_HEARTBEAT 0);
            (40, Doorbell CMD_ESTOP 0)]
           (handle_estop Scenarios.v1_5_3_7) He).
Defined.

End V1EstopFacts.

(* ================================================================== *)
(** * Further properties: from a command of the producer to the bus *)

Module SystemFacts.

Import SharedRing SharedMemory Mailbox BrainDaemon BrainSend AppMainV1 System
       Pca9685Facts EstopFacts DriverFacts PacketFacts RingMore.

Lemma buildPosePacket_sealed m_seq t_ms flags servos :
  well_sealed (fst (buildPosePacket m_seq t_ms flags servos)).
Proof.
  unfold buildPosePacket, well_sealed. cbv zeta.
  cbn [fst magic ver_major ver_minor seq Packet.t_ms Packet.flags servo_us crc16].
  split; [reflexivity|]. split; [reflexivity|]. split; [reflexivity|].
  apply packet_crc_ignores_crc_field.
Qed.

Lemma build_and_send_eq ioctl_ret t_ms base b :
  build_and_send ioctl_ret t_ms base b =
  sendPosePacket ioctl_ret
    (fst (buildPosePacket (m_seq b) t_ms (command_flags base b) (m_current_servos b)))
    (mkBrain (g_estop b) (u32 (m_seq b + 1)) (m_current_servos b) (m_shared_mem b)
             (m_mailbox b) (m_packets_sent b) (m_last_heartbeat_ms b)).
Proof.
  unfold build_and_send.
  destruct (buildPosePacket (m_seq b) t_ms (command_flags base b) (m_current_servos b))
    as [pkt seq'] eqn:Hb.
  assert (Hs : seq' = u32 (m_seq b + 1)).
  { change seq' with (snd (pkt, seq')). rewrite <- Hb. reflexivity. }
  rewrite Hs. reflexivity.
Qed.

Lemma clamp_fixed y :
  SERVO_PWM_MIN_US <= y <= SERVO_PWM_MAX_US -> clamp_servo_us y = y.
Proof.
  unfold clamp_servo_us, SERVO_PWM_MIN_US, SERVO_PWM_MAX_US. intros Hy.
  rewrite (u16_small y) by lia.
  destruct (y <? 500) eqn:Hlo; [apply Z.ltb_lt in Hlo; lia|].
  destruct (y >? 2500) eqn:Hhi; [|reflexivity].
  rewrite Z.gtb_ltb in Hhi. apply Z.ltb_lt in Hhi. lia.
Qed.

Lemma u32_succ_diff r : u32 (u32 (r + 1) - r) = 1.
Proof.
  unfold u32. rewrite Zminus_mod_idemp_l.
  replace (r + 1 - r) with 1 by lia. reflexivity.
Qed.

Lemma u32_succ_neq r : 0 <= r < 4294967296 -> r <> u32 (r + 1).
Proof.
  intros Hr Heq. pose proof (u32_succ_diff r) as H. rewrite <- Heq in H.
  rewrite Z.sub_diag in H. discriminate H.
Qed.

(** The channel loop of [apply_servo_values] on the bus. *)
Lemma apply_servo_values_trace pkt v :
  trace (rt (apply_servo_values pkt v)) =
  trace (rt v) ++
  map (fun i => pwm_frame (s_i2c_addr (rt v)) (Z.of_nat i)
                          (clamp_servo_us (servo_at pkt i)))
      channels13.
Proof.
  pose proof (motion_output_trace
                (MotionTask.mkMotion (rt v) Interpolator.interp_boot (servo_us pkt)
                                     [] 0 MotionTask.MOTION_STATE_IDLE)) as H.
  unfold MotionTask.motion_output, MotionTask.with_rt in H.
  cbn [MotionTask.rt MotionTask.s_current_us] in H.
  unfold apply_servo_values. cbn [rt]. unfold servo_at.
  rewrite H. f_equal. apply map_ext. intros i. rewrite saturate_is_clamp.
  reflexivity.
Qed.

(** The doorbell with exactly one fresh, sealed, ordinary packet waiting. *)
Lemma doorbell_one_packet now param v b pkt :
  g_shared_buf v = Some b ->
  truthy (g_estop_active v) = false ->
  0 <= read_idx b < 4294967296 ->
  write_idx b = u32 (read_idx b + 1) ->
  slot_get b (shared_buffer_slot_index (read_idx b)) = pkt ->
  well_sealed pkt ->
  g_last_seq v = 0 \/ g_last_seq v < seq pkt ->
  truthy (Z.land (Packet.flags pkt) FLAG_ESTOP) = false ->
  mailbox_cmd_handler now CMD_MOTION_PACKET param v =
  Some (publish_read_idx (u32 (read_idx b + 1))
          (accept_packet pkt (with_rt (watchdog_feed now (rt v)) v))).
Proof.
  intros Hb He Hr Hw Hslot Hseal Hfresh Hflag.
  unfold mailbox_cmd_handler. cbv zeta.
  change (u8 CMD_MOTION_PACKET =? CMD_HEARTBEAT) with false.
  change (u8 CMD_MOTION_PACKET =? CMD_MOTION_PACKET) with true.
  cbv iota. rewrite He. cbn [negb].
  unfold process_shared_buffer_packets. rewrite Hb. cbv zeta.
  rewrite Hw, u32_succ_diff. change (Z.to_nat 1) with 1%nat.
  cbn [drain_loop].
  replace (read_idx b =? u32 (read_idx b + 1)) with false
    by (symmetry; apply Z.eqb_neq, u32_succ_neq; exact Hr).
  rewrite He, Hslot, Z.eqb_refl.
  unfold process_packet. rewrite validate_packet_sealed by exact Hseal.
  replace ((seq pkt <=? g_last_seq v) && negb (g_last_seq v =? 0)) with false.
  - change (0 =? 0) with true. cbv iota. rewrite Hflag. reflexivity.
  - symmetry. destruct Hfresh as [Hz|Hlt].
    + rewrite Hz. cbn [Z.eqb negb]. apply andb_false_r.
    + replace (seq pkt <=? g_last_seq v) with false; [reflexivity|].
      symmetry. apply Z.leb_gt. exact Hlt.
Qed.

(** The gate of [sendPosePacket] never stops a packet built by a command
    handler: in ESTOP the handler has set the ESTOP flag. *)
Lemma handler_packet_passes_gate (estop : bool) m_seq t_ms servos :
  estop
  && negb (truthy (Z.land
                     (Packet.flags
                        (fst (buildPosePacket m_seq t_ms
                                (if estop then Z.lor FLAG_CLAMP_ENABLE FLAG_ESTOP
                                 else FLAG_CLAMP_ENABLE) servos)))
                     FLAG_ESTOP)) = false.
Proof. destruct estop; reflexivity. Qed.

(** The producer's side of a move command on a region with room. *)
Lemma gp_move_sends t_ms us count sys :
  0 <= m_fd (m_mailbox (brain sys)) ->
  length (packets (region sys)) = 8%nat ->
  u32 (write_idx (region sys) - read_idx (region sys)) < PACKET_RING_SIZE ->
  let pkt := fst (buildPosePacket (m_seq (brain sys)) t_ms
                    (if g_estop (brain sys)
                     then Z.lor FLAG_CLAMP_ENABLE FLAG_ESTOP else FLAG_CLAMP_ENABLE)
                    (store_servos us count (m_current_servos (brain sys)))) in
  exists sys1,
    gp_move 0 t_ms us count sys
    = (Some (mkCmd 0 CMD_MOTION_PACKET 0 0
                   (u32 (u32 (write_idx (region sys) + 1)))), sys1)
    /\ muscle sys1 = muscle sys
    /\ write_idx (region sys1) = u32 (write_idx (region sys) + 1)
    /\ read_idx (region sys1) = read_idx (region sys)
    /\ length (packets (region sys1)) = 8%nat
    /\ slot_get (region sys1) (write_idx (region sys) mod PACKET_RING_SIZE) = pkt
    /\ m_seq (brain sys1) = u32 (m_seq (brain sys) + 1)
    /\ m_packets_sent (brain sys1) = u32 (m_packets_sent (brain sys) + 1)
    /\ m_current_servos (brain sys1)
       = store_servos us count (m_current_servos (brain sys))
    /\ flags (region sys1) = flags (region sys).
Proof.
  intros Hfd Hlen Hroom. cbv zeta.
  unfold gp_move, onSerialMove. rewrite build_and_send_eq.
  unfold command_flags, gp_view.
  cbn [g_estop m_seq m_current_servos m_shared_mem m_mailbox m_packets_sent
       m_last_heartbeat_ms].
  pose proof (handler_packet_passes_gate (g_estop (brain sys)) (m_seq (brain sys))
                t_ms (store_servos us count (m_current_servos (brain sys)))) as Hgate.
  set (pkt := fst (buildPosePacket (m_seq (brain sys)) t_ms
                     (if g_estop (brain sys)
                      then Z.lor FLAG_CLAMP_ENABLE FLAG_ESTOP else FLAG_CLAMP_ENABLE)
                     (store_servos us count (m_current_servos (brain sys))))) in *.
  unfold sendPosePacket.
  cbn [g_estop m_seq m_current_servos m_shared_mem m_mailbox m_packets_sent
       m_last_heartbeat_ms].
  rewrite Hgate.
  destruct (writePacket_room pkt 0 (region sys)
              (m_mem_fd (m_shared_mem (brain sys))) Hlen Hroom)
    as [buf' [Hwp [Hw [Hr [Hf [Hl [Hslot _]]]]]]].
  rewrite Hwp. cbv beta iota. cbn [negb].
  unfold notifyPacketReady, sendCommand.
  replace (m_fd (m_mailbox (brain sys)) <? 0) with false
    by (symmetry; apply Z.ltb_ge; lia).
  change (0 <? 0) with false. cbv beta iota zeta. cbn [negb].
  eexists. split; [reflexivity|].
  unfold region_of_brain.
  cbn [muscle region brain m_shared_mem m_buffer m_seq m_packets_sent
       m_current_servos].
  repeat split; assumption.
Qed.

(** X17. A move command travels from [onSerialMove] to the servo bus.
    With the producer not in ESTOP and its mailbox open, the consumer of
    app_main_v1.c not in ESTOP, the ring of 8 slots empty, and the
    producer's next sequence number above the consumer's last one (or that
    one 0), [onSerialMove] followed by the consumer's handling of the
    doorbell it rings makes the consumer apply exactly one packet: it
    carries the next sequence number, each channel below [count] holds the
    clamped commanded value and every other channel the clamped stored one,
    the consumer feeds its watchdog and then writes the 13 channels in
    order with exactly these values, remembers the sequence number, and
    the ring is empty again. *)
Theorem X17_move_command_reaches_bus :
  forall (t_ms count now : Z) (us : list Z) (sys : System),
    g_estop (brain sys) = false ->
    0 <= m_fd (m_mailbox (brain sys)) ->
    length (packets (region sys)) = 8%nat ->
    0 <= read_idx (region sys) < 4294967296 ->
    write_idx (region sys) = read_idx (region sys) ->
    truthy (g_estop_active (muscle sys)) = false ->
    g_last_seq (muscle sys) = 0
    \/ g_last_seq (muscle sys) < u32 (m_seq (brain sys) + 1) ->
    exists cmd sys1 sys2 pkt,
      gp_move 0 t_ms us count sys = (Some cmd, sys1)
      /\ rt_doorbell now cmd sys1 = Some sys2
      /\ applied (muscle sys2) = applied (muscle sys) ++ [pkt]
      /\ seq pkt = u32 (m_seq (brain sys) + 1)
      /\ g_last_seq (muscle sys2) = seq pkt
      /\ (forall i, (i < 13)%nat ->
            servo_at pkt i =
            clamp_servo_us (if Z.of_nat i <? count then nth i us 0
                            else nth i (m_current_servos (brain sys)) 0))
      /\ trace (rt (muscle sys2)) =
         trace (watchdog_feed now (rt (muscle sys))) ++
         map (fun i => pwm_frame (s_i2c_addr (rt (muscle sys))) (Z.of_nat i)
                                 (servo_at pkt i))
             channels13
      /\ read_idx (region sys2) = write_idx (region sys2)
      /\ m_packets_sent (brain sys2) = u32 (m_packets_sent (brain sys) + 1).
Proof.
  intros t_ms count now us sys Hestop Hfd Hlen Hr Hempty Hrt Hfresh.
  assert (Hroom : u32 (write_idx (region sys) - read_idx (region sys))
                  < PACKET_RING_SIZE).
  { rewrite Hempty, Z.sub_diag. reflexivity. }
  destruct (gp_move_sends t_ms us count sys Hfd Hlen Hroom)
    as [sys1 [Hmove [Hm1 [Hw1 [Hr1 [Hl1 [Hslot1 [Hseq1 [Hsent1 [Hcur1 _]]]]]]]]]].
  cbv zeta in Hslot1. rewrite Hestop in Hslot1.
  set (pkt := fst (buildPosePacket (m_seq (brain sys)) t_ms FLAG_CLAMP_ENABLE
                     (store_servos us count (m_current_servos (brain sys))))) in *.
  assert (Hseal : well_sealed pkt) by apply buildPosePacket_sealed.
  assert (Hpseq : seq pkt = u32 (m_seq (brain sys) + 1)) by reflexivity.
  assert (Hflag : truthy (Z.land (Packet.flags pkt) FLAG_ESTOP) = false)
    by reflexivity.
  assert (Hservo : forall i, (i < 13)%nat ->
            servo_at pkt i =
            clamp_servo_us (if Z.of_nat i <? count then nth i us 0
                            else nth i (m_current_servos (brain sys)) 0)).
  { intros i Hi. unfold pkt, buildPosePacket, servo_at. cbv zeta.
    cbn [fst servo_us]. rewrite channels13_nth by exact Hi.
    unfold store_servos. rewrite channels13_nth by exact Hi.
    destruct (Z.of_nat i <? count); [|reflexivity].
    apply clamp_fixed, clamp_servo_us_range. }
  assert (Hdoor :
    mailbox_cmd_handler now CMD_MOTION_PACKET
      (u32 (u32 (write_idx (region sys) + 1))) (rt_view sys1)
    = Some (publish_read_idx (u32 (read_idx (region sys1) + 1))
              (accept_packet pkt
                 (with_rt (watchdog_feed now (rt (rt_view sys1))) (rt_view sys1))))).
  { apply (doorbell_one_packet now _ (rt_view sys1) (region sys1) pkt).
    - reflexivity.
    - unfold rt_view, with_buf. cbn [g_estop_active]. rewrite Hm1. exact Hrt.
    - rewrite Hr1. exact Hr.
    - rewrite Hw1, Hr1, Hempty. reflexivity.
    - unfold shared_buffer_slot_index. rewrite Hr1, <- Hempty. exact Hslot1.
    - exact Hseal.
    - unfold rt_view, with_buf. cbn [g_last_seq]. rewrite Hm1, Hpseq. exact Hfresh.
    - exact Hflag. }
  eexists. exists sys1. eexists. exists pkt.
  split; [exact Hmove|].
  unfold rt_doorbell. cbn [cmd_id param_ptr]. rewrite Hdoor.
  split; [reflexivity|].
  unfold region_of_muscle, publish_read_idx, accept_packet, with_rt, rt_view, with_buf.
  cbn [muscle region brain g_shared_buf applied g_last_seq rt apply_servo_values
       g_rx_count g_drop_count g_estop_active with_read_idx read_idx write_idx].
  rewrite Hm1.
  split; [reflexivity|]. split; [exact Hpseq|]. split; [reflexivity|].
  split; [exact Hservo|].
  split.
  - pose proof (apply_servo_values_trace pkt
                  (with_rt (watchdog_feed now (rt (muscle sys))) (muscle sys))) as Ht.
    unfold apply_servo_values, with_rt in Ht. cbn [rt] in Ht.
    rewrite Ht. f_equal.
    rewrite MotionMore.watchdog_feed_addr.
    apply map_ext_in. intros i Hi. f_equal.
    assert (Hi13 : (i < 13)%nat) by (apply in_seq in Hi; lia).
    rewrite (Hservo i Hi13). apply clamp_fixed, clamp_servo_us_range.
  - split; [|rewrite Hsent1; reflexivity].
    rewrite Hw1, Hr1, Hempty. reflexivity.
Qed.

(** Both sides after start-up; the command moves the first three
    channels within 200 ms. *)
Lemma X17_move_command_reaches_bus_witness :
  let sys := Scenarios2.system_boot in
  (g_estop (brain sys) = false
   /\ 0 <= m_fd (m_mailbox (brain sys))
   /\ length (packets (region sys)) = 8%nat
   /\ 0 <= read_idx (region sys) < 4294967296
   /\ write_idx (region sys) = read_idx (region sys)
   /\ truthy (g_estop_active (muscle sys)) = false
   /\ (g_last_seq (muscle sys) = 0
       \/ g_last_seq (muscle sys) < u32 (m_seq (brain sys) + 1)))
  /\ exists cmd sys1 sys2 pkt,
       gp_move 0 200 [1600; 400; 2600] 3 sys = (Some cmd, sys1)
       /\ rt_doorbell 50 cmd sys1 = Some sys2
       /\ applied (muscle sys2) = applied (muscle sys) ++ [pkt]
       /\ seq pkt = u32 (m_seq (brain sys) + 1)
       /\ g_last_seq (muscle sys2) = seq pkt
       /\ (forall i, (i < 13)%nat ->
             servo_at pkt i =
             clamp_servo_us (if Z.of_nat i <? 3 then nth i [1600; 400; 2600] 0
                             else nth i (m_current_servos (brain sys)) 0))
       /\ trace (rt (muscle sys2)) =
          trace (watchdog_feed 50 (rt (muscle sys))) ++
          map (fun i => pwm_frame (s_i2c_addr (rt (muscle sys))) (Z.of_nat i)
                                  (servo_at pkt i))
              channels13
       /\ read_idx (region sys2) = write_idx (region sys2)
       /\ m_packets_sent (brain sys2) = u32 (m_packets_sent (brain sys) + 1).
Proof.
  cbv zeta.
  assert (H1 : g_estop (brain Scenarios2.system_boot) = false) by reflexivity.
  assert (H2 : 0 <= m_fd (m_mailbox (brain Scenarios2.system_boot)))
    by (vm_compute; discriminate).
  assert (H3 : length (packets (region Scenarios2.system_boot)) = 8%nat)
    by reflexivity.
  assert (H4 : 0 <= read_idx (region Scenarios2.system_boot) < 4294967296)
    by (vm_compute; split; [discriminate|reflexivity]).
  assert (H5 : write_idx (region Scenarios2.system_boot)
               = read_idx (region Scenarios2.system_boot)) by reflexivity.
  assert (H6 : truthy (g_estop_active (muscle Scenarios2.system_boot)) = false)
    by reflexivity.
  assert (H7 : g_last_seq (muscle Scenarios2.system_boot) = 0
               \/ g_last_seq (muscle Scenarios2.system_boot)
                  < u32 (m_seq (brain Scenarios2.system_boot) + 1))
    by (left; reflexivity).
  split; [repeat split; try assumption; first [apply H4 | exact H7]|].
  exact (X17_move_command_reaches_bus 200 3 50 [1600; 400; 2600]
           Scenarios2.system_boot H1 H2 H3 H4 H5 H6 H7).
Defined.

End SystemFacts.

(* ================================================================== *)
(** * Further properties: the receiver of rpmsg_motion_rx.c *)

Module RxFacts.

Import BrainDaemon RpmsgMotionRx RxRun.

(** What one arrival does to queue and counters. *)
Lemma validate_and_queue_step pkt rx q :
  s_motion_queue rx = Some q ->
  Z.of_nat (length q) <= MOTION_QUEUE_LENGTH ->
  Forall well_sealed q ->
  let rx' := snd (validate_and_queue_packet pkt rx) in
  exists added,
    s_motion_queue rx' = Some (q ++ added)
    /\ Z.of_nat (length (q ++ added)) <= MOTION_QUEUE_LENGTH
    /\ Forall well_sealed (q ++ added)
    /\ (added = [] \/ added = [pkt])
    /\ ((fst (validate_and_queue_packet pkt rx) = 0 /\ added = [pkt]
         /\ s_rx_count rx' = u32 (s_rx_count rx + 1)
         /\ s_drop_count rx' = s_drop_count rx)
        \/ (fst (validate_and_queue_packet pkt rx) < 0 /\ added = []
            /\ s_rx_count rx' = s_rx_count rx
            /\ s_drop_count rx' = u32 (s_drop_count rx + 1))).
Proof.
  intros Hq Hlen Hall. cbv zeta. unfold validate_and_queue_packet.
  destruct (magic pkt =? SPIDER_MAGIC) eqn:Hm; cbn [negb].
  2:{ exists []. rewrite app_nil_r. cbn [fst snd rx_drop s_motion_queue
                                           s_rx_count s_drop_count].
      repeat split; auto; right; repeat split; auto; lia. }
  destruct (ver_major pkt =? SPIDER_VERSION_MAJOR) eqn:Hmaj; cbn [negb orb].
  2:{ exists []. rewrite app_nil_r. cbn [fst snd rx_drop s_motion_queue
                                           s_rx_count s_drop_count].
      repeat split; auto; right; repeat split; auto; lia. }
  destruct (ver_minor pkt =? SPIDER_VERSION_MINOR) eqn:Hmin; cbn [negb orb].
  2:{ exists []. rewrite app_nil_r. cbn [fst snd rx_drop s_motion_queue
                                           s_rx_count s_drop_count].
      repeat split; auto; right; repeat split; auto; lia. }
  destruct (packet_crc pkt =? crc16 pkt) eqn:Hcrc; cbn [negb].
  2:{ exists []. rewrite app_nil_r. cbn [fst snd rx_drop s_motion_queue
                                           s_rx_count s_drop_count].
      repeat split; auto; right; repeat split; auto; lia. }
  destruct ((seq pkt <=? s_last_seq rx) && negb (s_last_seq rx =? 0)).
  { exists []. rewrite app_nil_r. cbn [fst snd rx_drop s_motion_queue
                                         s_rx_count s_drop_count].
    repeat split; auto; right; repeat split; auto; lia. }
  cbv zeta. cbn [s_motion_queue rt s_last_seq s_rx_count s_drop_count].
  rewrite Hq. unfold queue_send.
  destruct (Z.of_nat (length q) <? MOTION_QUEUE_LENGTH) eqn:Hroom.
  - exists [pkt]. cbn [fst snd s_motion_queue s_rx_count s_drop_count].
    apply Z.ltb_lt in Hroom.
    split; [reflexivity|].
    split; [rewrite length_app; cbn [length]; lia|].
    split.
    { apply Forall_app. split; [exact Hall|]. constructor; [|constructor].
      apply Z.eqb_eq in Hm, Hmaj, Hmin, Hcrc.
      unfold well_sealed. repeat split; auto. }
    split; [right; reflexivity|]. left. repeat split.
  - exists []. rewrite app_nil_r.
    cbn [fst snd rx_drop s_motion_queue s_rx_count s_drop_count].
    repeat split; auto; right; repeat split; auto; lia.
Qed.

Lemma u32_add_l a b : u32 (u32 a + b) = u32 (a + b).
Proof. unfold u32. apply Zplus_mod_idemp_l. Qed.

Lemma rx_run_cons pkt pkts rx :
  rx_run (pkt :: pkts) rx = rx_run pkts (snd (validate_and_queue_packet pkt rx)).
Proof. reflexivity. Qed.

(** X18. The receiver's queue under any series of arrivals. Starting from
    a queue of at most 4 correctly sealed packets, after any packets have
    been handed to [validate_and_queue_packet] the queue is the old one
    followed by some of the arrivals, still holds at most 4 packets, and
    every packet in it has the right magic, version and CRC; each arrival
    has been counted exactly once, as received or as dropped. *)
Theorem X18_rx_queue_bounded_and_sealed :
  forall (pkts : list PosePacket31) (rx : Rx) (q : list PosePacket31),
    s_motion_queue rx = Some q ->
    Z.of_nat (length q) <= MOTION_QUEUE_LENGTH ->
    Forall well_sealed q ->
    let rx' := rx_run pkts rx in
    exists added,
      s_motion_queue rx' = Some (q ++ added)
      /\ Z.of_nat (length (q ++ added)) <= MOTION_QUEUE_LENGTH
      /\ Forall well_sealed (q ++ added)
      /\ incl added pkts
      /\ u32 (s_rx_count rx' + s_drop_count rx')
         = u32 (s_rx_count rx + s_drop_count rx + Z.of_nat (length pkts)).
Proof.
  intros pkts. induction pkts as [|pkt pkts IH]; intros rx q Hq Hlen Hall; cbv zeta.
  - exists []. rewrite app_nil_r. cbn [rx_run fold_left length Z.of_nat].
    rewrite Z.add_0_r. repeat split; auto. apply incl_refl.
  - rewrite rx_run_cons.
    destruct (validate_and_queue_step pkt rx q Hq Hlen Hall)
      as [a1 [Hq1 [Hl1 [Ha1 [Hshape Hcount]]]]]. cbv zeta in *.
    destruct (IH _ _ Hq1 Hl1 Ha1) as [a2 [Hq2 [Hl2 [Ha2 [Hin Hc2]]]]].
    cbv zeta in *.
    exists (a1 ++ a2). rewrite app_assoc.
    split; [exact Hq2|]. split; [exact Hl2|]. split; [exact Ha2|].
    split.
    + apply incl_app.
      * destruct Hshape as [->| ->]; [apply incl_nil_l|].
        intros x [Hx|[]]. left. exact Hx.
      * apply incl_tl. exact Hin.
    + rewrite Hc2. cbn [length]. rewrite Nat2Z.inj_succ.
      destruct Hcount as [[_ [_ [Hr Hd]]]|[_ [_ [Hr Hd]]]]; rewrite Hr, Hd.
      * replace (u32 (s_rx_count rx + 1) + s_drop_count rx + Z.of_nat (length pkts))
          with (u32 (s_rx_count rx + 1) + (s_drop_count rx + Z.of_nat (length pkts)))
          by lia.
        rewrite u32_add_l. f_equal. lia.
      * replace (s_rx_count rx + u32 (s_drop_count rx + 1) + Z.of_nat (length pkts))
          with (u32 (s_drop_count rx + 1) + (s_rx_count rx + Z.of_nat (length pkts)))
          by lia.
        rewrite u32_add_l. f_equal. lia.
Qed.

(** Five arrivals at an empty queue: four are queued, the fifth finds
    the queue full. *)
Lemma X18_rx_queue_bounded_and_sealed_witness :
  let rx := rpmsg_motion_rx_init rt_boot in
  let pkts := [sealed_packet 1 0 0 []; sealed_packet 2 0 0 []; sealed_packet 3 0 0 [];
               sealed_packet 4 0 0 []; sealed_packet 5 0 0 []] in
  (s_motion_queue rx = Some []
   /\ Z.of_nat (length (@nil PosePacket31)) <= MOTION_QUEUE_LENGTH
   /\ Forall well_sealed [])
  /\ exists added,
       s_motion_queue (rx_run pkts rx) = Some ([] ++ added)
       /\ Z.of_nat (length ([] ++ added)) <= MOTION_QUEUE_LENGTH
       /\ Forall well_sealed ([] ++ added)
       /\ incl added pkts
       /\ u32 (s_rx_count (rx_run pkts rx) + s_drop_count (rx_run pkts rx))
          = u32 (s_rx_count rx + s_drop_count rx + Z.of_nat (length pkts)).
Proof.
  cbv zeta.
  assert (H1 : s_motion_queue (rpmsg_motion_rx_init rt_boot) = Some [])
    by reflexivity.
  assert (H2 : Z.of_nat (length (@nil PosePacket31)) <= MOTION_QUEUE_LENGTH)
    by (vm_compute; discriminate).
  assert (H3 : Forall well_sealed []) by constructor.
  split; [repeat split; assumption|].
  exact (X18_rx_queue_bounded_and_sealed
           [sealed_packet 1 0 0 []; sealed_packet 2 0 0 []; sealed_packet 3 0 0 [];
            sealed_packet 4 0 0 []; sealed_packet 5 0 0 []]
           (rpmsg_motion_rx_init rt_boot) [] H1 H2 H3).
Defined.

(** X19. A packet that meets a full queue is lost for good. The receiver
    stores the sequence number before it tries the queue: a fresh, sealed
    packet with a non-zero sequence number that arrives while the queue
    holds 4 packets is answered -5, the queue is unchanged, yet
    [s_last_seq] now is its sequence number; sent again, after the motion
    task has taken any number of packets from the queue, the same packet is
    answered -4 and is not queued. *)
Theorem X19_full_queue_drop_consumes_sequence :
  forall (pkt : PosePacket31) (rx : Rx) (q : list PosePacket31) (n : nat),
    well_sealed pkt ->
    seq pkt <> 0 ->
    s_last_seq rx = 0 \/ s_last_seq rx < seq pkt ->
    s_motion_queue rx = Some q ->
    MOTION_QUEUE_LENGTH <= Z.of_nat (length q) ->
    let r1 := validate_and_queue_packet pkt rx in
    let r2 := validate_and_queue_packet pkt (rx_taken n (snd r1)) in
    fst r1 = -5
    /\ s_motion_queue (snd r1) = Some q
    /\ s_last_seq (snd r1) = seq pkt
    /\ fst r2 = -4
    /\ s_motion_queue (snd r2) = Some (skipn n q).
Proof.
  intros pkt rx q n [Hm [Hmaj [Hmin Hcrc]]] Hnz Hfresh Hq Hfull. cbv zeta.
  assert (H1 : validate_and_queue_packet pkt rx
               = (-5, rx_drop None (mkRx (rt rx) (Some q) (seq pkt) (s_rx_count rx)
                                         (s_drop_count rx)))).
  { unfold validate_and_queue_packet.
    rewrite Hm, Hmaj, Hmin, <- Hcrc, !Z.eqb_refl. cbn [negb orb].
    replace ((seq pkt <=? s_last_seq rx) && negb (s_last_seq rx =? 0)) with false.
    - cbv zeta. cbn [s_motion_queue rt s_last_seq s_rx_count s_drop_count].
      rewrite Hq. unfold queue_send.
      replace (Z.of_nat (length q) <? MOTION_QUEUE_LENGTH) with false
        by (symmetry; apply Z.ltb_ge; exact Hfull).
      reflexivity.
    - symmetry. destruct Hfresh as [Hz|Hlt].
      + rewrite Hz. cbn [Z.eqb negb]. apply andb_false_r.
      + replace (seq pkt <=? s_last_seq rx) with false; [reflexivity|].
        symmetry. apply Z.leb_gt. exact Hlt. }
  rewrite H1. cbn [fst snd rx_drop s_motion_queue s_last_seq].
  split; [reflexivity|]. split; [reflexivity|]. split; [reflexivity|].
  unfold validate_and_queue_packet, rx_taken, rx_drop.
  cbn [rt s_motion_queue s_last_seq s_rx_count s_drop_count option_map].
  rewrite Hm, Hmaj, Hmin, <- Hcrc, !Z.eqb_refl. cbn [negb orb].
  rewrite Z.leb_refl.
  replace (seq pkt =? 0) with false by (symmetry; apply Z.eqb_neq; exact Hnz).
  cbn [negb andb fst snd rx_drop s_motion_queue]. split; reflexivity.
Qed.

(** Packets 1 to 4 fill the queue; packet 5 is refused, and refused again
    once two packets have been taken. *)
Lemma X19_full_queue_drop_consumes_sequence_witness :
  let pkt := sealed_packet 5 0 0 [] in
  let q := [sealed_packet 1 0 0 []; sealed_packet 2 0 0 []; sealed_packet 3 0 0 [];
            sealed_packet 4 0 0 []] in
  let rx := rx_run q (rpmsg_motion_rx_init rt_boot) in
  (well_sealed pkt
   /\ seq pkt <> 0
   /\ (s_last_seq rx = 0 \/ s_last_seq rx < seq pkt)
   /\ s_motion_queue rx = Some q
   /\ MOTION_QUEUE_LENGTH <= Z.of_nat (length q))
  /\ (let r1 := validate_and_queue_packet pkt rx in
      let r2 := validate_and_queue_packet pkt (rx_taken 2 (snd r1)) in
      fst r1 = -5
      /\ s_motion_queue (snd r1) = Some q
      /\ s_last_seq (snd r1) = seq pkt
      /\ fst r2 = -4
      /\ s_motion_queue (snd r2) = Some (skipn 2 q)).
Proof.
  cbv zeta.
  set (q := [sealed_packet 1 0 0 []; sealed_packet 2 0 0 []; sealed_packet 3 0 0 [];
             sealed_packet 4 0 0 []]).
  assert (H1 : well_sealed (sealed_packet 5 0 0 [])).
  { split; [reflexivity|]. split; [reflexivity|]. split; [reflexivity|].
    vm_compute. reflexivity. }
  assert (H2 : seq (sealed_packet 5 0 0 []) <> 0) by (vm_compute; discriminate).
  assert (H3 : s_last_seq (rx_run q (rpmsg_motion_rx_init rt_boot)) = 0
               \/ s_last_seq (rx_run q (rpmsg_motion_rx_init rt_boot))
                  < seq (sealed_packet 5 0 0 []))
    by (right; vm_compute; reflexivity).
  assert (H4 : s_motion_queue (rx_run q (rpmsg_motion_rx_init rt_boot)) = Some q)
    by (vm_compute; reflexivity).
  assert (H5 : MOTION_QUEUE_LENGTH <= Z.of_nat (length q))
    by (vm_compute; discriminate).
  split; [repeat split; try assumption; apply H1|].
  exact (X19_full_queue_drop_consumes_sequence (sealed_packet 5 0 0 [])
           (rx_run q (rpmsg_motion_rx_init rt_boot)) q 2 H1 H2 H3 H4 H5).
Defined.

End RxFacts.

(* ================================================================== *)
(** * Further properties: the scan controller *)

Module ScanFacts.

Import ScanController ScanSpec InterpMore.

(** One tick keeps the invariant; an angle it sends to the servo and a
    point it reports lie within the profile. *)
Lemma tick_inv now distance s :
  scan_inv s ->
  exists s',
    tick now distance s = Some s'
    /\ scan_inv s'
    /\ m_profile s' = m_profile s
    /\ (exists l, servo_log s' = servo_log s ++ l
                  /\ Forall (angle_in (m_profile s)) l)
    /\ (exists l, data_log s' = data_log s ++ l
                  /\ Forall (fun p => angle_in (m_profile s) (angle_deg p)) l).
Proof.
  intros [Hp [Ha Hd]].
  assert (Hself : scan_inv s) by (repeat split; try apply Hp; try apply Ha; exact Hd).
  assert (Hsame : exists s', Some s = Some s' /\ scan_inv s'
            /\ m_profile s' = m_profile s
            /\ (exists l, servo_log s' = servo_log s ++ l
                          /\ Forall (angle_in (m_profile s)) l)
            /\ (exists l, data_log s' = data_log s ++ l
                          /\ Forall (fun p => angle_in (m_profile s) (angle_deg p)) l)).
  { exists s. split; [reflexivity|]. split; [exact Hself|]. split; [reflexivity|].
    split; exists []; rewrite app_nil_r; split; auto. }
  unfold tick.
  destruct (m_running s); cbn [negb]; [|exact Hsame].
  destruct Hp as [Hmm [Hrate [Hmin [Hmax Hstep]]]].
  replace (rate_hz (m_profile s) =? 0) with false
    by (symmetry; apply Z.eqb_neq; exact Hrate).
  cbv zeta. destruct (m_dwelling s).
  - match goal with |- context [if ?c then _ else _] => destruct c end;
      [|exact Hsame].
    eexists. split; [reflexivity|].
    unfold scan_inv. cbn [m_profile m_current_angle m_direction servo_log data_log].
    split; [unfold profile_ok, angle_in in *; intuition lia|]. split; [reflexivity|].
    split.
    + exists []. rewrite app_nil_r. split; auto.
    + eexists. split; [reflexivity|]. constructor; [exact Ha|constructor].
  - match goal with |- context [if ?c then _ else _] => destruct c end;
      [|exact Hsame].
    unfold angle_in in Ha.
    assert (Hprod : -1000000 <= m_direction s * step_deg (m_profile s) <= 1000000)
      by (destruct Hd as [-> | ->]; lia).
    rewrite (i32_small (m_direction s * step_deg (m_profile s))) by lia.
    rewrite (i32_small (m_current_angle s + _)) by lia.
    set (a := m_current_angle s + m_direction s * step_deg (m_profile s)).
    destruct (a >? max_deg (m_profile s)) eqn:Hhi.
    + eexists. split; [reflexivity|].
      unfold scan_inv, angle_in.
      cbn [m_profile m_current_angle m_direction servo_log data_log].
      split; [unfold profile_ok, angle_in in *; intuition lia|]. split; [reflexivity|].
      split.
      * eexists. split; [reflexivity|]. constructor; [lia|constructor].
      * exists []. rewrite app_nil_r. split; auto.
    + rewrite Z.gtb_ltb in Hhi. apply Z.ltb_ge in Hhi.
      destruct (a <? min_deg (m_profile s)) eqn:Hlo.
      * eexists. split; [reflexivity|].
        unfold scan_inv, angle_in.
        cbn [m_profile m_current_angle m_direction servo_log data_log].
        split; [unfold profile_ok, angle_in in *; intuition lia|]. split; [reflexivity|].
        split.
        -- eexists. split; [reflexivity|]. constructor; [lia|constructor].
        -- exists []. rewrite app_nil_r. split; auto.
      * apply Z.ltb_ge in Hlo.
        eexists. split; [reflexivity|].
        unfold scan_inv, angle_in.
        cbn [m_profile m_current_angle m_direction servo_log data_log].
        split; [unfold profile_ok, angle_in in *; intuition lia|]. split; [reflexivity|].
        split.
        -- eexists. split; [reflexivity|]. constructor; [lia|constructor].
        -- exists []. rewrite app_nil_r. split; auto.
Qed.

Lemma ticks_inv inputs :
  forall s,
    scan_inv s ->
    exists s',
      ticks inputs s = Some s'
      /\ scan_inv s'
      /\ m_profile s' = m_profile s
      /\ (exists l, servo_log s' = servo_log s ++ l
                    /\ Forall (angle_in (m_profile s)) l)
      /\ (exists l, data_log s' = data_log s ++ l
                    /\ Forall (fun p => angle_in (m_profile s) (angle_deg p)) l).
Proof.
  induction inputs as [|[now distance] rest IH]; intros s Hinv.
  - exists s. split; [reflexivity|]. split; [exact Hinv|]. split; [reflexivity|].
    split; exists []; rewrite app_nil_r; split; auto.
  - cbn [ticks].
    destruct (tick_inv now distance s Hinv)
      as [s1 [Ht [Hinv1 [Hp1 [[l1 [Hs1 Hf1]] [d1 [Hd1 Hg1]]]]]]].
    rewrite Ht.
    destruct (IH s1 Hinv1) as [s2 [Ht2 [Hinv2 [Hp2 [[l2 [Hs2 Hf2]] [d2 [Hd2 Hg2]]]]]]].
    rewrite Hp1 in *.
    exists s2. split; [exact Ht2|]. split; [exact Hinv2|]. split; [exact Hp2|].
    split.
    + exists (l1 ++ l2). rewrite Hs2, Hs1, app_assoc. split; [reflexivity|].
      apply Forall_app. split; assumption.
    + exists (d1 ++ d2). rewrite Hd2, Hd1, app_assoc. split; [reflexivity|].
      apply Forall_app. split; assumption.
Qed.

(** X20. A sweep stays inside its profile. With a profile whose minimum
    is not above its maximum, whose rate is not 0 and whose angles and step
    are at most 1000000 in size, a controller started by [start] and driven
    by any number of [tick] calls, at whatever times and with whatever
    sensor readings, never divides by zero, keeps [m_current_angle] between
    [min_deg] and [max_deg] and the direction at +1 or -1, sends only
    angles of that range to the servo callback (the first being [min_deg])
    and reports only points at such angles. *)
Theorem X20_scan_sweep_stays_in_profile :
  forall (now : Z) (inputs : list (Z * Z)) (s : Scan),
    profile_ok (m_profile s) ->
    m_running s = false ->
    exists s',
      ticks inputs (start now s) = Some s'
      /\ scan_inv s'
      /\ m_profile s' = m_profile s
      /\ (exists l, servo_log s' = servo_log s ++ min_deg (m_profile s) :: l
                    /\ Forall (angle_in (m_profile s)) l)
      /\ (exists l, data_log s' = data_log s ++ l
                    /\ Forall (fun p => angle_in (m_profile s) (angle_deg p)) l).
Proof.
  intros now inputs s Hp Hr.
  assert (Hinv : scan_inv (start now s)).
  { unfold start. rewrite Hr. unfold scan_inv, angle_in.
    cbn [m_profile m_current_angle m_direction].
    destruct Hp as [Hmm Hrest]. repeat split; auto; try apply Hrest; lia. }
  destruct (ticks_inv inputs (start now s) Hinv)
    as [s' [Ht [Hinv' [Hp' [[l [Hs Hf]] [d [Hd Hg]]]]]]].
  assert (Hprof : m_profile (start now s) = m_profile s)
    by (unfold start; rewrite Hr; reflexivity).
  assert (Hlog : servo_log (start now s) = servo_log s ++ [min_deg (m_profile s)])
    by (unfold start; rewrite Hr; reflexivity).
  assert (Hdat : data_log (start now s) = data_log s)
    by (unfold start; rewrite Hr; reflexivity).
  rewrite Hprof in *. rewrite Hlog in Hs. rewrite Hdat in Hd.
  exists s'. split; [exact Ht|]. split; [exact Hinv'|]. split; [exact Hp'|].
  split.
  - exists l. rewrite Hs, <- app_assoc. split; [reflexivity|exact Hf].
  - exists d. split; assumption.
Qed.

(** The default profile, five ticks 100 ms apart. *)
Lemma X20_scan_sweep_stays_in_profile_witness :
  let inputs := [(100, 300); (200, 310); (300, 320); (400, 330); (500, 340)] in
  (profile_ok (m_profile scan_new) /\ m_running scan_new = false)
  /\ exists s',
       ticks inputs (start 0 scan_new) = Some s'
       /\ scan_inv s'
       /\ m_profile s' = m_profile scan_new
       /\ (exists l, servo_log s'
                     = servo_log scan_new ++ min_deg (m_profile scan_new) :: l
                     /\ Forall (angle_in (m_profile scan_new)) l)
       /\ (exists l, data_log s' = data_log scan_new ++ l
                     /\ Forall (fun p => angle_in (m_profile scan_new) (angle_deg p)) l).
Proof.
  cbv zeta.
  assert (H1 : profile_ok (m_profile scan_new)).
  { unfold profile_ok. cbn. repeat split; try lia; discriminate. }
  assert (H2 : m_running scan_new = false) by reflexivity.
  split; [split; assumption|].
  exact (X20_scan_sweep_stays_in_profile 0
           [(100, 300); (200, 310); (300, 320); (400, 330); (500, 340)]
           scan_new H1 H2).
Defined.

(** X21. [angleToServoUs] always answers a pulse width between 500 and
    2500 us, whatever the angle (even where the [int] product wraps); for
    angles of at most 1000000 in size it is monotone; and on 0 to 180
    degrees it is the linear map [500 + angle * 2000 / 180] with no
    clamping involved. *)
Theorem X21_angleToServoUs_range_and_shape :
  forall a : Z,
    SERVO_PWM_MIN_US <= angleToServoUs a <= SERVO_PWM_MAX_US
    /\ (forall b, -1000000 <= a <= b -> b <= 1000000 ->
                  angleToServoUs a <= angleToServoUs b)
    /\ (0 <= a <= 180 -> angleToServoUs a = 500 + a * 2000 / 180).
Proof.
  intros a.
  assert (Hshape : forall x, -1000000 <= x <= 1000000 ->
            angleToServoUs x =
            Z.min 2500 (Z.max 500 (500 + Z.quot (x * 2000) 180))).
  { intros x Hx. unfold angleToServoUs, SERVO_PWM_MIN_US, SERVO_PWM_MAX_US.
    cbv zeta. rewrite (i32_small (x * 2000)) by lia.
    assert (Hq : -11111112 <= Z.quot (x * 2000) 180 <= 11111112).
    { split.
      - transitivity (Z.quot (-2000000000) 180); [vm_compute; discriminate|].
        apply Z.quot_le_mono; lia.
      - transitivity (Z.quot 2000000000 180); [|vm_compute; discriminate].
        apply Z.quot_le_mono; lia. }
    rewrite i32_small by lia.
    destruct (500 + Z.quot (x * 2000) 180 <? 500) eqn:Hlo.
    - apply Z.ltb_lt in Hlo. change (500 >? 2500) with false. cbv iota. lia.
    - apply Z.ltb_ge in Hlo.
      destruct (500 + Z.quot (x * 2000) 180 >? 2500) eqn:Hhi.
      + rewrite Z.gtb_ltb in Hhi. apply Z.ltb_lt in Hhi. lia.
      + rewrite Z.gtb_ltb in Hhi. apply Z.ltb_ge in Hhi. lia. }
  split; [|split].
  - unfold angleToServoUs, SERVO_PWM_MIN_US, SERVO_PWM_MAX_US. cbv zeta.
    destruct (i32 (500 + Z.quot (i32 (a * 2000)) 180) <? 500) eqn:Hlo.
    + change (500 >? 2500) with false. cbv iota. lia.
    + apply Z.ltb_ge in Hlo.
      destruct (i32 (500 + Z.quot (i32 (a * 2000)) 180) >? 2500) eqn:Hhi; [lia|].
      rewrite Z.gtb_ltb in Hhi. apply Z.ltb_ge in Hhi. lia.
  - intros b Hab Hb. rewrite !Hshape by lia.
    assert (Hq : Z.quot (a * 2000) 180 <= Z.quot (b * 2000) 180)
      by (apply Z.quot_le_mono; lia).
    lia.
  - intros Ha. rewrite Hshape by lia.
    rewrite Z.quot_div_nonneg by lia.
    pose proof (Z.div_pos (a * 2000) 180 ltac:(lia) ltac:(lia)) as H0.
    assert (H1 : a * 2000 / 180 <= 2000).
    { apply Z.div_le_upper_bound; lia. }
    lia.
Qed.

(** The minimum search of [getClosestDistance]. *)
Lemma closest_fold (data : list ScanPoint) :
  forall c0,
    let step := fun closest p =>
                  if (distance_mm p >? 0) && (distance_mm p <? closest)
                  then distance_mm p else closest in
    let c := fold_left step data c0 in
    c <= c0
    /\ (c = c0 \/ (0 < c /\ exists p, In p data /\ distance_mm p = c))
    /\ (forall p, In p data -> 0 < distance_mm p -> c <= distance_mm p).
Proof.
  induction data as [|p data IH]; intros c0; cbv zeta; cbn [fold_left].
  - split; [lia|]. split; [left; reflexivity|]. intros p [].
  - match goal with |- context [fold_left ?f data ?x] =>
      destruct (IH x) as [H1 [H2 H3]] end. cbv zeta in *.
    destruct ((distance_mm p >? 0) && (distance_mm p <? c0)) eqn:Hc.
    + apply andb_true_iff in Hc. destruct Hc as [Hpos Hlt].
      rewrite Z.gtb_ltb in Hpos. apply Z.ltb_lt in Hpos. apply Z.ltb_lt in Hlt.
      split; [lia|]. split.
      * right. destruct H2 as [H2|[H2 [q [Hq1 Hq2]]]].
        -- split; [lia|]. exists p. split; [left; reflexivity|]. congruence.
        -- split; [exact H2|]. exists q. split; [right; exact Hq1|exact Hq2].
      * intros q [<-|Hq] Hqpos; [exact H1|]. apply H3; assumption.
    + split; [exact H1|]. split.
      * destruct H2 as [H2|[H2 [q [Hq1 Hq2]]]]; [left; exact H2|].
        right. split; [exact H2|]. exists q. split; [right; exact Hq1|exact Hq2].
      * intros q [<-|Hq] Hqpos; [|apply H3; assumption].
        apply andb_false_iff in Hc. destruct Hc as [Hc|Hc].
        -- rewrite Z.gtb_ltb in Hc. apply Z.ltb_ge in Hc. lia.
        -- apply Z.ltb_ge in Hc. lia.
Qed.

(** The search of [getClosestAngle] runs the same minimum search and
    carries the angle of the point that gave the minimum. *)
Lemma closest_pair_fold (data : list ScanPoint) :
  forall c0 a0,
    let step := fun closest p =>
                  if (distance_mm p >? 0) && (distance_mm p <? closest)
                  then distance_mm p else closest in
    let stepp := fun (acc : Z * Z) p =>
                   if (distance_mm p >? 0) && (distance_mm p <? fst acc)
                   then (distance_mm p, angle_deg p) else acc in
    let r := fold_left stepp data (c0, a0) in
    fst r = fold_left step data c0
    /\ (r = (c0, a0)
        \/ (fst r < c0
            /\ exists p, In p data /\ distance_mm p = fst r /\ angle_deg p = snd r)).
Proof.
  induction data as [|p data IH]; intros c0 a0; cbv zeta; cbn [fold_left].
  - split; [reflexivity|]. left. reflexivity.
  - cbn [fst].
    destruct ((distance_mm p >? 0) && (distance_mm p <? c0)) eqn:Hc.
    + apply andb_true_iff in Hc. destruct Hc as [_ Hlt]. apply Z.ltb_lt in Hlt.
      destruct (IH (distance_mm p) (angle_deg p)) as [H1 H2]. cbv zeta in *.
      split; [exact H1|]. right.
      destruct H2 as [H2|[Hless [q [Hq1 Hq2]]]].
      * rewrite H2. cbn [fst snd]. split; [exact Hlt|].
        exists p. split; [left; reflexivity|]. split; reflexivity.
      * split; [lia|]. exists q. split; [right; exact Hq1|exact Hq2].
    + destruct (IH c0 a0) as [H1 H2]. cbv zeta in *.
      split; [exact H1|].
      destruct H2 as [H2|[Hless [q [Hq1 Hq2]]]]; [left; exact H2|].
      right. split; [exact Hless|]. exists q. split; [right; exact Hq1|exact Hq2].
Qed.

(** X22. [getClosestDistance] and [getClosestAngle] agree. Either no
    recorded point has a distance strictly between 0 and 9999, and the
    answers are -1 and 90; or the distance answered is such a distance, no
    positive recorded distance is below it, and some recorded point has
    this distance at the angle [getClosestAngle] answers. Readings of 9999
    and above count as no reading. *)
Theorem X22_closest_distance_and_angle :
  forall s : Scan,
    (getClosestDistance s = -1
     /\ getClosestAngle s = 90
     /\ forall p, In p (m_scan_data s) ->
                  distance_mm p <= 0 \/ 9999 <= distance_mm p)
    \/ (0 < getClosestDistance s < 9999
        /\ (forall p, In p (m_scan_data s) -> 0 < distance_mm p ->
                      getClosestDistance s <= distance_mm p)
        /\ exists p, In p (m_scan_data s)
                     /\ distance_mm p = getClosestDistance s
                     /\ angle_deg p = getClosestAngle s).
Proof.
  intros s. unfold getClosestDistance, getClosestAngle. cbv zeta.
  destruct (closest_fold (m_scan_data s) 9999) as [H1 [H2 H3]].
  destruct (closest_pair_fold (m_scan_data s) 9999 90) as [P1 P2].
  cbv zeta in *. cbn [fst] in P1.
  set (c := fold_left _ (m_scan_data s) 9999) in *.
  set (r := fold_left _ (m_scan_data s) (9999, 90)) in *.
  destruct (c =? 9999) eqn:Hc.
  - apply Z.eqb_eq in Hc. left. split; [reflexivity|]. split.
    + destruct P2 as [P2|[Hless _]]; [rewrite P2; reflexivity|].
      exfalso. rewrite P1 in Hless. lia.
    + intros p Hp. destruct (Z_le_gt_dec (distance_mm p) 0) as [Hle|Hgt];
        [left; exact Hle|]. right. specialize (H3 p Hp ltac:(lia)). lia.
  - apply Z.eqb_neq in Hc.
    destruct H2 as [H2|[Hpos [q [Hq1 Hq2]]]]; [contradiction|].
    right. split; [lia|]. split; [exact H3|].
    destruct P2 as [P2|[_ [p [Hp1 [Hp2 Hp3]]]]].
    + exfalso. rewrite P2 in P1. cbn [fst] in P1. congruence.
    + exists p. split; [exact Hp1|]. split; [congruence|exact Hp3].
Qed.

Lemma i32_diff_zero a b : is_int a -> is_int b -> (i32 (a - b) = 0 <-> a = b).
Proof.
  unfold is_int, i32. intros Ha Hb. split.
  - intros H.
    assert (Hm : (a - b + 2147483648) mod 4294967296 = 2147483648) by lia.
    destruct (Z_lt_le_dec (a - b) (-2147483648)) as [Hneg|Hge].
    + rewrite <- (Z_mod_plus_full _ 1) in Hm. rewrite Z.mod_small in Hm; lia.
    + destruct (Z_lt_le_dec (a - b) 2147483648) as [Hlt|Hbig].
      * rewrite Z.mod_small in Hm; lia.
      * rewrite <- (Z_mod_plus_full _ (-1)) in Hm. rewrite Z.mod_small in Hm; lia.
  - intros ->. rewrite Z.sub_diag. reflexivity.
Qed.

Lemma tolerance0_match a b :
  is_int a -> is_int b -> ((Z.abs (i32 (a - b)) <=? 0) = (a =? b)).
Proof.
  intros Ha Hb. pose proof (i32_diff_zero a b Ha Hb) as H.
  destruct (a =? b) eqn:He.
  - apply Z.eqb_eq in He. apply Z.leb_le. apply H in He. rewrite He. cbn. lia.
  - apply Z.eqb_neq in He. apply Z.leb_gt.
    assert (i32 (a - b) <> 0) by (intros H0; apply He, H, H0). lia.
Qed.

Lemma upsert_angles pt data :
  (In (angle_deg pt) (angles data) /\ angles (upsert pt data) = angles data)
  \/ (~ In (angle_deg pt) (angles data)
      /\ angles (upsert pt data) = angles data ++ [angle_deg pt]).
Proof.
  induction data as [|p data IH]; cbn [upsert angles map].
  - right. split; [intros []|reflexivity].
  - destruct (angle_deg p =? angle_deg pt) eqn:He.
    + apply Z.eqb_eq in He. left. cbn [map angle_deg In].
      split; [left; exact He|reflexivity].
    + apply Z.eqb_neq in He. cbn [map In]. fold (angles data).
      fold (angles (upsert pt data)).
      destruct IH as [[Hin Heq]|[Hnin Heq]].
      * left. split; [right; exact Hin|]. rewrite Heq. reflexivity.
      * right. split; [intros [H|H]; contradiction|]. rewrite Heq. reflexivity.
Qed.

Lemma upsert_lookup pt data :
  is_int (angle_deg pt) -> Forall is_int (angles data) ->
  distance_at (upsert pt data) (angle_deg pt) 0 = distance_mm pt
  /\ forall a, is_int a -> a <> angle_deg pt ->
               distance_at (upsert pt data) a 0 = distance_at data a 0.
Proof.
  intros Hpt. induction data as [|p data IH]; intros Hall;
    cbn [upsert distance_at angles map] in *.
  - rewrite tolerance0_match, Z.eqb_refl by assumption. split; [reflexivity|].
    intros a Ha Hne. rewrite tolerance0_match by assumption.
    replace (angle_deg pt =? a) with false
      by (symmetry; apply Z.eqb_neq; congruence).
    reflexivity.
  - inversion Hall as [|x l Hp Hrest]; subst.
    destruct (IH Hrest) as [IH1 IH2].
    destruct (angle_deg p =? angle_deg pt) eqn:He.
    + apply Z.eqb_eq in He. cbn [distance_at angle_deg distance_mm].
      rewrite tolerance0_match, He, Z.eqb_refl by (rewrite <- ?He; assumption).
      split; [reflexivity|].
      intros a Ha Hne. rewrite <- He, !tolerance0_match by assumption.
      replace (angle_deg p =? a) with false
        by (symmetry; apply Z.eqb_neq; congruence).
      reflexivity.
    + cbn [distance_at]. rewrite tolerance0_match, He by assumption.
      split; [exact IH1|].
      intros a Ha Hne. rewrite IH2 by assumption. reflexivity.
Qed.

(** X23. A reading is stored where the look-up finds it. When the dwell
    time of a running sweep is over, [tick] takes the reading, leaves the
    dwell state, reports the point once, and stores it so that
    [getDistanceAtAngle] with tolerance 0 answers this reading at the
    current angle and the same as before at every other angle; the stored
    points keep distinct angles. *)
Theorem X23_scan_reading_stored_and_found :
  forall (now distance : Z) (s : Scan),
    m_running s = true ->
    m_dwelling s = true ->
    rate_hz (m_profile s) <> 0 ->
    BrainSend.u64 (BrainSend.u64 now - m_dwell_start_ms s)
      >= BrainSend.u64 (dwell_ms (m_profile s)) ->
    is_int (m_current_angle s) ->
    Forall is_int (angles (m_scan_data s)) ->
    NoDup (angles (m_scan_data s)) ->
    exists s',
      tick now distance s = Some s'
      /\ m_dwelling s' = false
      /\ m_current_angle s' = m_current_angle s
      /\ servo_log s' = servo_log s
      /\ data_log s' = data_log s
                       ++ [mkPoint (m_current_angle s) distance (BrainSend.u64 now)]
      /\ getDistanceAtAngle (m_current_angle s) 0 s' = distance
      /\ (forall a, is_int a -> a <> m_current_angle s ->
                    getDistanceAtAngle a 0 s' = getDistanceAtAngle a 0 s)
      /\ NoDup (angles (m_scan_data s'))
      /\ Forall is_int (angles (m_scan_data s')).
Proof.
  intros now distance s Hrun Hdw Hrate Hover Hcur Hall Hnd.
  unfold tick. rewrite Hrun, Hdw. cbn [negb].
  replace (rate_hz (m_profile s) =? 0) with false
    by (symmetry; apply Z.eqb_neq; exact Hrate).
  cbv zeta.
  replace (BrainSend.u64 (BrainSend.u64 now - m_dwell_start_ms s)
           >=? BrainSend.u64 (dwell_ms (m_profile s))) with true
    by (symmetry; rewrite Z.geb_leb; apply Z.leb_le; lia).
  set (pt := mkPoint (m_current_angle s) distance (BrainSend.u64 now)).
  eexists. split; [reflexivity|].
  unfold getDistanceAtAngle.
  cbn [m_dwelling m_current_angle servo_log data_log m_scan_data].
  split; [reflexivity|]. split; [reflexivity|]. split; [reflexivity|].
  split; [reflexivity|].
  destruct (upsert_lookup pt (m_scan_data s) Hcur Hall) as [L1 L2].
  split; [exact L1|]. split; [exact L2|].
  destruct (upsert_angles pt (m_scan_data s)) as [[Hin Heq]|[Hnin Heq]];
    rewrite Heq.
  - split; assumption.
  - split.
    + apply NoDup_app; [exact Hnd|repeat constructor; intros []|].
      intros a Ha [<-|[]]. exact (Hnin Ha).
    + apply Forall_app. split; [exact Hall|]. constructor; [exact Hcur|constructor].
Qed.

(** A sweep with the default profile, started at 0, first reading 80 ms
    later. *)
Lemma X23_scan_reading_stored_and_found_witness :
  let s := start 0 scan_new in
  (m_running s = true
   /\ m_dwelling s = true
   /\ rate_hz (m_profile s) <> 0
   /\ BrainSend.u64 (BrainSend.u64 80 - m_dwell_start_ms s)
      >= BrainSend.u64 (dwell_ms (m_profile s))
   /\ is_int (m_current_angle s)
   /\ Forall is_int (angles (m_scan_data s))
   /\ NoDup (angles (m_scan_data s)))
  /\ exists s',
       tick 80 345 s = Some s'
       /\ m_dwelling s' = false
       /\ m_current_angle s' = m_current_angle s
       /\ servo_log s' = servo_log s
       /\ data_log s' = data_log s
                        ++ [mkPoint (m_current_angle s) 345 (BrainSend.u64 80)]
       /\ getDistanceAtAngle (m_current_angle s) 0 s' = 345
       /\ (forall a, is_int a -> a <> m_current_angle s ->
                     getDistanceAtAngle a 0 s' = getDistanceAtAngle a 0 s)
       /\ NoDup (angles (m_scan_data s'))
       /\ Forall is_int (angles (m_scan_data s')).
Proof.
  cbv zeta.
  assert (H1 : m_running (start 0 scan_new) = true) by reflexivity.
  assert (H2 : m_dwelling (start 0 scan_new) = true) by reflexivity.
  assert (H3 : rate_hz (m_profile (start 0 scan_new)) <> 0)
    by (vm_compute; discriminate).
  assert (H4 : BrainSend.u64 (BrainSend.u64 80 - m_dwell_start_ms (start 0 scan_new))
               >= BrainSend.u64 (dwell_ms (m_profile (start 0 scan_new))))
    by (vm_compute; discriminate).
  assert (H5 : is_int (m_current_angle (start 0 scan_new)))
    by (vm_compute; split; [discriminate|reflexivity]).
  assert (H6 : Forall is_int (angles (m_scan_data (start 0 scan_new))))
    by constructor.
  assert (H7 : NoDup (angles (m_scan_data (start 0 scan_new))))
    by constructor.
  split; [repeat split; try assumption; apply H5|].
  exact (X23_scan_reading_stored_and_found 80 345 (start 0 scan_new)
           H1 H2 H3 H4 H5 H6 H7).
Defined.

End ScanFacts.

(* ================================================================== *)
(** * Further properties: the failsafe latch *)

Module FailsafeFacts.

Import Pca9685Facts DriverFacts.

(** A loop over channels below 16 writes one frame per channel, in the
    order of the loop. *)
Lemma pwm_loop_trace (f : nat -> Z) (chs : list nat) :
  forall r,
    Forall (fun i => (i < 16)%nat) chs ->
    let r' := fold_left (fun r i => snd (pca9685_set_pwm_us (Z.of_nat i) (f i) r))
                        chs r in
    trace r' = trace r ++
               map (fun i => pwm_frame (s_i2c_addr r) (Z.of_nat i)
                                       (clamp_servo_us (f i))) chs
    /\ s_i2c_addr r' = s_i2c_addr r
    /\ s_fault_flags r' = s_fault_flags r
    /\ fs_estop_active r' = fs_estop_active r
    /\ wd_state r' = wd_state r
    /\ wd_last_feed_tick r' = wd_last_feed_tick r.
Proof.
  induction chs as [|c chs IH]; intros r Hall; cbv zeta.
  - cbn [fold_left map]. rewrite app_nil_r. repeat split.
  - inversion Hall as [|? ? Hc Hrest]; subst. cbn [fold_left map].
    rewrite pca9685_set_pwm_us_effect.
    rewrite (u8_small (Z.of_nat c)) by lia.
    replace (Z.of_nat c >=? PCA9685_CHANNEL_COUNT) with false
      by (symmetry; unfold PCA9685_CHANNEL_COUNT; rewrite Z.geb_leb;
          apply Z.leb_gt; lia).
    destruct (IH (emit (pwm_frame (s_i2c_addr r) (Z.of_nat c)
                                  (saturate_us (u16 (f c)))) r) Hrest)
      as [H1 [H2 [H3 [H4 [H5 H6]]]]].
    cbv zeta in *. rewrite H1, H2, H3, H4, H5, H6.
    cbn [emit trace s_i2c_addr s_fault_flags fs_estop_active wd_state
         wd_last_feed_tick].
    rewrite <- app_assoc, saturate_is_clamp. repeat split.
Qed.

Lemma neutral_is_clamped : clamp_servo_us SERVO_PWM_NEUTRAL_US = SERVO_PWM_NEUTRAL_US.
Proof. reflexivity. Qed.

Lemma estop_flag_cleared f :
  Z.land (Z.land f (Z.lxor 0xFFFFFFFF (u32 FAULT_ESTOP_ACTIVE)))
         (u32 FAULT_ESTOP_ACTIVE) = 0.
Proof.
  rewrite <- Z.land_assoc.
  replace (Z.land (Z.lxor 0xFFFFFFFF (u32 FAULT_ESTOP_ACTIVE))
                  (u32 FAULT_ESTOP_ACTIVE)) with 0 by reflexivity.
  apply Z.land_0_r.
Qed.

Lemma channels16_below : Forall (fun i => (i < 16)%nat) (List.seq 0 16).
Proof. apply Forall_forall. intros i Hi. apply in_seq in Hi. lia. Qed.

(** What [failsafe_enter_estop] leaves behind. *)
Lemma failsafe_enter_estop_effect r :
  fs_estop_active (failsafe_enter_estop r) = 1
  /\ s_fault_flags (failsafe_enter_estop r)
     = Z.lor (s_fault_flags r) (u32 FAULT_ESTOP_ACTIVE)
  /\ trace (failsafe_enter_estop r)
     = trace r ++ map (fun i => pwm_frame (s_i2c_addr r) (Z.of_nat i)
                                          SERVO_PWM_NEUTRAL_US)
                      (List.seq 0 16)
  /\ wd_state (failsafe_enter_estop r) = wd_state r.
Proof.
  unfold failsafe_enter_estop, failsafe_set_safe_pose, pca9685_set_all_us. cbv zeta.
  destruct (pwm_loop_trace (fun _ => SERVO_PWM_NEUTRAL_US) (List.seq 0 16)
              (fault_flags_set FAULT_ESTOP_ACTIVE (with_fs_estop 1 r))
              channels16_below)
    as [H1 [H2 [H3 [H4 [H5 H6]]]]].
  cbv zeta in H1, H2, H3, H4, H5, H6.
  rewrite H1, H3, H4, H5. rewrite neutral_is_clamped.
  split; [reflexivity|]. split; [reflexivity|]. split; reflexivity.
Qed.

(** X24. The failsafe latch. [failsafe_enter_estop] sets the latch and
    the ESTOP fault flag and writes 1500 us to each of the 16 outputs, in
    order, leaving the watchdog's state alone. [failsafe_clear_estop]
    answers 0, clears latch and flag and writes nothing. The watchdog's own
    [watchdog_clear_estop], even when it succeeds, clears the fault flag but
    leaves the failsafe latch set. *)
Theorem X24_failsafe_latch_set_and_clear :
  forall (now : Z) (r : Rt),
    let e := failsafe_enter_estop r in
    let c := failsafe_clear_estop e in
    let w := watchdog_clear_estop now e in
    failsafe_is_estop_active e = 1
    /\ fault_flags_is_set FAULT_ESTOP_ACTIVE e = true
    /\ trace e = trace r ++
                 map (fun i => pwm_frame (s_i2c_addr r) (Z.of_nat i)
                                         SERVO_PWM_NEUTRAL_US)
                     (List.seq 0 16)
    /\ wd_state e = wd_state r
    /\ fst c = 0
    /\ failsafe_is_estop_active (snd c) = 0
    /\ fault_flags_is_set FAULT_ESTOP_ACTIVE (snd c) = false
    /\ trace (snd c) = trace e
    /\ failsafe_is_estop_active (snd w) = 1
    /\ (fst w = 0 -> fault_flags_is_set FAULT_ESTOP_ACTIVE (snd w) = false
                     /\ wd_state (snd w) = WATCHDOG_STATE_NORMAL).
Proof.
  intros now r. cbv zeta.
  destruct (failsafe_enter_estop_effect r) as [H1 [H2 [H3 H4]]].
  generalize dependent (failsafe_enter_estop r). intros e H1 H2 H3 H4.
  unfold failsafe_is_estop_active.
  split; [exact H1|].
  split.
  { unfold fault_flags_is_set. rewrite H2, land_lor_same. reflexivity. }
  split; [exact H3|]. split; [exact H4|].
  unfold failsafe_clear_estop. rewrite H1.
  change (truthy 1) with true. cbv iota. cbn [fst snd].
  split; [reflexivity|]. split; [reflexivity|].
  split.
  { unfold fault_flags_is_set, fault_flags_clear.
    cbn [with_fault_flags with_fs_estop s_fault_flags].
    rewrite estop_flag_cleared. reflexivity. }
  split; [reflexivity|].
  unfold watchdog_clear_estop. cbv zeta.
  destruct (negb (WatchdogState_eqb (wd_state e) WATCHDOG_STATE_ESTOP));
    cbn [fst snd]; [split; [exact H1|intros Hx; discriminate Hx]|].
  destruct (tick_sub (u32 now) (wd_last_feed_tick e)
            <? pdMS_TO_TICKS HEARTBEAT_TIMEOUT_MS); cbn [fst snd].
  - split; [exact H1|]. intros _. split; [|reflexivity].
    unfold fault_flags_is_set, fault_flags_clear, store_state.
    cbn [with_fault_flags emit with_wd_state s_fault_flags].
    rewrite estop_flag_cleared. reflexivity.
  - split; [exact H1|]. intros Hx. discriminate Hx.
Qed.

End FailsafeFacts.

(* ================================================================== *)
(** * Further properties: ESTOP from the producer to the consumer *)

Module SystemEstopFacts.

Import SharedRing SharedMemory Mailbox BrainDaemon BrainSend AppMainV1 System
       DriverFacts PacketFacts RingMore SystemFacts.




End SystemEstopFacts.

(* ================================================================== *)
(** * Further properties: the producer's ring and mailbox calls *)

Module ProducerFacts.

Import SharedRing SharedMemory Mailbox RingMore.

(** X26. The two senders on one region. Where the ring has room, the
    archived [IpcMuscleRpmsg::sendViaCmdqu] and [SharedMemory::writePacket]
    leave the same region behind (same slot written, write index advanced
    by one); [sendViaCmdqu] does so before it rings the doorbell, so that it
    answers false when the [ioctl] fails although the packet is in the
    ring. Where the ring is full, both refuse; [sendViaCmdqu] sets the
    OVERFLOW bit and counts a drop, [writePacket] changes nothing. *)
Theorem X26_two_senders_same_region :
  forall (data : PosePacket31) (buf : SharedMotionBuffer)
         (fd ioctl_ret tx dr : Z),
    0 <= fd ->
    let ipc := IpcMuscleRpmsg.mkIpc fd (Some buf) tx dr in
    let shm := mkShm (Some buf) fd in
    let sent := IpcMuscleRpmsg.sendViaCmdqu ioctl_ret data ipc in
    let written := writePacket (Some data) 0 shm in
    (shared_buffer_is_full buf = false ->
       IpcMuscleRpmsg.m_shared_buf (snd sent) = m_buffer (snd written)
       /\ fst (fst written) = true
       /\ fst sent = negb (ioctl_ret <? 0)
       /\ IpcMuscleRpmsg.m_drop_count (snd sent) = dr)
    /\ (shared_buffer_is_full buf = true ->
          fst sent = false
          /\ written = (false, 0, shm)
          /\ IpcMuscleRpmsg.m_shared_buf (snd sent)
             = Some (with_flags (Z.lor (flags buf) SHARED_FLAG_OVERFLOW) buf)
          /\ IpcMuscleRpmsg.m_drop_count (snd sent) = u32 (dr + 1)).
Proof.
  intros data buf fd ioctl_ret tx dr Hfd. cbv zeta.
  unfold IpcMuscleRpmsg.sendViaCmdqu, writePacket.
  cbn [IpcMuscleRpmsg.m_cmdqu_fd IpcMuscleRpmsg.m_shared_buf m_buffer m_mem_fd
       IpcMuscleRpmsg.m_tx_count IpcMuscleRpmsg.m_drop_count].
  replace (fd <? 0) with false by (symmetry; apply Z.ltb_ge; exact Hfd).
  unfold shared_buffer_is_full, shared_buffer_slot_index.
  split; intros Hfull; rewrite Hfull.
  - destruct (ioctl_ret <? 0);
      cbn [fst snd negb IpcMuscleRpmsg.m_shared_buf m_buffer
           IpcMuscleRpmsg.m_drop_count];
      repeat split.
  - cbn [fst snd IpcMuscleRpmsg.m_shared_buf IpcMuscleRpmsg.m_drop_count].
    repeat split.
Qed.

Lemma X26_two_senders_same_region_witness :
  0 <= 3
  /\ (let data := Scenarios.move_1800 in
      let buf := zeroed_region in
      let ipc := IpcMuscleRpmsg.mkIpc 3 (Some buf) 0 0 in
      let shm := mkShm (Some buf) 3 in
      let sent := IpcMuscleRpmsg.sendViaCmdqu (-1) data ipc in
      let written := writePacket (Some data) 0 shm in
      (shared_buffer_is_full buf = false ->
         IpcMuscleRpmsg.m_shared_buf (snd sent) = m_buffer (snd written)
         /\ fst (fst written) = true
         /\ fst sent = negb (-1 <? 0)
         /\ IpcMuscleRpmsg.m_drop_count (snd sent) = 0)
      /\ (shared_buffer_is_full buf = true ->
            fst sent = false
            /\ written = (false, 0, shm)
            /\ IpcMuscleRpmsg.m_shared_buf (snd sent)
               = Some (with_flags (Z.lor (flags buf) SHARED_FLAG_OVERFLOW) buf)
            /\ IpcMuscleRpmsg.m_drop_count (snd sent) = u32 (0 + 1))).
Proof.
  assert (H : 0 <= 3) by lia.
  split; [exact H|].
  exact (X26_two_senders_same_region Scenarios.move_1800 zeroed_region 3 (-1) 0 0 H).
Defined.

(** X27. [Mailbox::sendCommand]. On a closed device nothing is handed to
    the driver and the answer is false. On an open one the command handed
    over has the low 7 bits of the identifier in its [cmd_id] field (so an
    identifier and the same identifier plus 128 give the same command),
    the parameter as given, and the blocking bit; the answer is true and
    the transmit counter rises exactly when the [ioctl] does not fail. The
    identifiers 0x20 to 0x23 of the header arrive unchanged. *)
Theorem X27_sendCommand_fields :
  forall (ioctl_ret id param : Z) (blocking : bool) (mb : Mailbox),
    (m_fd mb < 0 ->
       sendCommand ioctl_ret id param blocking mb = (false, None, mb))
    /\ (0 <= m_fd mb ->
        exists cmd,
          snd (fst (sendCommand ioctl_ret id param blocking mb)) = Some cmd
          /\ cmd_id cmd = u8 id mod 128
          /\ param_ptr cmd = u32 param
          /\ block cmd = (if blocking then 1 else 0)
          /\ ip_id cmd = 0
          /\ sendCommand ioctl_ret (id + 128) param blocking mb
             = sendCommand ioctl_ret id param blocking mb
          /\ fst (fst (sendCommand ioctl_ret id param blocking mb))
             = negb (ioctl_ret <? 0)
          /\ m_tx_count (snd (sendCommand ioctl_ret id param blocking mb))
             = (if ioctl_ret <? 0 then m_tx_count mb else u32 (m_tx_count mb + 1))
          /\ (32 <= id <= 35 -> cmd_id cmd = id)).
Proof.
  intros ioctl_ret id param blocking mb. split.
  - intros Hfd. unfold sendCommand.
    replace (m_fd mb <? 0) with true by (symmetry; apply Z.ltb_lt; exact Hfd).
    reflexivity.
  - intros Hfd. unfold sendCommand.
    replace (m_fd mb <? 0) with false by (symmetry; apply Z.ltb_ge; exact Hfd).
    cbv zeta.
    assert (H7 : forall x, Z.land x 0x7F = x mod 128).
    { intros x. change 0x7F with (Z.ones 7). rewrite Z.land_ones by lia.
      reflexivity. }
    assert (Hlow : forall x, u8 x mod 128 = x mod 128).
    { intros x. unfold u8. change 256 with (2 ^ 8). change 128 with (2 ^ 7).
      rewrite <- !Z.land_ones by lia. rewrite <- Z.land_assoc. reflexivity. }
    assert (Halias : u8 (id + 128) mod 128 = u8 id mod 128).
    { rewrite !Hlow. rewrite <- (Z.mul_1_l 128) at 1. apply Z_mod_plus_full. }
    eexists. split.
    { destruct (ioctl_ret <? 0); cbn [fst snd]; reflexivity. }
    cbn [cmd_id param_ptr block ip_id]. rewrite !H7.
    split; [reflexivity|]. split; [reflexivity|]. split; [reflexivity|].
    split; [reflexivity|].
    split; [rewrite Halias; reflexivity|].
    split; [destruct (ioctl_ret <? 0); reflexivity|].
    split; [destruct (ioctl_ret <? 0); reflexivity|].
    intros Hid. unfold u8. rewrite (Z.mod_small id 256) by lia.
    apply Z.mod_small. lia.
Qed.

(** X28. Room in the ring, seen three ways. On a mapped region with at
    most 8 packets pending, [available] is 8 minus the number pending,
    [isFull] holds exactly when [available] is 0, and [writePacket] succeeds
    exactly when [isFull] does not hold; after a success [available] is one
    less. *)
Theorem X28_available_isFull_writePacket :
  forall (pkt : PosePacket31) (out : Z) (buf : SharedMotionBuffer) (fd : Z),
    u32 (write_idx buf - read_idx buf) <= PACKET_RING_SIZE ->
    let shm := mkShm (Some buf) fd in
    available shm = PACKET_RING_SIZE - u32 (write_idx buf - read_idx buf)
    /\ (isFull shm = true <-> available shm = 0)
    /\ fst (fst (writePacket (Some pkt) out shm)) = negb (isFull shm)
    /\ (isFull shm = false ->
        available (snd (writePacket (Some pkt) out shm)) = available shm - 1).
Proof.
  intros pkt out buf fd Hfill. cbv zeta.
  pose proof (u32_range (write_idx buf - read_idx buf)) as Hr.
  unfold available, isFull, writePacket, PACKET_RING_SIZE in *.
  cbn [m_buffer m_mem_fd]. cbv zeta.
  destruct (u32 (write_idx buf - read_idx buf) >=? 8) eqn:Hfull.
  - rewrite Z.geb_leb in Hfull. apply Z.leb_le in Hfull.
    replace (u32 (write_idx buf - read_idx buf) <? 8) with false
      by (symmetry; apply Z.ltb_ge; lia).
    split; [lia|]. split; [split; intros; [lia|reflexivity]|].
    split; [reflexivity|]. intros Hx. discriminate Hx.
  - rewrite Z.geb_leb in Hfull. apply Z.leb_gt in Hfull.
    replace (u32 (write_idx buf - read_idx buf) <? 8) with true
      by (symmetry; apply Z.ltb_lt; lia).
    split; [reflexivity|]. split; [split; intros; [discriminate|lia]|].
    split; [reflexivity|]. intros _.
    cbn [snd m_buffer with_write_idx slot_put with_packets write_idx read_idx].
    assert (Hnext : u32 (u32 (write_idx buf + 1) - read_idx buf)
                    = u32 (write_idx buf - read_idx buf) + 1).
    { unfold u32 in *. rewrite Zminus_mod_idemp_l.
      replace (write_idx buf + 1 - read_idx buf)
        with ((write_idx buf - read_idx buf) + 1) by lia.
      rewrite <- Zplus_mod_idemp_l. apply Z.mod_small. lia. }
    rewrite Hnext.
    destruct (u32 (write_idx buf - read_idx buf) + 1 <? 8) eqn:Hlt.
    + lia.
    + apply Z.ltb_ge in Hlt. lia.
Qed.

Lemma X28_available_isFull_writePacket_witness :
  u32 (write_idx zeroed_region - read_idx zeroed_region) <= PACKET_RING_SIZE
  /\ (let shm := mkShm (Some zeroed_region) 3 in
      available shm
      = PACKET_RING_SIZE - u32 (write_idx zeroed_region - read_idx zeroed_region)
      /\ (isFull shm = true <-> available shm = 0)
      /\ fst (fst (writePacket (Some Scenarios.move_1800) 0 shm)) = negb (isFull shm)
      /\ (isFull shm = false ->
          available (snd (writePacket (Some Scenarios.move_1800) 0 shm))
          = available shm - 1)).
Proof.
  assert (H : u32 (write_idx zeroed_region - read_idx zeroed_region)
              <= PACKET_RING_SIZE) by (vm_compute; discriminate).
  split; [exact H|].
  exact (X28_available_isFull_writePacket Scenarios.move_1800 0 zeroed_region 3 H).
Defined.

End ProducerFacts.
